(** * KR Property backend: the request handlers of [fixed-server.js]

    A shallow embedding of the five handlers that ingest a record or
    deliver a notification:

    - [POST /api/newsletter]                        (look up, else insert)
    - [POST /api/send-deal-lead]                    (look up, else insert, then confirm by mail)
    - [POST /api/inflation-email]                   (render, rotate senders, fall back to [pending_emails])
    - [POST /api/learning/progress]                 (look up, then update or insert)
    - [PUT  /api/learning/progress/:userId/:moduleId] (update, insert when nothing matched)

    A handler is a function from the request and the state of the outside
    world (tables, mail log, clock) to the response it sends and the world
    it leaves.  What the code cannot decide (store outages, commits of
    other requests, what SendGrid answers) is an explicit [Env].

    The other handlers of the file follow in the same way, over the tables
    they write: the listing of progress, the contact form, the
    achievements and the quiz results, the calculator, and [createTables]. *)

From Stdlib Require Import List String Ascii ZArith NArith Bool Lia DecimalString.
Import ListNotations.
Local Open Scope string_scope.
Local Open Scope list_scope.
Local Open Scope Z_scope.

(** ** JavaScript strings

    A string is its sequence of UTF-16 code units.  Literals of the source
    file are UTF-8 text; [js] converts one. *)

Definition jsstring := list N.

Fixpoint utf8_decode (need : nat) (acc : N) (bs : list N) : list N :=
  match bs with
  | [] => []
  | b :: r =>
    match need with
    | O =>
      if (b <? 128)%N then b :: utf8_decode 0 0%N r
      else if (b <? 224)%N then utf8_decode 1 (b mod 32)%N r
      else if (b <? 240)%N then utf8_decode 2 (b mod 16)%N r
      else utf8_decode 3 (b mod 8)%N r
    | S O => (acc * 64 + b mod 64)%N :: utf8_decode 0 0%N r
    | S n => utf8_decode n (acc * 64 + b mod 64)%N r
    end
  end.

Definition utf16_units (cp : N) : list N :=
  if (cp <? 65536)%N then [cp]
  else [(55296 + (cp - 65536) / 1024)%N; (56320 + (cp - 65536) mod 1024)%N].

Definition js (s : string) : jsstring :=
  flat_map utf16_units
    (utf8_decode 0 0%N (map N_of_ascii (list_ascii_of_string s))).

(** A literal of markup, with [~] written for the double quote. *)
Definition html (s : string) : jsstring :=
  map (fun c => if (c =? 126)%N then 34%N else c) (js s).

Definition jsstring_eqb (a b : jsstring) : bool :=
  if list_eq_dec N.eq_dec a b then true else false.

(** [\s] of a regular expression and the characters [trim] strips:
    WhiteSpace and LineTerminator of ECMA-262. *)
Definition is_space (c : N) : bool :=
  ((9 <=? c) && (c <=? 13) || (c =? 32) || (c =? 160) || (c =? 5760)
   || (8192 <=? c) && (c <=? 8202) || (c =? 8232) || (c =? 8233)
   || (c =? 8239) || (c =? 8287) || (c =? 12288) || (c =? 65279))%N.

Fixpoint trimStart (s : jsstring) : jsstring :=
  match s with
  | c :: r => if is_space c then trimStart r else s
  | [] => []
  end.

Definition trim (s : jsstring) : jsstring :=
  rev (trimStart (rev (trimStart s))).

(** [emailRegex = /^[^\s@]+@[^\s@]+\.[^\s@]+$/], the same constant in every
    handler that validates an address. *)
Definition at_sign : N := 64%N.
Definition full_stop : N := 46%N.

(** The class [[^\s@]]. *)
Definition plain (c : N) : bool := negb (is_space c) && negb (c =? at_sign)%N.

Fixpoint takePlain (s : jsstring) : jsstring :=
  match s with
  | c :: r => if plain c then c :: takePlain r else []
  | [] => []
  end.

Fixpoint dropPlain (s : jsstring) : jsstring :=
  match s with
  | c :: r => if plain c then dropPlain r else s
  | [] => []
  end.

(** The first repetition has to stop at the first character outside the
    class, which must be the [@]; what follows has to stay in the class to
    the end, with a full stop that is neither its first nor its last
    character. *)
Definition emailRegex_test (s : jsstring) : bool :=
  match takePlain s, dropPlain s with
  | _ :: _, c :: d =>
      (c =? at_sign)%N && forallb plain d &&
      match d with
      | [] => false
      | _ :: t => existsb (N.eqb full_stop) (removelast t)
      end
  | _, _ => false
  end.

(** What the regular expression denotes. *)
Definition matches_emailRegex (s : jsstring) : Prop :=
  exists a b c,
    s = a ++ at_sign :: b ++ full_stop :: c /\
    a <> [] /\ b <> [] /\ c <> [] /\
    forallb plain a = true /\ forallb plain b = true /\ forallb plain c = true.


(** ** Values

    Numbers are IEEE doubles formatted by the host; they stay abstract,
    with the operations the handlers apply to them. *)

Class JsNumber (num : Type) := {
  num_of_Z : Z -> num;                 (* an integer column read back *)
  num_truthy : num -> bool;            (* neither zero nor NaN *)
  num_isFinite : num -> bool;
  num_toString : num -> jsstring;
  num_toLocaleString : num -> jsstring; (* in the locale of the process *)
  num_toFixed2 : num -> jsstring;      (* [toFixed(2)] *)
}.

(** What [express.json] puts in [req.body], and what is handed to
    [res.json]. *)
#[local] Set Warnings "-register-all".
Inductive jsval (num : Type) : Type :=
| JUndefined
| JNull
| JBool (b : bool)
| JNum (n : num)
| JStr (s : jsstring)
| JArr (items : list (jsval num))
| JObj (fields : list (string * jsval num)).

Arguments JUndefined {num}.
Arguments JNull {num}.
Arguments JBool {num} b.
Arguments JNum {num} n.
Arguments JStr {num} s.
Arguments JArr {num} items.
Arguments JObj {num} fields.

(** How the Postgres driver writes a bound parameter that is neither a
    string nor null into a text column. *)
Class PgDriver (num : Type) := {
  driver_text : jsval num -> jsstring;
}.

(** A thrown [Error], by the three properties the handlers read:
    [e.message], [e.code] and [e.response?.body]. *)
Record Error (num : Type) := {
  message : jsstring;
  code : jsval num;
  response_body : jsval num;
}.

Arguments message {num} e.
Arguments code {num} e.
Arguments response_body {num} e.

(** A reading of the clock, by what is read off it. *)
Record Date := {
  getFullYear : Z;
  toISOString : jsstring;
}.

(** [Number::toString] of an integer (of magnitude below 10^21). *)
Definition ToString_int (z : Z) : jsstring :=
  js (DecimalString.NilZero.string_of_int (Z.to_int z)).

Inductive Result (E A : Type) : Type :=
| Ok (a : A)
| Throw (e : E).

Arguments Ok {E A} a.
Arguments Throw {E A} e.

(** ** The store

    One module per table of the schema, a row as drizzle returns it.  A
    [serial] column is a [Z], a [text] column a [jsstring], a nullable
    column an [option], a [timestamp] a [Date]. *)

Module newsletterSubscriptions.
Record row := {
  id : Z;
  email : jsstring;          (* notNull, unique *)
  createdAt : Date;
}.
End newsletterSubscriptions.

Module dealSourcingWaitlist.
Record row := {
  id : Z;
  name : jsstring;
  email : jsstring;          (* notNull, unique *)
  phone : option jsstring;
  investmentAmount : jsstring;
  experienceLevel : jsstring;
  createdAt : Date;
}.
End dealSourcingWaitlist.

Module learningProgress.
Record row := {
  id : Z;
  userId : jsstring;
  moduleId : jsstring;
  completed : jsstring;
  score : option jsstring;
  timeSpent : option jsstring;
  createdAt : Date;
  updatedAt : Date;
}.
End learningProgress.

Module pendingEmails.
Record row := {
  id : Z;
  recipientEmail : jsstring;
  recipientName : option jsstring;
  subject : jsstring;
  htmlContent : jsstring;
  emailType : jsstring;
  status : jsstring;
  errorDetails : option jsstring;
  attempts : option Z;
  createdAt : Date;
  sentAt : option Date;
}.
End pendingEmails.

(** The four tables, each with the next value of its [id] sequence. *)
Record Tables := {
  newsletter_subscriptions : list newsletterSubscriptions.row;
  newsletter_subscriptions_id_seq : Z;
  deal_sourcing_waitlist : list dealSourcingWaitlist.row;
  deal_sourcing_waitlist_id_seq : Z;
  learning_progress : list learningProgress.row;
  learning_progress_id_seq : Z;
  pending_emails : list pendingEmails.row;
  pending_emails_id_seq : Z;
}.

(** The argument of [sgMail.send]. *)
Record Msg := {
  to : jsstring;
  from_email : jsstring;
  from_name : option jsstring;
  msg_subject : jsstring;
  msg_html : jsstring;
}.

(** The world outside a handler: the store, every call made to
    [sgMail.send] so far, the number of calls made to store and transport
    so far, and the clock. *)
Record World := {
  tables : Tables;
  mail_log : list Msg;
  ticks : nat;
  now : Date;
}.

(** What a handler does not decide.  [db] and [SENDGRID_API_KEY] are fixed
    at start-up.  The call number [n] (the world's [ticks]) selects: whether
    the store fails statement [n] ([db_outage]: it cannot be reached, or it
    refuses the statement for a reason of its own), what other requests
    have committed just before statement [n] runs ([concurrent]), and what
    the transport answers to send [n] ([sg_send], [None] for delivered). *)
Record Env (num : Type) := {
  db : bool;
  SENDGRID_API_KEY : option jsstring;
  db_outage : nat -> option (Error num);
  concurrent : nat -> Tables -> Tables;
  sg_send : nat -> Msg -> option (Error num);
}.

Arguments db {num} e.
Arguments SENDGRID_API_KEY {num} e.
Arguments db_outage {num} e n.
Arguments concurrent {num} e n t.
Arguments sg_send {num} e n m.

(** The answer of a handler: [res.status(s).json(b)], a [Date] in [b]
    written as [JSON.stringify] sends it. *)
Record Response (num : Type) := {
  status : Z;
  body : jsval num;
}.

Arguments status {num} r.
Arguments body {num} r.

(** The world once a statement has left the tables as [t]. *)
Definition committed (t : Tables) (w : World) : World :=
  {| tables := t; mail_log := mail_log w; ticks := S (ticks w); now := now w |}.

(** The world once [msg] has been handed to the transport. *)
Definition mailed (msg : Msg) (w : World) : World :=
  {| tables := tables w; mail_log := mail_log w ++ [msg];
     ticks := S (ticks w); now := now w |}.

Section Handlers.

Context {num : Type} {NumOps : JsNumber num} {Driver : PgDriver num}.

Local Notation "'value'" := (jsval num) (only parsing).
Local Notation "'error'" := (Error num) (only parsing).
Local Notation "'outcome'" := (Result (Error num)) (only parsing).

Definition TypeError (msg : jsstring) : error :=
  {| message := msg; code := JUndefined; response_body := JUndefined |}.

(** [new Error(msg)] *)
Definition NewError (msg : jsstring) : error :=
  {| message := msg; code := JUndefined; response_body := JUndefined |}.

Definition rbind {A B} (r : outcome A) (k : A -> outcome B) : outcome B :=
  match r with
  | Ok a => k a
  | Throw e => Throw e
  end.

(** [!!v] *)
Definition truthy (v : value) : bool :=
  match v with
  | JUndefined | JNull => false
  | JBool b => b
  | JNum n => num_truthy n
  | JStr [] => false
  | JStr (_ :: _) => true
  | JArr _ | JObj _ => true
  end.

(** [a || b], for a [b] that has no effect *)
Definition or_else (a b : value) : value := if truthy a then a else b.

Definition nullish (v : value) : bool :=
  match v with
  | JUndefined | JNull => true
  | _ => false
  end.

Fixpoint obj_get (k : string) (fs : list (string * value)) : value :=
  match fs with
  | [] => JUndefined
  | (k', v) :: r => if String.eqb k k' then v else obj_get k r
  end.

Definition has_own (k : string) (fs : list (string * value)) : bool :=
  existsb (fun kv => String.eqb k (fst kv)) fs.

(** [v.k] for the property names the handlers read off a request, none of
    which a prototype defines. *)
Definition get (v : value) (k : string) : outcome value :=
  match v with
  | JUndefined | JNull =>
      Throw (TypeError (js "Cannot read properties of undefined (reading '"
                        ++ js k ++ js "')"))
  | JObj fs => Ok (obj_get k fs)
  | _ => Ok JUndefined
  end.

(** [ToString(v)], as a template literal applies it.  An object parsed
    from JSON has no callable [toString] of its own: with an own property
    of that name the conversion throws. *)
Fixpoint ToString (v : value) : outcome jsstring :=
  match v with
  | JUndefined => Ok (js "undefined")
  | JNull => Ok (js "null")
  | JBool b => Ok (js (if b then "true" else "false"))
  | JNum n => Ok (num_toString n)
  | JStr s => Ok s
  | JArr items =>
      (fix join (l : list value) : outcome jsstring :=
         match l with
         | [] => Ok []
         | x :: r =>
             rbind (match x with
                    | JUndefined | JNull => Ok []
                    | _ => ToString x
                    end)
               (fun sx =>
                  match r with
                  | [] => Ok sx
                  | _ :: _ => rbind (join r) (fun sr => Ok (sx ++ js "," ++ sr))
                  end)
         end) items
  | JObj fs =>
      if has_own "toString" fs
      then Throw (TypeError (js "Cannot convert object to primitive value"))
      else Ok (js "[object Object]")
  end.

(** [v.toLocaleString()] for a [v] that is neither null nor undefined *)
Fixpoint toLocaleString (v : value) : outcome jsstring :=
  match v with
  | JUndefined | JNull =>
      Throw (TypeError (js "Cannot read properties of undefined (reading 'toLocaleString')"))
  | JBool b => Ok (js (if b then "true" else "false"))
  | JNum n => Ok (num_toLocaleString n)
  | JStr s => Ok s
  | JArr items =>
      (fix join (l : list value) : outcome jsstring :=
         match l with
         | [] => Ok []
         | x :: r =>
             rbind (match x with
                    | JUndefined | JNull => Ok []
                    | _ => toLocaleString x
                    end)
               (fun sx =>
                  match r with
                  | [] => Ok sx
                  | _ :: _ => rbind (join r) (fun sr => Ok (sx ++ js "," ++ sr))
                  end)
         end) items
  | JObj fs =>
      if has_own "toLocaleString" fs
      then Throw (TypeError (js "toLocaleString is not a function"))
      else ToString (JObj fs)
  end.

(** [v?.toLocaleString()] *)
Definition opt_toLocaleString (v : value) : outcome value :=
  if nullish v then Ok JUndefined
  else rbind (toLocaleString v) (fun s => Ok (JStr s)).

(** [v?.toFixed(2)] *)
Definition opt_toFixed2 (v : value) : outcome value :=
  match v with
  | JUndefined | JNull => Ok JUndefined
  | JNum n => Ok (JStr (num_toFixed2 n))
  | _ => Throw (TypeError (js "toFixed is not a function"))
  end.

(** [v.trim()] *)
Definition call_trim (what : string) (v : value) : outcome jsstring :=
  match v with
  | JStr s => Ok (trim s)
  | JUndefined | JNull =>
      Throw (TypeError (js "Cannot read properties of undefined (reading 'trim')"))
  | _ => Throw (TypeError (js what ++ js ".trim is not a function"))
  end.

(** A template literal: the pieces are converted from left to right and
    the first one that throws ends the evaluation. *)
Fixpoint template (parts : list (outcome jsstring)) : outcome jsstring :=
  match parts with
  | [] => Ok []
  | p :: r => rbind p (fun s => rbind (template r) (fun t => Ok (s ++ t)))
  end.

(** [JSON.stringify] *)
Definition hex_digit (n : N) : N :=
  if (n <? 10)%N then (48 + n)%N else (87 + n)%N.

Definition unicode_escape (c : N) : jsstring :=
  js "\u" ++ [hex_digit (c / 4096 mod 16); hex_digit (c / 256 mod 16);
              hex_digit (c / 16 mod 16); hex_digit (c mod 16)]%N.

Definition is_high_surrogate (c : N) : bool := ((55296 <=? c) && (c <=? 56319))%N.
Definition is_low_surrogate (c : N) : bool := ((56320 <=? c) && (c <=? 57343))%N.

Definition quote_unit (c : N) : jsstring :=
  if (c =? 8)%N then js "\b"
  else if (c =? 9)%N then js "\t"
  else if (c =? 10)%N then js "\n"
  else if (c =? 12)%N then js "\f"
  else if (c =? 13)%N then js "\r"
  else if (c =? 34)%N then [92; 34]%N
  else if (c =? 92)%N then [92; 92]%N
  else if (c <? 32)%N || is_high_surrogate c || is_low_surrogate c
       then unicode_escape c
  else [c].

Fixpoint quote_units (s : jsstring) : jsstring :=
  match s with
  | [] => []
  | c :: r =>
      match r with
      | d :: r' =>
          if is_high_surrogate c && is_low_surrogate d
          then c :: d :: quote_units r'
          else quote_unit c ++ quote_units r
      | [] => quote_unit c
      end
  end.

Definition QuoteJSONString (s : jsstring) : jsstring :=
  [34%N] ++ quote_units s ++ [34%N].

Fixpoint join_comma (l : list jsstring) : jsstring :=
  match l with
  | [] => []
  | [s] => s
  | s :: r => s ++ js "," ++ join_comma r
  end.

Fixpoint JSON_stringify (v : value) : option jsstring :=
  match v with
  | JUndefined => None
  | JNull => Some (js "null")
  | JBool b => Some (js (if b then "true" else "false"))
  | JNum n => Some (if num_isFinite n then num_toString n else js "null")
  | JStr s => Some (QuoteJSONString s)
  | JArr items =>
      Some (js "[" ++
            join_comma
              ((fix elements (l : list value) : list jsstring :=
                  match l with
                  | [] => []
                  | x :: r =>
                      match JSON_stringify x with
                      | Some s => s
                      | None => js "null"
                      end :: elements r
                  end) items)
            ++ js "]")
  | JObj fs =>
      Some (js "{" ++
            join_comma
              ((fix members (l : list (string * value)) : list jsstring :=
                  match l with
                  | [] => []
                  | (k, x) :: r =>
                      match JSON_stringify x with
                      | Some s => (QuoteJSONString (js k) ++ js ":" ++ s) :: members r
                      | None => members r
                      end
                  end) fs)
            ++ js "}")
  end.

(** ** Handlers as computations

    A computation runs in a world and either returns or throws; what it
    did to the world stays done when it throws. *)

Variable env : Env num.

Definition M (A : Type) : Type := World -> Result (Error num) A * World.

Definition ret {A} (a : A) : M A := fun w => (Ok a, w).

Definition throw {A} (e : error) : M A := fun w => (Throw e, w).

Definition bind {A B} (m : M A) (k : A -> M B) : M B :=
  fun w =>
    match m w with
    | (Ok a, w') => k a w'
    | (Throw e, w') => (Throw e, w')
    end.

Definition lift {A} (r : outcome A) : M A := fun w => (r, w).

(** [try { m } catch (e) { h e }] *)
Definition try_catch {A} (m : M A) (h : error -> M A) : M A :=
  fun w =>
    match m w with
    | (Ok a, w') => (Ok a, w')
    | (Throw e, w') => h e w'
    end.

Local Notation "x <- m ;; k" := (bind m (fun x => k))
  (at level 61, m at next level, right associativity).

(** [new Date()] *)
Definition new_Date : M Date := fun w => (Ok (now w), w).

(** One statement sent to the store. *)
Definition db_statement {A} (run : Date -> Tables -> outcome A * Tables) : M A :=
  fun w =>
    let n := ticks w in
    let t := concurrent env n (tables w) in
    match db_outage env n with
    | Some e => (Throw e, committed t w)
    | None => let (r, t') := run (now w) t in (r, committed t' w)
    end.

(** [await sgMail.send(msg)] *)
Definition sgMail_send (msg : Msg) : M unit :=
  fun w =>
    match sg_send env (ticks w) msg with
    | Some e => (Throw e, mailed msg w)
    | None => (Ok tt, mailed msg w)
    end.

(** The error of the store for a second row with the same value in a
    [unique] column ([~] stands for the double quote). *)
Definition unique_violation (constraint : string) : error :=
  {| message := html "duplicate key value violates unique constraint ~"
                ++ js constraint ++ html "~";
     code := JStr (js "23505");
     response_body := JUndefined |}.

(** A parameter bound to a text column. *)
Definition param_text (v : value) : jsstring :=
  match v with
  | JStr s => s
  | _ => driver_text v
  end.

Definition sql_text (v : value) : option jsstring :=
  if nullish v then None else Some (param_text v).

(** *** [newsletter_subscriptions] *)

(** [eq(newsletterSubscriptions.email, e)] *)
Definition subscribed_as (e : jsstring) (r : newsletterSubscriptions.row) : bool :=
  jsstring_eqb (newsletterSubscriptions.email r) e.

Definition select_newsletterSubscriptions (e : jsstring)
  : M (list newsletterSubscriptions.row) :=
  db_statement (fun _ t =>
    (Ok (filter (subscribed_as e) (newsletter_subscriptions t)), t)).

Definition set_newsletter_subscriptions
    (rows : list newsletterSubscriptions.row) (seq : Z) (t : Tables) : Tables :=
  {| newsletter_subscriptions := rows;
     newsletter_subscriptions_id_seq := seq;
     deal_sourcing_waitlist := deal_sourcing_waitlist t;
     deal_sourcing_waitlist_id_seq := deal_sourcing_waitlist_id_seq t;
     learning_progress := learning_progress t;
     learning_progress_id_seq := learning_progress_id_seq t;
     pending_emails := pending_emails t;
     pending_emails_id_seq := pending_emails_id_seq t |}.

(** [db.insert(newsletterSubscriptions).values({ email }).returning()]; the
    sequence advances also when the row is refused. *)
Definition insert_newsletterSubscriptions (e : jsstring)
  : M (list newsletterSubscriptions.row) :=
  db_statement (fun d t =>
    let rows := newsletter_subscriptions t in
    let i := newsletter_subscriptions_id_seq t in
    if existsb (subscribed_as e) rows
    then (Throw (unique_violation "newsletter_subscriptions_email_key"),
          set_newsletter_subscriptions rows (i + 1) t)
    else
      let r := {| newsletterSubscriptions.id := i;
                  newsletterSubscriptions.email := e;
                  newsletterSubscriptions.createdAt := d |} in
      (Ok [r], set_newsletter_subscriptions (rows ++ [r]) (i + 1) t)).

(** *** [deal_sourcing_waitlist] *)

(** [eq(dealSourcingWaitlist.email, e)] *)
Definition waitlisted_as (e : jsstring) (r : dealSourcingWaitlist.row) : bool :=
  jsstring_eqb (dealSourcingWaitlist.email r) e.

Definition select_dealSourcingWaitlist (e : jsstring)
  : M (list dealSourcingWaitlist.row) :=
  db_statement (fun _ t =>
    (Ok (filter (waitlisted_as e) (deal_sourcing_waitlist t)), t)).

Definition set_deal_sourcing_waitlist
    (rows : list dealSourcingWaitlist.row) (seq : Z) (t : Tables) : Tables :=
  {| newsletter_subscriptions := newsletter_subscriptions t;
     newsletter_subscriptions_id_seq := newsletter_subscriptions_id_seq t;
     deal_sourcing_waitlist := rows;
     deal_sourcing_waitlist_id_seq := seq;
     learning_progress := learning_progress t;
     learning_progress_id_seq := learning_progress_id_seq t;
     pending_emails := pending_emails t;
     pending_emails_id_seq := pending_emails_id_seq t |}.

Definition insert_dealSourcingWaitlist
    (n e : jsstring) (p : option jsstring) (amount level : jsstring)
  : M (list dealSourcingWaitlist.row) :=
  db_statement (fun d t =>
    let rows := deal_sourcing_waitlist t in
    let i := deal_sourcing_waitlist_id_seq t in
    if existsb (waitlisted_as e) rows
    then (Throw (unique_violation "deal_sourcing_waitlist_email_key"),
          set_deal_sourcing_waitlist rows (i + 1) t)
    else
      let r := {| dealSourcingWaitlist.id := i;
                  dealSourcingWaitlist.name := n;
                  dealSourcingWaitlist.email := e;
                  dealSourcingWaitlist.phone := p;
                  dealSourcingWaitlist.investmentAmount := amount;
                  dealSourcingWaitlist.experienceLevel := level;
                  dealSourcingWaitlist.createdAt := d |} in
      (Ok [r], set_deal_sourcing_waitlist (rows ++ [r]) (i + 1) t)).

(** *** [learning_progress], which has no unique column besides [id] *)

Definition set_learning_progress
    (rows : list learningProgress.row) (seq : Z) (t : Tables) : Tables :=
  {| newsletter_subscriptions := newsletter_subscriptions t;
     newsletter_subscriptions_id_seq := newsletter_subscriptions_id_seq t;
     deal_sourcing_waitlist := deal_sourcing_waitlist t;
     deal_sourcing_waitlist_id_seq := deal_sourcing_waitlist_id_seq t;
     learning_progress := rows;
     learning_progress_id_seq := seq;
     pending_emails := pending_emails t;
     pending_emails_id_seq := pending_emails_id_seq t |}.

(** [and(eq(learningProgress.userId, u), eq(learningProgress.moduleId, m))] *)
Definition progress_of (u m : jsstring) (r : learningProgress.row) : bool :=
  jsstring_eqb (learningProgress.userId r) u &&
  jsstring_eqb (learningProgress.moduleId r) m.

Definition select_learningProgress (u m : jsstring)
  : M (list learningProgress.row) :=
  db_statement (fun _ t =>
    (Ok (filter (progress_of u m) (learning_progress t)), t)).

Definition set_progress (c : jsstring) (s ts : option jsstring) (d : Date)
    (r : learningProgress.row) : learningProgress.row :=
  {| learningProgress.id := learningProgress.id r;
     learningProgress.userId := learningProgress.userId r;
     learningProgress.moduleId := learningProgress.moduleId r;
     learningProgress.completed := c;
     learningProgress.score := s;
     learningProgress.timeSpent := ts;
     learningProgress.createdAt := learningProgress.createdAt r;
     learningProgress.updatedAt := d |}.

(** [db.update(learningProgress).set({...}).where(...).returning()]:
    every row the predicate selects is rewritten where it stands, and the
    rewritten rows come back.  [d] is the [new Date()] of the caller. *)
Definition overwrite (u m c : jsstring) (s ts : option jsstring) (d : Date)
    (rows : list learningProgress.row) : list learningProgress.row :=
  map (fun r => if progress_of u m r then set_progress c s ts d r else r) rows.

Definition update_learningProgress (u m c : jsstring) (s ts : option jsstring)
    (d : Date) : M (list learningProgress.row) :=
  db_statement (fun _ t =>
    let rows := overwrite u m c s ts d (learning_progress t) in
    (Ok (filter (progress_of u m) rows),
     set_learning_progress rows (learning_progress_id_seq t) t)).

Definition new_progress (i : Z) (u m c : jsstring) (s ts : option jsstring)
    (d : Date) : learningProgress.row :=
  {| learningProgress.id := i;
     learningProgress.userId := u;
     learningProgress.moduleId := m;
     learningProgress.completed := c;
     learningProgress.score := s;
     learningProgress.timeSpent := ts;
     learningProgress.createdAt := d;
     learningProgress.updatedAt := d |}.

Definition insert_learningProgress (u m c : jsstring) (s ts : option jsstring)
  : M (list learningProgress.row) :=
  db_statement (fun d t =>
    let i := learning_progress_id_seq t in
    let r := new_progress i u m c s ts d in
    (Ok [r], set_learning_progress (learning_progress t ++ [r]) (i + 1) t)).

(** *** [pending_emails] *)

Definition set_pending_emails
    (rows : list pendingEmails.row) (seq : Z) (t : Tables) : Tables :=
  {| newsletter_subscriptions := newsletter_subscriptions t;
     newsletter_subscriptions_id_seq := newsletter_subscriptions_id_seq t;
     deal_sourcing_waitlist := deal_sourcing_waitlist t;
     deal_sourcing_waitlist_id_seq := deal_sourcing_waitlist_id_seq t;
     learning_progress := learning_progress t;
     learning_progress_id_seq := learning_progress_id_seq t;
     pending_emails := rows;
     pending_emails_id_seq := seq |}.

(** [db.insert(pendingEmails).values({...})]: [attempts], [createdAt] and
    [sentAt] are left to their defaults. *)
Definition pending_row (i : Z)
    (rcpt : jsstring) (rname : option jsstring) (subj content type st : jsstring)
    (details : option jsstring) (d : Date) : pendingEmails.row :=
  {| pendingEmails.id := i;
     pendingEmails.recipientEmail := rcpt;
     pendingEmails.recipientName := rname;
     pendingEmails.subject := subj;
     pendingEmails.htmlContent := content;
     pendingEmails.emailType := type;
     pendingEmails.status := st;
     pendingEmails.errorDetails := details;
     pendingEmails.attempts := Some 0;
     pendingEmails.createdAt := d;
     pendingEmails.sentAt := None |}.

Definition insert_pendingEmails
    (rcpt : jsstring) (rname : option jsstring) (subj content type st : jsstring)
    (details : option jsstring) : M unit :=
  db_statement (fun d t =>
    let i := pending_emails_id_seq t in
    let r := pending_row i rcpt rname subj content type st details d in
    (Ok tt, set_pending_emails (pending_emails t ++ [r]) (i + 1) t)).

(** ** The handlers

    [app.post(path, async (req, res) => { try { ... } catch (error) { ... } })]:
    the body answers or throws, and the [catch] answers for it. *)

Definition handler (run : M (Response num)) (on_error : error -> Response num)
  : World -> Response num * World :=
  fun w =>
    match run w with
    | (Ok r, w') => (r, w')
    | (Throw e, w') => (on_error e, w')
    end.

(** [res.status(st).json({ success: false, message: msg })] *)
Definition refuse (st : Z) (msg : string) : Response num :=
  {| status := st;
     body := JObj [("success", JBool false); ("message", JStr (js msg))] |}.

(** [res.status(500).json({ success: false, message: msg, error: error.message })] *)
Definition failed (msg : string) (e : error) : Response num :=
  {| status := 500;
     body := JObj [("success", JBool false); ("message", JStr (js msg));
                   ("error", JStr (message e))] |}.

(** [if (SENDGRID_API_KEY)] *)
Definition sendgrid_configured : bool :=
  match SENDGRID_API_KEY env with
  | Some (_ :: _) => true
  | _ => false
  end.

(** [!s] for a string *)
Definition empty (s : jsstring) : bool :=
  match s with
  | [] => true
  | _ :: _ => false
  end.

(** [res.status(st).json({ success: true, message: msg, data: d })] *)
Definition answer (st : Z) (msg : string) (d : value) : Response num :=
  {| status := st;
     body := JObj [("success", JBool true); ("message", JStr (js msg));
                   ("data", d)] |}.

(** ** [POST /api/newsletter] *)

(** [{ id: r.id, email: r.email, subscribedAt: r.createdAt }] *)
Definition subscription_data (r : newsletterSubscriptions.row) : value :=
  JObj [("id", JNum (num_of_Z (newsletterSubscriptions.id r)));
        ("email", JStr (newsletterSubscriptions.email r));
        ("subscribedAt", JStr (toISOString (newsletterSubscriptions.createdAt r)))].

Definition newsletter (req_body : value) : World -> Response num * World :=
  handler
    (email <- lift (get req_body "email") ;;
     (* !email || !email.trim() *)
     missing <- lift (if truthy email
                      then rbind (call_trim "email" email) (fun t => Ok (empty t))
                      else Ok true) ;;
     if missing then ret (refuse 400 "Email is required")
     else
       t <- lift (call_trim "email" email) ;;
       if negb (emailRegex_test t) then ret (refuse 400 "Invalid email format")
       else if negb (db env)
       then ret (refuse 500 "Database connection not available")
       else
         existing <- select_newsletterSubscriptions t ;;
         match existing with
         | r :: _ =>
             ret (answer 200 "Email already subscribed to newsletter"
                    (subscription_data r))
         | [] =>
             result <- insert_newsletterSubscriptions t ;;
             match result with
             | [] => throw (NewError (js "Failed to create newsletter subscription"))
             | r :: _ =>
                 ret (answer 201 "Successfully subscribed to newsletter"
                        (subscription_data r))
             end
         end)
    (failed "Failed to subscribe to newsletter").

(** ** [POST /api/send-deal-lead] *)

(** The [html] of the confirmation mail; [n] is [name.trim()]. *)
Definition confirmation_html (n : jsstring) : jsstring :=
  html "
            <div style=~font-family: Arial, sans-serif; max-width: 600px; margin: 0 auto; padding: 20px;~>
              <h2 style=~color: #2563eb;~>Welcome to Our Deal Sourcing Waitlist!</h2>
              <p>Hi "
  ++ n ++
  html ",</p>
              <p>Thank you for joining our exclusive deal sourcing waitlist! We're excited to have you on board.</p>
              <div style=~background-color: #f8fafc; padding: 20px; border-radius: 8px; margin: 20px 0;~>
                <h3 style=~color: #1e40af; margin-top: 0;~>What happens next?</h3>
                <ul>
                  <li>We'll review your investment criteria</li>
                  <li>You'll be among the first to hear about new opportunities</li>
                  <li>Our team will reach out with deals that match your requirements</li>
                </ul>
              </div>
              <p>If you have any questions, don't hesitate to reach out!</p>
              <p>Best regards,<br><strong>The KR Property Investments Team</strong></p>
            </div>
          ".

Definition waitlist_data (r : dealSourcingWaitlist.row) : list (string * value) :=
  [("id", JNum (num_of_Z (dealSourcingWaitlist.id r)));
   ("name", JStr (dealSourcingWaitlist.name r));
   ("email", JStr (dealSourcingWaitlist.email r));
   ("joinedAt", JStr (toISOString (dealSourcingWaitlist.createdAt r)))].

(** [phone ? phone.trim() : null] *)
Definition phone_column (phone : value) : outcome (option jsstring) :=
  if truthy phone
  then rbind (call_trim "phone" phone) (fun s => Ok (Some s))
  else Ok None.

Definition welcome (rcpt n : jsstring) : Msg :=
  {| to := rcpt;
     from_email := js "deals@krpropertyinvestments.com";
     from_name := None;
     msg_subject := js "Welcome to KR Property Investments Deal Sourcing Waitlist! 🎯";
     msg_html := confirmation_html n |}.

Definition send_deal_lead (req_body : value) : World -> Response num * World :=
  handler
    (name <- lift (get req_body "name") ;;
     email <- lift (get req_body "email") ;;
     phone <- lift (get req_body "phone") ;;
     investmentAmount <- lift (get req_body "investmentAmount") ;;
     experienceLevel <- lift (get req_body "experienceLevel") ;;
     if negb (truthy name) || negb (truthy email) ||
        negb (truthy investmentAmount) || negb (truthy experienceLevel)
     then ret (refuse 400
                 "Name, email, investment amount, and experience level are required")
     else
       e <- lift (call_trim "email" email) ;;
       if negb (emailRegex_test e) then ret (refuse 400 "Invalid email format")
       else if negb (db env)
       then ret (refuse 500 "Database connection not available")
       else
         existing <- select_dealSourcingWaitlist e ;;
         match existing with
         | r :: _ =>
             ret (answer 200 "Email already on deal sourcing waitlist"
                    (JObj (waitlist_data r)))
         | [] =>
             n <- lift (call_trim "name" name) ;;
             p <- lift (phone_column phone) ;;
             a <- lift (call_trim "investmentAmount" investmentAmount) ;;
             l <- lift (call_trim "experienceLevel" experienceLevel) ;;
             result <- insert_dealSourcingWaitlist n e p a l ;;
             match result with
             | [] => throw (NewError (js "Failed to add to deal sourcing waitlist"))
             | waitlistEntry :: _ =>
                 (* let emailSent = false; if (SENDGRID_API_KEY) { try ... catch ... } *)
                 emailSent <-
                   (if sendgrid_configured
                    then try_catch
                           (_ <- sgMail_send (welcome e n) ;; ret true)
                           (fun _ => ret false)
                    else ret false) ;;
                 ret (answer 201 "Successfully added to deal sourcing waitlist"
                        (JObj (waitlist_data waitlistEntry
                               ++ [("emailSent", JBool emailSent)])))
             end
         end)
    (failed "Failed to join deal sourcing waitlist").

(** ** [POST /api/inflation-email]

    [emailContent], the template literal of the report.  A literal piece
    is the text of the source with [~] written for the double quote; [d] is
    the [new Date()] of the footer. *)
Definition emailContent
    (name amount month year chartImage calculationData : value) (d : Date)
  : outcome jsstring :=
  template
    [ Ok (html "
          <div style=~font-family: Arial, sans-serif; max-width: 700px; margin: 0 auto; padding: 20px; line-height: 1.6; color: #333;~>
            
            <div style=~text-align: left; margin-bottom: 30px; border-bottom: 2px solid #ddd; padding-bottom: 15px;~>
              <h1 style=~color: #008e6d; margin: 0; font-size: 24px; font-weight: bold;~>KR Property Investments</h1>
              <p style=~margin: 5px 0 0 0; font-size: 16px; color: #666;~>Your Inflation Impact Report</p>
            </div>
            
            <p style=~margin-bottom: 20px;~>Hello ");
      ToString (or_else name (JStr (js "there")));
      Ok (html ",</p>
            
            <p style=~margin-bottom: 25px;~>Thank you for using our Inflation Calculator. Here's your detailed inflation impact analysis:</p>
            
            <div style=~border-top: 2px solid #ddd; margin: 30px 0 20px 0;~></div>
            
            <div style=~margin: 30px 0;~>
              <h2 style=~color: #008e6d; margin: 0 0 20px 0; font-size: 20px;~>📊 Calculation Summary</h2>
              <ul style=~list-style: none; padding: 0; margin: 0;~>
                <li style=~margin-bottom: 8px;~>• <strong>Original Amount:</strong> £");
      rbind (opt_toLocaleString amount) (fun a =>
       if truthy a then ToString a
       else rbind (rbind (get calculationData "originalValue") opt_toLocaleString)
              ToString);
      Ok (html "</li>
                <li style=~margin-bottom: 8px;~>• <strong>From:</strong> ");
      ToString month;
      Ok (html "/");
      ToString year;
      Ok (html "</li>
                <li style=~margin-bottom: 8px;~>• <strong>Today's Value:</strong> £");
      rbind (rbind (get calculationData "todayValue") opt_toLocaleString) ToString;
      Ok (html "</li>
                <li style=~margin-bottom: 8px;~>• <strong>Loss in Purchasing Power:</strong> £");
      rbind (rbind (get calculationData "lossInValue") opt_toLocaleString) ToString;
      Ok (html "</li>
                <li style=~margin-bottom: 8px;~>• <strong>Percentage Increase Needed:</strong> ");
      rbind (rbind (get calculationData "percentageIncrease") opt_toFixed2) ToString;
      Ok (html "%</li>
              </ul>
            </div>

            ");
      (if truthy chartImage
      then template
             [ Ok (html "
            <div style=~margin: 30px 0;~>
              <h2 style=~color: #008e6d; margin: 0 0 20px 0; font-size: 20px;~>📊 Visual Impact</h2>
              <div style=~text-align: center; margin: 20px 0;~>
                <img src=~");
               ToString chartImage;
               Ok (html "~ alt=~Inflation Impact Chart~ style=~max-width: 100%; height: auto; border: 1px solid #ddd; border-radius: 8px;~ />
                <p style=~font-size: 12px; color: #666; margin-top: 10px; font-style: italic;~>
                  Visual comparison showing your original amount versus what you would need today to have the same purchasing power.
                </p>
              </div>
            </div>
            ") ]
      else Ok []);
      Ok (html "

            <div style=~margin: 30px 0;~>
              <h2 style=~color: #008e6d; margin: 0 0 20px 0; font-size: 20px;~>💡 Key Insight</h2>
              <p style=~margin-bottom: 15px;~>Your money has lost <strong>");
      rbind (rbind (get calculationData "percentageIncrease") opt_toFixed2) ToString;
      Ok (html "%</strong> of its purchasing power due to inflation. To maintain the same buying power, you would need <strong>£");
      rbind (rbind (get calculationData "todayValue") opt_toLocaleString) ToString;
      Ok (html "</strong> today.</p>
              <p style=~margin-bottom: 15px; font-style: italic; background-color: #f8f9fa; padding: 15px; border-left: 4px solid #008e6d;~>~Not investing is like pouring water into a leaky bucket. Over time, no matter how full it looks, you're left with much less than you started with.~</p>
            </div>

            <div style=~margin: 30px 0;~>
              <h2 style=~color: #008e6d; margin: 0 0 20px 0; font-size: 20px;~>🚀 What This Means for You</h2>
              <p style=~margin-bottom: 15px;~>Inflation silently erodes your savings. Consider investing in assets that can outpace inflation, such as:</p>
              <ul style=~margin-bottom: 15px;~>
                <li>Property investments</li>
                <li>Stock market funds</li>
                <li>Inflation-protected securities</li>
              </ul>
            </div>

            <div style=~margin: 30px 0;~>
              <h2 style=~color: #008e6d; margin: 0 0 20px 0; font-size: 20px;~>📞 Let's Talk</h2>
              <p style=~margin-bottom: 15px;~>Want to find out how to protect your money and grow it confidently?</p>
              
              <div style=~text-align: center; margin: 25px 0;~>
                <a href=~https://kr-properties.co.uk/contact~ style=~display: inline-block; background-color: #008e6d; color: white; text-decoration: none; padding: 15px 30px; border-radius: 5px; font-weight: bold; font-size: 16px;~>Book a Personal Consultation →</a>
              </div>
              
              <p style=~margin-bottom: 5px;~>Or contact us directly:</p>
              <p style=~margin: 5px 0;~><strong>Email:</strong> info@kr-properties.co.uk</p>
              <p style=~margin: 5px 0;~><strong>Phone:</strong> 020 3633 2783</p>
            </div>

            <div style=~border-top: 2px solid #ddd; margin: 30px 0 20px 0;~></div>
            
            <div style=~text-align: center; color: #666; font-size: 12px; margin-top: 30px;~>
              <p style=~margin: 0;~>© ");
      Ok (ToString_int (getFullYear d));
      Ok (html " KR Property Investments. All rights reserved.</p>
            </div>
          </div>
        ") ].

Record SenderConfig := {
  sender_from : jsstring;
  sender_name : jsstring;
}.

Definition senderConfigs : list SenderConfig :=
  [ {| sender_from := js "info@kr-properties.co.uk";
       sender_name := js "KR Property Investments" |};
    {| sender_from := js "noreply@kr-properties.co.uk";
       sender_name := js "KR Property Investments" |};
    {| sender_from := js "hello@kr-properties.co.uk";
       sender_name := js "KR Property Investments" |} ].

Definition report_subject : jsstring :=
  js "Your Inflation Impact Report - KR Property Investments".

Definition report_msg (rcpt content : jsstring) (config : SenderConfig) : Msg :=
  {| to := rcpt;
     from_email := sender_from config;
     from_name := Some (sender_name config);
     msg_subject := report_subject;
     msg_html := content |}.

(** [for (const config of senderConfigs) { try { await sgMail.send(msg);
    emailSent = true; break; } catch (configError) { emailError =
    configError; continue; } }], from the values [emailSent] and
    [emailError] have on entry to the values they have on exit. *)
Fixpoint send_with (configs : list SenderConfig) (rcpt content : jsstring)
    (emailSent : bool) (emailError : option error) : M (bool * option error) :=
  match configs with
  | [] => ret (emailSent, emailError)
  | config :: rest =>
      try_catch
        (_ <- sgMail_send (report_msg rcpt content config) ;;
         ret (true, emailError))
        (fun configError => send_with rest rcpt content emailSent (Some configError))
  end.

(** [JSON.stringify({ message: emailError.message, code: emailError.code,
    response: emailError.response?.body })] *)
Definition error_details (e : error) : option jsstring :=
  JSON_stringify
    (JObj [("message", JStr (message e)); ("code", code e);
           ("response", response_body e)]).

(** The block [if (!emailSent) { ... }]: the value of [emailStored] on exit. *)
Definition store_pending (rcpt : jsstring) (name : value) (content : jsstring)
    (emailError : option error) : M bool :=
  if db env
  then try_catch
         (_ <- insert_pendingEmails rcpt
                 (sql_text (or_else name (JStr (js "User"))))
                 report_subject content (js "inflation_report") (js "pending")
                 (match emailError with
                  | Some e => error_details e
                  | None => Some (js "SendGrid configuration issue")
                  end) ;;
          ret true)
         (fun _ => ret false)
  else ret false.

(** The block [if (SENDGRID_API_KEY) { try { ... } catch (emailError) {
    emailSent = false; } }]: the values of [emailSent], [emailError] and
    [emailStored] on exit.  Of what the [try] holds only the template can
    throw past the inner handlers, and it is evaluated first, with the three
    variables at their initial values; the parameter of that [catch] hides
    the outer [emailError], which stays [null]. *)
Definition send_report (rcpt : jsstring)
    (name amount month year chartImage calculationData : value)
  : M (bool * option error * bool) :=
  if sendgrid_configured
  then
    d <- new_Date ;;
    match emailContent name amount month year chartImage calculationData d with
    | Throw _ => ret (false, None, false)
    | Ok content =>
        sent <- send_with senderConfigs rcpt content false None ;;
        let (emailSent, emailError) := sent in
        if negb emailSent
        then emailStored <- store_pending rcpt name content emailError ;;
             ret (emailSent, emailError, emailStored)
        else ret (emailSent, emailError, false)
    end
  else ret (false, None, false).

(** The [data] of the answer. *)
Definition report_data (emailSent emailStored : bool) (rcpt : jsstring) (d : Date)
    (emailError : option error) : value :=
  JObj [("emailSent", JBool emailSent);
        ("emailStored", JBool emailStored);
        ("recipient", JStr rcpt);
        ("timestamp", JStr (toISOString d));
        ("errorDetails",
         match emailError with
         | Some err => JObj [("message", JStr (message err)); ("code", code err)]
         | None => JNull
         end)].

Definition inflation_email (req_body : value) : World -> Response num * World :=
  handler
    (name <- lift (get req_body "name") ;;
     email <- lift (get req_body "email") ;;
     amount <- lift (get req_body "amount") ;;
     month <- lift (get req_body "month") ;;
     year <- lift (get req_body "year") ;;
     chartImage <- lift (get req_body "chartImage") ;;
     calculationData <- lift (get req_body "calculationData") ;;
     if negb (truthy email) || negb (truthy calculationData)
     then ret (refuse 400 "Email and calculation data are required")
     else
       e <- lift (call_trim "email" email) ;;
       if negb (emailRegex_test e) then ret (refuse 400 "Invalid email format")
       else
         flags <- send_report e name amount month year chartImage calculationData ;;
         let '(emailSent, emailError, emailStored) := flags in
         d <- new_Date ;;
         ret (answer 200 "Inflation email processed successfully"
                (report_data emailSent emailStored e d emailError)))
    (failed "Failed to process inflation email").

(** ** [POST /api/learning/progress] and
       [PUT /api/learning/progress/:userId/:moduleId] *)

Definition opt_json (o : option jsstring) : value :=
  match o with
  | Some s => JStr s
  | None => JNull
  end.

(** A row as [res.json] writes it. *)
Definition progress_json (r : learningProgress.row) : value :=
  JObj [("id", JNum (num_of_Z (learningProgress.id r)));
        ("userId", JStr (learningProgress.userId r));
        ("moduleId", JStr (learningProgress.moduleId r));
        ("completed", JStr (learningProgress.completed r));
        ("score", opt_json (learningProgress.score r));
        ("timeSpent", opt_json (learningProgress.timeSpent r));
        ("createdAt", JStr (toISOString (learningProgress.createdAt r)));
        ("updatedAt", JStr (toISOString (learningProgress.updatedAt r)))].

(** [completed || "false"], [score || null], [timeSpent || null], as
    they are bound to their columns. *)
Definition completed_text (completed : value) : jsstring :=
  param_text (or_else completed (JStr (js "false"))).

Definition nullable_text (v : value) : option jsstring :=
  sql_text (or_else v JNull).

Definition create_progress (req_body : value) : World -> Response num * World :=
  handler
    (userId <- lift (get req_body "userId") ;;
     moduleId <- lift (get req_body "moduleId") ;;
     completed <- lift (get req_body "completed") ;;
     score <- lift (get req_body "score") ;;
     timeSpent <- lift (get req_body "timeSpent") ;;
     if negb (truthy userId) || negb (truthy moduleId)
     then ret (refuse 400 "userId and moduleId are required")
     else if negb (db env)
     then ret (refuse 500 "Database connection not available")
     else
       let u := param_text userId in
       let m := param_text moduleId in
       existing <- select_learningProgress u m ;;
       result <-
         match existing with
         | _ :: _ =>
             d <- new_Date ;;
             update_learningProgress u m (completed_text completed)
               (nullable_text score) (nullable_text timeSpent) d
         | [] =>
             insert_learningProgress u m (completed_text completed)
               (nullable_text score) (nullable_text timeSpent)
         end ;;
       match result with
       | [] => throw (NewError (js "Failed to create/update learning progress"))
       | r :: _ =>
           ret (answer 201 "Learning progress saved successfully" (progress_json r))
       end)
    (failed "Failed to create learning progress").

Definition update_progress (userId moduleId : jsstring) (req_body : value)
  : World -> Response num * World :=
  handler
    (completed <- lift (get req_body "completed") ;;
     score <- lift (get req_body "score") ;;
     timeSpent <- lift (get req_body "timeSpent") ;;
     if negb (db env)
     then ret (refuse 500 "Database connection not available")
     else
       d <- new_Date ;;
       result <- update_learningProgress userId moduleId (completed_text completed)
                   (nullable_text score) (nullable_text timeSpent) d ;;
       match result with
       | [] =>
           newResult <- insert_learningProgress userId moduleId
                          (completed_text completed)
                          (nullable_text score) (nullable_text timeSpent) ;;
           match newResult with
           | [] => throw (TypeError
                            (js "Cannot read properties of undefined (reading 'id')"))
           | r :: _ =>
               ret (answer 200 "Learning progress created successfully" (progress_json r))
           end
       | r :: _ =>
           ret (answer 200 "Learning progress updated successfully" (progress_json r))
       end)
    (failed "Failed to update learning progress").

End Handlers.

(** ** [GET /api/learning/progress/:userId] *)

Section Reading.

Context {num : Type} {NumOps : JsNumber num} {Driver : PgDriver num}.

Variable env : Env num.

Local Notation "x <- m ;; k" := (bind m (fun x => k))
  (at level 61, m at next level, right associativity).

(** [eq(learningProgress.userId, u)] *)
Definition progress_by (u : jsstring) (r : learningProgress.row) : bool :=
  jsstring_eqb (learningProgress.userId r) u.

Definition select_learningProgress_by (u : jsstring)
  : M (list learningProgress.row) :=
  db_statement env (fun _ t =>
    (Ok (filter (progress_by u) (learning_progress t)), t)).

(** [res.json({ success: true, data: rows })] *)
Definition listing (rows : list (jsval num)) : Response num :=
  {| status := 200;
     body := JObj [("success", JBool true); ("data", JArr rows)] |}.

Definition get_progress (userId : jsstring) : World -> Response num * World :=
  handler
    (if negb (db env)
     then ret (refuse 500 "Database connection not available")
     else
       progress <- select_learningProgress_by userId ;;
       ret (listing (map progress_json progress)))
    (failed "Failed to get learning progress").

End Reading.

(** ** The other tables

    The forms of the site and the learning pages write to the four other
    tables of the schema. *)

Module contactSubmissions.
Record row := {
  id : Z;
  name : jsstring;
  email : jsstring;          (* notNull, not unique *)
  phone : option jsstring;
  investmentAmount : jsstring;
  message : jsstring;
  createdAt : Date;
}.
End contactSubmissions.

Module achievements.
Record row := {
  id : Z;
  userId : jsstring;
  badgeId : jsstring;
  title : jsstring;
  description : jsstring;
  earnedAt : Date;
}.
End achievements.

Module quizResults.
Record row := {
  id : Z;
  userId : jsstring;
  quizId : jsstring;
  score : jsstring;
  totalQuestions : jsstring;
  answers : jsstring;        (* JSON string of answers *)
  completedAt : Date;
}.
End quizResults.

Module inflationCalculations.
Record row := {
  id : Z;
  initialAmount : jsstring;  (* numeric *)
  years : Z;                 (* integer *)
  inflationRate : jsstring;  (* numeric *)
  finalAmount : jsstring;    (* numeric *)
  createdAt : Date;
}.
End inflationCalculations.

Record Records := {
  contact_submissions : list contactSubmissions.row;
  contact_submissions_id_seq : Z;
  inflation_calculations : list inflationCalculations.row;
  inflation_calculations_id_seq : Z;
  achievements : list achievements.row;
  achievements_id_seq : Z;
  quiz_results : list quizResults.row;
  quiz_results_id_seq : Z;
}.

(** The world of a handler that writes one of them: the world of above
    and the four tables. *)
Record Site := {
  world : World;
  records : Records;
}.

(** The site once a statement has left the four tables as [r]; the other
    requests have left the tables of [world] as [t]. *)
Definition recorded (t : Tables) (r : Records) (s : Site) : Site :=
  {| world := committed t (world s); records := r |}.

Section Forms.

Context {num : Type} {NumOps : JsNumber num} {Driver : PgDriver num}.

Local Notation "'value'" := (jsval num) (only parsing).
Local Notation "'error'" := (Error num) (only parsing).
Local Notation "'outcome'" := (Result (Error num)) (only parsing).

Variable env : Env num.

(** What other requests have committed to the four tables just before
    statement [n] runs. *)
Variable concurrent_records : nat -> Records -> Records.

Definition F (A : Type) : Type := Site -> Result (Error num) A * Site.

Definition Fret {A} (a : A) : F A := fun s => (Ok a, s).

Definition Fthrow {A} (e : error) : F A := fun s => (Throw e, s).

Definition Fbind {A B} (m : F A) (k : A -> F B) : F B :=
  fun s =>
    match m s with
    | (Ok a, s') => k a s'
    | (Throw e, s') => (Throw e, s')
    end.

Definition Flift {A} (r : outcome A) : F A := fun s => (r, s).

Local Notation "x <- m ;; k" := (Fbind m (fun x => k))
  (at level 61, m at next level, right associativity).

(** [new Date()] *)
Definition Fnew_Date : F Date := fun s => (Ok (now (world s)), s).

(** [try { m } catch (e) { h e }] *)
Definition Ftry_catch {A} (m : F A) (h : error -> F A) : F A :=
  fun s =>
    match m s with
    | (Ok a, s') => (Ok a, s')
    | (Throw e, s') => h e s'
    end.

(** One statement sent to the store. *)
Definition records_statement {A}
    (run : Date -> Records -> outcome A * Records) : F A :=
  fun s =>
    let n := ticks (world s) in
    let t := concurrent env n (tables (world s)) in
    let r := concurrent_records n (records s) in
    match db_outage env n with
    | Some e => (Throw e, recorded t r s)
    | None => let (a, r') := run (now (world s)) r in (a, recorded t r' s)
    end.

Definition Fhandler (run : F (Response num)) (on_error : error -> Response num)
  : Site -> Response num * Site :=
  fun s =>
    match run s with
    | (Ok r, s') => (r, s')
    | (Throw e, s') => (on_error e, s')
    end.

(** *** [contact_submissions] *)

Definition set_contact_submissions
    (rows : list contactSubmissions.row) (seq : Z) (r : Records) : Records :=
  {| contact_submissions := rows;
     contact_submissions_id_seq := seq;
     inflation_calculations := inflation_calculations r;
     inflation_calculations_id_seq := inflation_calculations_id_seq r;
     achievements := achievements r;
     achievements_id_seq := achievements_id_seq r;
     quiz_results := quiz_results r;
     quiz_results_id_seq := quiz_results_id_seq r |}.

Definition insert_contactSubmissions
    (n e : jsstring) (p : option jsstring) (amount msg : jsstring)
  : F (list contactSubmissions.row) :=
  records_statement (fun d r =>
    let i := contact_submissions_id_seq r in
    let x := {| contactSubmissions.id := i;
                contactSubmissions.name := n;
                contactSubmissions.email := e;
                contactSubmissions.phone := p;
                contactSubmissions.investmentAmount := amount;
                contactSubmissions.message := msg;
                contactSubmissions.createdAt := d |} in
    (Ok [x], set_contact_submissions (contact_submissions r ++ [x]) (i + 1) r)).

(** *** [achievements], which has no unique column besides [id] *)

Definition set_achievements
    (rows : list achievements.row) (seq : Z) (r : Records) : Records :=
  {| contact_submissions := contact_submissions r;
     contact_submissions_id_seq := contact_submissions_id_seq r;
     inflation_calculations := inflation_calculations r;
     inflation_calculations_id_seq := inflation_calculations_id_seq r;
     achievements := rows;
     achievements_id_seq := seq;
     quiz_results := quiz_results r;
     quiz_results_id_seq := quiz_results_id_seq r |}.

(** [eq(achievements.userId, u)] *)
Definition achieved_by (u : jsstring) (x : achievements.row) : bool :=
  jsstring_eqb (achievements.userId x) u.

(** [and(eq(achievements.userId, u), eq(achievements.badgeId, b))] *)
Definition achievement_of (u b : jsstring) (x : achievements.row) : bool :=
  jsstring_eqb (achievements.userId x) u && jsstring_eqb (achievements.badgeId x) b.

Definition select_achievements (keep : achievements.row -> bool)
  : F (list achievements.row) :=
  records_statement (fun _ r => (Ok (filter keep (achievements r)), r)).

Definition insert_achievements (u b t d : jsstring) : F (list achievements.row) :=
  records_statement (fun at_ r =>
    let i := achievements_id_seq r in
    let x := {| achievements.id := i;
                achievements.userId := u;
                achievements.badgeId := b;
                achievements.title := t;
                achievements.description := d;
                achievements.earnedAt := at_ |} in
    (Ok [x], set_achievements (achievements r ++ [x]) (i + 1) r)).

(** *** [quiz_results] *)

Definition set_quiz_results
    (rows : list quizResults.row) (seq : Z) (r : Records) : Records :=
  {| contact_submissions := contact_submissions r;
     contact_submissions_id_seq := contact_submissions_id_seq r;
     inflation_calculations := inflation_calculations r;
     inflation_calculations_id_seq := inflation_calculations_id_seq r;
     achievements := achievements r;
     achievements_id_seq := achievements_id_seq r;
     quiz_results := rows;
     quiz_results_id_seq := seq |}.

(** [eq(quizResults.userId, u)] *)
Definition taken_by (u : jsstring) (x : quizResults.row) : bool :=
  jsstring_eqb (quizResults.userId x) u.

Definition select_quizResults (u : jsstring) : F (list quizResults.row) :=
  records_statement (fun _ r => (Ok (filter (taken_by u) (quiz_results r)), r)).

(** The error of the store for a null in a [notNull] column ([~] stands
    for the double quote). *)
Definition not_null_violation (column relation : string) : error :=
  {| message := html "null value in column ~" ++ js column
                ++ html "~ of relation ~" ++ js relation
                ++ html "~ violates not-null constraint";
     code := JStr (js "23502");
     response_body := JUndefined |}.

(** [answers] is [undefined] when [JSON.stringify] has nothing to write;
    the column is then left to its default, which it does not have. *)
Definition insert_quizResults (u q sc total : jsstring) (answers : option jsstring)
  : F (list quizResults.row) :=
  records_statement (fun d r =>
    let i := quiz_results_id_seq r in
    match answers with
    | None => (Throw (not_null_violation "answers" "quiz_results"),
               set_quiz_results (quiz_results r) (i + 1) r)
    | Some a =>
        let x := {| quizResults.id := i;
                    quizResults.userId := u;
                    quizResults.quizId := q;
                    quizResults.score := sc;
                    quizResults.totalQuestions := total;
                    quizResults.answers := a;
                    quizResults.completedAt := d |} in
        (Ok [x], set_quiz_results (quiz_results r ++ [x]) (i + 1) r)
    end).

(** ** [POST /api/contact] *)

Definition contact_data (x : contactSubmissions.row) : value :=
  JObj [("id", JNum (num_of_Z (contactSubmissions.id x)));
        ("name", JStr (contactSubmissions.name x));
        ("email", JStr (contactSubmissions.email x));
        ("submittedAt", JStr (toISOString (contactSubmissions.createdAt x)))].

Definition contact (req_body : value) : Site -> Response num * Site :=
  Fhandler
    (name <- Flift (get req_body "name") ;;
     email <- Flift (get req_body "email") ;;
     phone <- Flift (get req_body "phone") ;;
     investmentAmount <- Flift (get req_body "investmentAmount") ;;
     message <- Flift (get req_body "message") ;;
     if negb (truthy name) || negb (truthy email) ||
        negb (truthy investmentAmount) || negb (truthy message)
     then Fret (refuse 400 "Name, email, investment amount, and message are required")
     else
       e <- Flift (call_trim "email" email) ;;
       if negb (emailRegex_test e) then Fret (refuse 400 "Invalid email format")
       else if negb (db env)
       then Fret (refuse 500 "Database connection not available")
       else
         n <- Flift (call_trim "name" name) ;;
         p <- Flift (phone_column phone) ;;
         a <- Flift (call_trim "investmentAmount" investmentAmount) ;;
         m <- Flift (call_trim "message" message) ;;
         result <- insert_contactSubmissions n e p a m ;;
         match result with
         | [] => Fthrow (NewError (js "Failed to create contact submission"))
         | x :: _ =>
             Fret (answer 201 "Contact form submitted successfully" (contact_data x))
         end)
    (failed "Failed to submit contact form").

(** ** [GET /api/learning/achievements/:userId] and
       [POST /api/learning/achievements] *)

(** A row as [res.json] writes it. *)
Definition achievement_json (x : achievements.row) : value :=
  JObj [("id", JNum (num_of_Z (achievements.id x)));
        ("userId", JStr (achievements.userId x));
        ("badgeId", JStr (achievements.badgeId x));
        ("title", JStr (achievements.title x));
        ("description", JStr (achievements.description x));
        ("earnedAt", JStr (toISOString (achievements.earnedAt x)))].

Definition get_achievements (userId : jsstring) : Site -> Response num * Site :=
  Fhandler
    (if negb (db env)
     then Fret (refuse 500 "Database connection not available")
     else
       userAchievements <- select_achievements (achieved_by userId) ;;
       Fret (listing (map achievement_json userAchievements)))
    (failed "Failed to get achievements").

Definition create_achievement (req_body : value) : Site -> Response num * Site :=
  Fhandler
    (userId <- Flift (get req_body "userId") ;;
     badgeId <- Flift (get req_body "badgeId") ;;
     title <- Flift (get req_body "title") ;;
     description <- Flift (get req_body "description") ;;
     if negb (truthy userId) || negb (truthy badgeId) ||
        negb (truthy title) || negb (truthy description)
     then Fret (refuse 400 "userId, badgeId, title, and description are required")
     else if negb (db env)
     then Fret (refuse 500 "Database connection not available")
     else
       let u := param_text userId in
       let b := param_text badgeId in
       existing <- select_achievements (achievement_of u b) ;;
       match existing with
       | x :: _ => Fret (answer 200 "Achievement already exists" (achievement_json x))
       | [] =>
           result <- insert_achievements u b (param_text title) (param_text description) ;;
           match result with
           | [] => Fthrow (NewError (js "Failed to create achievement"))
           | x :: _ =>
               Fret (answer 201 "Achievement created successfully" (achievement_json x))
           end
       end)
    (failed "Failed to create achievement").

(** ** [GET /api/learning/quiz-results/:userId] and
       [POST /api/learning/quiz-results] *)

Definition quiz_json (x : quizResults.row) : value :=
  JObj [("id", JNum (num_of_Z (quizResults.id x)));
        ("userId", JStr (quizResults.userId x));
        ("quizId", JStr (quizResults.quizId x));
        ("score", JStr (quizResults.score x));
        ("totalQuestions", JStr (quizResults.totalQuestions x));
        ("answers", JStr (quizResults.answers x));
        ("completedAt", JStr (toISOString (quizResults.completedAt x)))].

Definition get_quiz_results (userId : jsstring) : Site -> Response num * Site :=
  Fhandler
    (if negb (db env)
     then Fret (refuse 500 "Database connection not available")
     else
       results <- select_quizResults userId ;;
       Fret (listing (map quiz_json results)))
    (failed "Failed to get quiz results").

(** [v === undefined] *)
Definition is_undefined (v : value) : bool :=
  match v with
  | JUndefined => true
  | _ => false
  end.

(** [v.toString()] *)
Definition call_toString (what : string) (v : value) : outcome jsstring :=
  match v with
  | JUndefined =>
      Throw (TypeError (js "Cannot read properties of undefined (reading 'toString')"))
  | JNull =>
      Throw (TypeError (js "Cannot read properties of null (reading 'toString')"))
  | JObj fs =>
      if has_own "toString" fs
      then Throw (TypeError (js what ++ js ".toString is not a function"))
      else Ok (js "[object Object]")
  | _ => ToString v
  end.

(** [typeof answers === "string" ? answers : JSON.stringify(answers)] *)
Definition answers_text (answers : value) : option jsstring :=
  match answers with
  | JStr s => Some s
  | _ => JSON_stringify answers
  end.

Definition create_quiz_result (req_body : value) : Site -> Response num * Site :=
  Fhandler
    (userId <- Flift (get req_body "userId") ;;
     quizId <- Flift (get req_body "quizId") ;;
     score <- Flift (get req_body "score") ;;
     totalQuestions <- Flift (get req_body "totalQuestions") ;;
     answers <- Flift (get req_body "answers") ;;
     if negb (truthy userId) || negb (truthy quizId) || is_undefined score ||
        negb (truthy totalQuestions) || negb (truthy answers)
     then Fret (refuse 400
                  "userId, quizId, score, totalQuestions, and answers are required")
     else if negb (db env)
     then Fret (refuse 500 "Database connection not available")
     else
       sc <- Flift (call_toString "score" score) ;;
       total <- Flift (call_toString "totalQuestions" totalQuestions) ;;
       result <- insert_quizResults (param_text userId) (param_text quizId) sc total
                   (answers_text answers) ;;
       match result with
       | [] => Fthrow (NewError (js "Failed to create quiz result"))
       | x :: _ => Fret (answer 201 "Quiz result created successfully" (quiz_json x))
       end)
    (failed "Failed to create quiz result").

End Forms.

(** ** [POST /api/inflation]

    The arithmetic of the calculator is that of the host: IEEE doubles,
    [parseFloat], [parseInt], [Math.pow], and what the store makes of a
    value bound to a [numeric] or an [integer] column. *)

Class JsMath (num : Type) := {
  parseFloat_string : jsstring -> num;
  parseInt_string : jsstring -> num;
  isNaN : num -> bool;
  num_le : num -> num -> bool;          (* [<=] *)
  num_add : num -> num -> num;
  num_sub : num -> num -> num;
  num_mul : num -> num -> num;
  num_div : num -> num -> num;
  Math_pow : num -> num -> num;
  Math_floor : num -> num;
  num_toFixed1 : num -> jsstring;       (* [toFixed(1)] *)
  num_literal : string -> num;          (* a literal of the source *)
  getMonth : Date -> Z;                 (* from 0, in the time zone of the process *)
  numeric_column : jsstring -> Result (Error num) jsstring;
  integer_column : num -> Result (Error num) Z;
}.

Section Calculator.

Context {num : Type} {NumOps : JsNumber num} {Driver : PgDriver num}
        {Math : JsMath num}.

Local Notation "'value'" := (jsval num) (only parsing).
Local Notation "'error'" := (Error num) (only parsing).
Local Notation "'outcome'" := (Result (Error num)) (only parsing).

Variable env : Env num.
Variable concurrent_records : nat -> Records -> Records.

Local Notation "x <- m ;; k" := (Fbind m (fun x => k))
  (at level 61, m at next level, right associativity).

(** [parseFloat(v)] and [parseInt(v)]: the argument is converted to a
    string first. *)
Definition parseFloat (v : value) : outcome num :=
  rbind (ToString v) (fun s => Ok (parseFloat_string s)).

Definition parseInt (v : value) : outcome num :=
  rbind (ToString v) (fun s => Ok (parseInt_string s)).

Definition set_inflation_calculations
    (rows : list inflationCalculations.row) (seq : Z) (r : Records) : Records :=
  {| contact_submissions := contact_submissions r;
     contact_submissions_id_seq := contact_submissions_id_seq r;
     inflation_calculations := rows;
     inflation_calculations_id_seq := seq;
     achievements := achievements r;
     achievements_id_seq := achievements_id_seq r;
     quiz_results := quiz_results r;
     quiz_results_id_seq := quiz_results_id_seq r |}.

(** [db.insert(inflationCalculations).values(calculationData).returning()]:
    a value the store cannot read into its column stops the statement
    before a row is made. *)
Definition insert_inflationCalculations
    (initial : jsstring) (years : num) (rate final : jsstring)
  : @F num (list inflationCalculations.row) :=
  records_statement env concurrent_records (fun d r =>
    let i := inflation_calculations_id_seq r in
    match rbind (numeric_column initial) (fun a =>
          rbind (integer_column years) (fun y =>
          rbind (numeric_column rate) (fun b =>
          rbind (numeric_column final) (fun c =>
            Ok {| inflationCalculations.id := i;
                  inflationCalculations.initialAmount := a;
                  inflationCalculations.years := y;
                  inflationCalculations.inflationRate := b;
                  inflationCalculations.finalAmount := c;
                  inflationCalculations.createdAt := d |})))) with
    | Ok x => (Ok [x],
               set_inflation_calculations (inflation_calculations r ++ [x]) (i + 1) r)
    | Throw e => (Throw e, r)
    end).

(** The block [if (db) { try { ... } catch (dbError) { } }]. *)
Definition save_calculation (initialAmount yearsDiff inflationRate finalAmount : num)
  : @F num unit :=
  if db env
  then Ftry_catch
         (result <- insert_inflationCalculations
                      (num_toString initialAmount) (Math_floor yearsDiff)
                      (num_toString inflationRate) (num_toString finalAmount) ;;
          match result with
          | [] => Fthrow (TypeError
                            (js "Cannot read properties of undefined (reading 'id')"))
          | _ :: _ => Fret tt
          end)
         (fun _ => Fret tt)
  else Fret tt.

Definition inflation (req_body : value) : Site -> Response num * Site :=
  Fhandler
    (name <- Flift (get req_body "name") ;;
     email <- Flift (get req_body "email") ;;
     amount <- Flift (get req_body "amount") ;;
     year <- Flift (get req_body "year") ;;
     month <- Flift (get req_body "month") ;;
     source <- Flift (get req_body "source") ;;
     if negb (truthy amount) || negb (truthy year) || negb (truthy month)
     then Fret (refuse 400 "Amount, year, and month are required")
     else
       initialAmount <- Flift (parseFloat amount) ;;
       startYear <- Flift (parseInt year) ;;
       startMonth <- Flift (parseInt month) ;;
       d1 <- Fnew_Date ;;
       let currentYear := num_of_Z (getFullYear d1) in
       d2 <- Fnew_Date ;;
       let currentMonth := num_add (num_of_Z (getMonth d2)) (num_of_Z 1) in
       if isNaN initialAmount || isNaN startYear || isNaN startMonth
       then Fret (refuse 400 "Invalid numeric values provided")
       else if num_le initialAmount (num_of_Z 0)
       then Fret (refuse 400 "Amount must be positive")
       else
         let yearsDiff :=
           num_add (num_sub currentYear startYear)
                   (num_div (num_sub currentMonth startMonth) (num_of_Z 12)) in
         let inflationRate := num_literal "2.5" in
         let finalAmount :=
           num_mul initialAmount
             (Math_pow (num_add (num_of_Z 1) (num_div inflationRate (num_of_Z 100)))
                yearsDiff) in
         let totalIncrease := num_sub finalAmount initialAmount in
         let percentageIncrease :=
           num_mul (num_div totalIncrease initialAmount) (num_of_Z 100) in
         _ <- save_calculation initialAmount yearsDiff inflationRate finalAmount ;;
         d3 <- Fnew_Date ;;
         Fret (answer 200 "Inflation calculation completed successfully"
                 (JObj [("originalValue", JNum initialAmount);
                        ("todayValue",
                         JNum (parseFloat_string (num_toFixed2 finalAmount)));
                        ("lossInValue",
                         JNum (parseFloat_string (num_toFixed2 totalIncrease)));
                        ("percentageIncrease",
                         JNum (parseFloat_string (num_toFixed2 percentageIncrease)));
                        ("annualGrowthRate", JNum inflationRate);
                        ("startYear", JNum startYear);
                        ("endYear", JNum currentYear);
                        ("yearsDiff", JNum (parseFloat_string (num_toFixed1 yearsDiff)));
                        ("calculatedAt", JStr (toISOString d3))])))
    (failed "Failed to calculate inflation").

End Calculator.

(** ** [GET /health] and [GET /api/test] *)

Section Probes.

Context {num : Type} {NumOps : JsNumber num} {Driver : PgDriver num}.

Variable env : Env num.

Local Notation "x <- m ;; k" := (bind m (fun x => k))
  (at level 61, m at next level, right associativity).

(** [const NODE_ENV = process.env.NODE_ENV || "development"] *)
Definition NODE_ENV (process_env : option jsstring) : jsstring :=
  match process_env with
  | Some (c :: s) => c :: s
  | _ => js "development"
  end.

(** [db ? "connected" : "not connected"] and
    [SENDGRID_API_KEY ? "configured" : "not configured"] *)
Definition database_state : jsval num :=
  JStr (js (if db env then "connected" else "not connected")).

Definition email_state : jsval num :=
  JStr (js (if sendgrid_configured env then "configured" else "not configured")).

Definition health (process_env : option jsstring) : World -> Response num * World :=
  fun w =>
    ({| status := 200;
        body := JObj [("status", JStr (js "healthy"));
                      ("timestamp", JStr (toISOString (now w)));
                      ("database", database_state);
                      ("email", email_state);
                      ("environment", JStr (NODE_ENV process_env))] |}, w).

(** [await sql`SELECT NOW() as current_time`] *)
Definition select_now : M (list Date) :=
  db_statement env (fun d t => (Ok [d], t)).

(** The block [if (db && sql) { try { ... } catch (dbError) { ... } }]:
    what [result.databaseTest] is on exit, if it is set. *)
Definition database_test : M (option (jsval num)) :=
  if db env
  then try_catch
         (testQuery <- select_now ;;
          match testQuery with
          | [] => throw (TypeError
                           (js "Cannot read properties of undefined (reading 'current_time')"))
          | t :: _ =>
              ret (Some (JObj [("success", JBool true);
                               ("time", JStr (toISOString t));
                               ("message", JStr (js "Database connection successful"))]))
          end)
         (fun dbError =>
            ret (Some (JObj [("success", JBool false);
                             ("error", JStr (message dbError))])))
  else ret None.

Definition api_test : World -> Response num * World :=
  handler
    (d <- new_Date ;;
     databaseTest <- database_test ;;
     ret {| status := 200;
            body := JObj ([("success", JBool true);
                           ("message", JStr (js "KR Property Backend API is working!"));
                           ("timestamp", JStr (toISOString d));
                           ("database", database_state);
                           ("email", email_state)]
                          ++ match databaseTest with
                             | Some v => [("databaseTest", v)]
                             | None => []
                             end) |})
    (failed "Test endpoint failed").

End Probes.

(** ** [createTables]

    The catalog of the store: the tables that exist, each with the
    statement that made it. *)

Definition Catalog := list (string * string).

Definition exists_table (name : string) (c : Catalog) : bool :=
  existsb (fun entry => String.eqb name (fst entry)) c.

(** [CREATE TABLE IF NOT EXISTS name (...)] *)
Definition create_table_if_not_exists (name text : string) (c : Catalog) : Catalog :=
  if exists_table name c then c else c ++ [(name, text)].

(** The eight statements, in the order they are sent, each with the table
    it names. *)
Definition statements : list (string * string) :=
  [ ("newsletter_subscriptions",
     "CREATE TABLE IF NOT EXISTS newsletter_subscriptions (
      id SERIAL PRIMARY KEY,
      email TEXT NOT NULL UNIQUE,
      created_at TIMESTAMP DEFAULT NOW() NOT NULL
    )");
    ("contact_submissions",
     "CREATE TABLE IF NOT EXISTS contact_submissions (
      id SERIAL PRIMARY KEY,
      name TEXT NOT NULL,
      email TEXT NOT NULL,
      phone TEXT,
      investment_amount TEXT NOT NULL,
      message TEXT NOT NULL,
      created_at TIMESTAMP DEFAULT NOW() NOT NULL
    )");
    ("deal_sourcing_waitlist",
     "CREATE TABLE IF NOT EXISTS deal_sourcing_waitlist (
      id SERIAL PRIMARY KEY,
      name TEXT NOT NULL,
      email TEXT NOT NULL UNIQUE,
      phone TEXT,
      investment_amount TEXT NOT NULL,
      experience_level TEXT NOT NULL,
      created_at TIMESTAMP DEFAULT NOW() NOT NULL
    )");
    ("inflation_calculations",
     "CREATE TABLE IF NOT EXISTS inflation_calculations (
      id SERIAL PRIMARY KEY,
      initial_amount NUMERIC NOT NULL,
      years INTEGER NOT NULL,
      inflation_rate NUMERIC NOT NULL,
      final_amount NUMERIC NOT NULL,
      created_at TIMESTAMP DEFAULT NOW() NOT NULL
    )");
    ("learning_progress",
     "CREATE TABLE IF NOT EXISTS learning_progress (
      id SERIAL PRIMARY KEY,
      user_id TEXT NOT NULL,
      module_id TEXT NOT NULL,
      completed TEXT DEFAULT 'false' NOT NULL,
      score TEXT,
      time_spent TEXT,
      created_at TIMESTAMP DEFAULT NOW() NOT NULL,
      updated_at TIMESTAMP DEFAULT NOW() NOT NULL
    )");
    ("achievements",
     "CREATE TABLE IF NOT EXISTS achievements (
      id SERIAL PRIMARY KEY,
      user_id TEXT NOT NULL,
      badge_id TEXT NOT NULL,
      title TEXT NOT NULL,
      description TEXT NOT NULL,
      earned_at TIMESTAMP DEFAULT NOW() NOT NULL
    )");
    ("quiz_results",
     "CREATE TABLE IF NOT EXISTS quiz_results (
      id SERIAL PRIMARY KEY,
      user_id TEXT NOT NULL,
      quiz_id TEXT NOT NULL,
      score TEXT NOT NULL,
      total_questions TEXT NOT NULL,
      answers TEXT NOT NULL,
      completed_at TIMESTAMP DEFAULT NOW() NOT NULL
    )");
    ("pending_emails",
     "CREATE TABLE IF NOT EXISTS pending_emails (
      id SERIAL PRIMARY KEY,
      recipient_email TEXT NOT NULL,
      recipient_name TEXT,
      subject TEXT NOT NULL,
      html_content TEXT NOT NULL,
      email_type TEXT NOT NULL,
      status TEXT DEFAULT 'pending' NOT NULL,
      error_details TEXT,
      attempts INTEGER DEFAULT 0,
      created_at TIMESTAMP DEFAULT NOW() NOT NULL,
      sent_at TIMESTAMP
    )") ].

Section Start_up.

Context {num : Type}.

(** Whether the store refuses statement [n] of the start-up. *)
Variable sql_outage : nat -> option (Error num).

(** The statements of the [try] block, from statement [n] on: the value
    returned and the catalog left. *)
Fixpoint create_from (todo : list (string * string)) (n : nat) (c : Catalog)
  : bool * Catalog :=
  match todo with
  | [] => (true, c)
  | (name, text) :: rest =>
      match sql_outage n with
      | Some _ => (false, c)
      | None => create_from rest (S n) (create_table_if_not_exists name text c)
      end
  end.

(** [sql] is the connection, [null] without a [DATABASE_URL]. *)
Definition createTables (sql : bool) (c : Catalog) : bool * Catalog :=
  if negb sql then (false, c) else create_from statements 0 c.

End Start_up.

(** ** A host for running the handlers

    Whole numbers, written as V8 writes them in the [en-US] locale, and a
    driver that writes a number or a boolean as its [toString] and an array
    or an object as JSON. *)

Fixpoint commas (rev_digits : list N) (k : nat) : list N :=
  match rev_digits with
  | [] => []
  | c :: r =>
      match k with
      | O => 44%N :: c :: commas r 2
      | S k' => c :: commas r k'
      end
  end.

Definition Z_toLocaleString (z : Z) : jsstring :=
  (if z <? 0 then js "-" else []) ++ rev (commas (rev (ToString_int (Z.abs z))) 3).

#[export] Instance Z_JsNumber : JsNumber Z := {
  num_of_Z z := z;
  num_truthy z := negb (z =? 0);
  num_isFinite _ := true;
  num_toString := ToString_int;
  num_toLocaleString := Z_toLocaleString;
  num_toFixed2 z := ToString_int z ++ js ".00";
}.

#[export] Instance Z_PgDriver : PgDriver Z := {
  driver_text v :=
    match v with
    | JNum n => ToString_int n
    | JBool b => js (if b then "true" else "false")
    | _ => match JSON_stringify v with
           | Some s => s
           | None => []
           end
    end;
}.

(** ** Conditions on a request and on what it meets *)

Section Conditions.

Context {num : Type} {NumOps : JsNumber num} {Driver : PgDriver num}.

Variable env : Env num.

(** The four required fields are there and the address is well formed. *)
Definition lead_request (fs : list (string * jsval num)) (s : jsstring) : Prop :=
  truthy (obj_get "name" fs) = true /\
  obj_get "email" fs = JStr s /\
  truthy (obj_get "investmentAmount" fs) = true /\
  truthy (obj_get "experienceLevel" fs) = true /\
  emailRegex_test (trim s) = true.

(** The confirmation mail and what it leaves: the value of [emailSent] and
    the world. *)
Definition confirmed (e n : jsstring) (w : World) : bool * World :=
  if sendgrid_configured env
  then (match sg_send env (ticks w) (welcome e n) with
        | None => true
        | Some _ => false
        end, mailed (welcome e n) w)
  else (false, w).

(** The texts bound to the columns of a new row. *)
Definition lead_columns (fs : list (string * jsval num))
    (n : jsstring) (p : option jsstring) (a l : jsstring) : Prop :=
  call_trim "name" (obj_get "name" fs) = Ok n /\
  phone_column (obj_get "phone" fs) = Ok p /\
  call_trim "investmentAmount" (obj_get "investmentAmount" fs) = Ok a /\
  call_trim "experienceLevel" (obj_get "experienceLevel" fs) = Ok l.

(** The two required fields are there and the address is well formed. *)
Definition report_request (fs : list (string * jsval num)) (s : jsstring) : Prop :=
  obj_get "email" fs = JStr s /\
  truthy (obj_get "calculationData" fs) = true /\
  emailRegex_test (trim s) = true.

(** The template of a request. *)
Definition content_of (fs : list (string * jsval num)) (d : Date)
  : Result (Error num) jsstring :=
  emailContent (obj_get "name" fs) (obj_get "amount" fs) (obj_get "month" fs)
    (obj_get "year" fs) (obj_get "chartImage" fs) (obj_get "calculationData" fs) d.

(** The key of a progress request, as it is bound to the two columns. *)
Definition progress_request (fs : list (string * jsval num)) (u m : jsstring) : Prop :=
  truthy (obj_get "userId" fs) = true /\
  truthy (obj_get "moduleId" fs) = true /\
  param_text (obj_get "userId" fs) = u /\
  param_text (obj_get "moduleId" fs) = m.

(** Neither an array nor an object. *)
Definition primitive (v : jsval num) : bool :=
  match v with
  | JArr _ | JObj _ => false
  | _ => true
  end.

(** A number, or missing. *)
Definition number_or_missing (v : jsval num) : bool :=
  match v with
  | JUndefined | JNull | JNum _ => true
  | _ => false
  end.




(** The row the fallback writes for a report that [e] stopped. *)
Definition queued (i : Z) (rcpt : jsstring) (name : jsval num) (content : jsstring)
    (e : option (Error num)) (d : Date) : pendingEmails.row :=
  pending_row i rcpt (sql_text (or_else name (JStr (js "User"))))
    report_subject content (js "inflation_report") (js "pending")
    (match e with
     | Some e => error_details e
     | None => Some (js "SendGrid configuration issue")
     end) d.

End Conditions.

(** ** Reading a response and a world *)

Section Observations.

Context {num : Type}.

Definition field (k : string) (v : jsval num) : jsval num :=
  match v with
  | JObj fs => obj_get k fs
  | _ => JUndefined
  end.

(** The [success] flag of an answer. *)
Definition success (r : Response num) : bool :=
  match field "success" (body r) with
  | JBool b => b
  | _ => false
  end.

(** [data.k] of an answer. *)
Definition data (k : string) (r : Response num) : jsval num :=
  field k (field "data" (body r)).

(** The clock moves between two requests. *)
Definition at_time (d : Date) (w : World) : World :=
  {| tables := tables w; mail_log := mail_log w; ticks := ticks w; now := d |}.

(** The store answers every statement. *)
Definition store_up (env : Env num) : Prop :=
  db env = true /\ forall n, db_outage env n = None.

(** No other request commits while the handler runs. *)
Definition alone (env : Env num) : Prop :=
  forall n t, concurrent env n t = t.

(** Two environments with the same store, whatever the transport and its
    credential. *)
Definition same_store (env1 env2 : Env num) : Prop :=
  db env1 = db env2 /\
  (forall n, db_outage env1 n = db_outage env2 n) /\
  (forall n t, concurrent env1 n t = concurrent env2 n t).

End Observations.

(** ** Conditions on a form and on what it meets *)

Section Form_conditions.

Context {num : Type} {NumOps : JsNumber num} {Driver : PgDriver num}.

(** The four required fields are there and the address is well formed. *)
Definition contact_request (fs : list (string * jsval num)) (s : jsstring) : Prop :=
  truthy (obj_get "name" fs) = true /\
  obj_get "email" fs = JStr s /\
  truthy (obj_get "investmentAmount" fs) = true /\
  truthy (obj_get "message" fs) = true /\
  emailRegex_test (trim s) = true.

(** The texts bound to the columns of a new row. *)
Definition contact_columns (fs : list (string * jsval num))
    (n : jsstring) (p : option jsstring) (a m : jsstring) : Prop :=
  call_trim "name" (obj_get "name" fs) = Ok n /\
  phone_column (obj_get "phone" fs) = Ok p /\
  call_trim "investmentAmount" (obj_get "investmentAmount" fs) = Ok a /\
  call_trim "message" (obj_get "message" fs) = Ok m.

(** The four required fields are there; the key, as it is bound to the
    two columns. *)
Definition achievement_request (fs : list (string * jsval num)) (u b : jsstring) : Prop :=
  truthy (obj_get "userId" fs) = true /\
  truthy (obj_get "badgeId" fs) = true /\
  truthy (obj_get "title" fs) = true /\
  truthy (obj_get "description" fs) = true /\
  param_text (obj_get "userId" fs) = u /\
  param_text (obj_get "badgeId" fs) = b.

(** Every field but [score] is there. *)
Definition quiz_request (fs : list (string * jsval num)) : Prop :=
  truthy (obj_get "userId" fs) = true /\
  truthy (obj_get "quizId" fs) = true /\
  truthy (obj_get "totalQuestions" fs) = true /\
  truthy (obj_get "answers" fs) = true.

(** No other request commits to the four tables while the handler runs. *)
Definition quiet (concurrent_records : nat -> Records -> Records) : Prop :=
  forall n r, concurrent_records n r = r.

(** The clock moves between two requests. *)
Definition later (d : Date) (s : Site) : Site :=
  {| world := at_time d (world s); records := records s |}.

(** The texts bound to the columns of a new row of the waitlist and of a
    new contact, in the order the handler trims them, or what the first
    [trim] that fails throws. *)
Definition lead_texts (fs : list (string * jsval num))
  : Result (Error num) (jsstring * option jsstring * jsstring * jsstring) :=
  rbind (call_trim "name" (obj_get "name" fs)) (fun n =>
  rbind (phone_column (obj_get "phone" fs)) (fun p =>
  rbind (call_trim "investmentAmount" (obj_get "investmentAmount" fs)) (fun a =>
  rbind (call_trim "experienceLevel" (obj_get "experienceLevel" fs)) (fun l =>
  Ok (n, p, a, l))))).

Definition contact_texts (fs : list (string * jsval num))
  : Result (Error num) (jsstring * option jsstring * jsstring * jsstring) :=
  rbind (call_trim "name" (obj_get "name" fs)) (fun n =>
  rbind (phone_column (obj_get "phone" fs)) (fun p =>
  rbind (call_trim "investmentAmount" (obj_get "investmentAmount" fs)) (fun a =>
  rbind (call_trim "message" (obj_get "message" fs)) (fun m =>
  Ok (n, p, a, m))))).

End Form_conditions.

(** ** What a table keeps *)

(** [r'] is [r] but for its payload and the time of its update, and is
    [r] itself unless [r] has the key. *)
Definition same_record (u m : jsstring) (r r' : learningProgress.row) : Prop :=
  learningProgress.id r' = learningProgress.id r /\
  learningProgress.userId r' = learningProgress.userId r /\
  learningProgress.moduleId r' = learningProgress.moduleId r /\
  learningProgress.createdAt r' = learningProgress.createdAt r /\
  (progress_of u m r = false -> r' = r).

(** What the schema promises of a table with a [unique] address: no
    address twice, no [id] twice, every [id] below the next value of the
    sequence; and what its handler adds to it: every address has passed
    the check. *)
Definition subscriptions_sound (t : Tables) : Prop :=
  NoDup (map newsletterSubscriptions.email (newsletter_subscriptions t)) /\
  NoDup (map newsletterSubscriptions.id (newsletter_subscriptions t)) /\
  Forall (fun r => newsletterSubscriptions.id r < newsletter_subscriptions_id_seq t /\
                   emailRegex_test (newsletterSubscriptions.email r) = true)
    (newsletter_subscriptions t).

Definition waitlist_sound (t : Tables) : Prop :=
  NoDup (map dealSourcingWaitlist.email (deal_sourcing_waitlist t)) /\
  NoDup (map dealSourcingWaitlist.id (deal_sourcing_waitlist t)) /\
  Forall (fun r => dealSourcingWaitlist.id r < deal_sourcing_waitlist_id_seq t /\
                   emailRegex_test (dealSourcingWaitlist.email r) = true)
    (deal_sourcing_waitlist t).

(** [learning_progress] has no unique column besides [id]. *)
Definition progress_sound (t : Tables) : Prop :=
  NoDup (map learningProgress.id (learning_progress t)) /\
  Forall (fun r => learningProgress.id r < learning_progress_id_seq t)
    (learning_progress t).

(** The catalog once every statement of [todo] has run. *)
Definition created (todo : list (string * string)) (c : Catalog) : Catalog :=
  fold_left (fun c' entry => create_table_if_not_exists (fst entry) (snd entry) c')
    todo c.

(** ** Sample worlds and requests *)

Definition noon : Date :=
  {| getFullYear := 2025; toISOString := js "2025-06-01T12:00:00.000Z" |}.

Definition year_end : Date :=
  {| getFullYear := 2025; toISOString := js "2025-12-31T23:59:59.000Z" |}.

Definition new_year : Date :=
  {| getFullYear := 2026; toISOString := js "2026-01-01T00:00:00.000Z" |}.

Definition no_rows : Tables :=
  {| newsletter_subscriptions := []; newsletter_subscriptions_id_seq := 1;
     deal_sourcing_waitlist := []; deal_sourcing_waitlist_id_seq := 1;
     learning_progress := []; learning_progress_id_seq := 1;
     pending_emails := []; pending_emails_id_seq := 1 |}.

Definition start : World :=
  {| tables := no_rows; mail_log := []; ticks := 0; now := noon |}.

(** What SendGrid answers to a sender it has not verified. *)
Definition forbidden : Error Z :=
  {| message := js "Forbidden";
     code := JNum 403;
     response_body :=
       JObj [("errors",
              JArr [JObj [("message",
                           JStr (js "The from address does not match a verified Sender Identity."));
                          ("field", JStr (js "from"))]])] |}.

Definition unreachable : Error Z :=
  {| message := js "fetch failed"; code := JUndefined; response_body := JUndefined |}.

(** Store up, nobody else, every mail accepted. *)
Definition calm : Env Z :=
  {| db := true; SENDGRID_API_KEY := Some (js "SG.key");
     db_outage := fun _ => None; concurrent := fun _ t => t;
     sg_send := fun _ _ => None |}.

(** Every mail refused. *)
Definition refusing : Env Z :=
  {| db := true; SENDGRID_API_KEY := Some (js "SG.key");
     db_outage := fun _ => None; concurrent := fun _ t => t;
     sg_send := fun _ _ => Some forbidden |}.


(** Every mail refused and no [DATABASE_URL]. *)
Definition detached : Env Z :=
  {| db := false; SENDGRID_API_KEY := Some (js "SG.key");
     db_outage := fun _ => None; concurrent := fun _ t => t;
     sg_send := fun _ _ => Some forbidden |}.


(** No [SENDGRID_API_KEY]. *)
Definition keyless : Env Z :=
  {| db := true; SENDGRID_API_KEY := None;
     db_outage := fun _ => None; concurrent := fun _ t => t;
     sg_send := fun _ _ => None |}.

Definition subscription_fields : list (string * jsval Z) :=
  [("email", JStr (js " a@b.com "))].

Definition lead_fields : list (string * jsval Z) :=
  [("name", JStr (js "Ann")); ("email", JStr (js "a@b.com"));
   ("investmentAmount", JStr (js "50000")); ("experienceLevel", JStr (js "beginner"))].

(** The same address with everything else changed. *)
Definition second_lead_fields : list (string * jsval Z) :=
  [("name", JStr (js "Bob")); ("email", JStr (js "a@b.com "));
   ("phone", JStr (js "020 3633 2783"));
   ("investmentAmount", JStr (js "100000")); ("experienceLevel", JStr (js "expert"))].

(** Between the look-up of a request (call 0) and its insert (call 1)
    another request for the same address is handled from start to end. *)
Definition racing : Env Z :=
  {| db := true; SENDGRID_API_KEY := None;
     db_outage := fun _ => None;
     concurrent := fun n t =>
       if (n =? 1)%nat
       then
         let w := {| tables := t; mail_log := []; ticks := 0; now := noon |} in
         let w := snd (newsletter calm (JObj subscription_fields) w) in
         tables (snd (send_deal_lead calm (JObj lead_fields) w))
       else t;
     sg_send := fun _ _ => None |}.

Definition report_fields : list (string * jsval Z) :=
  [("name", JStr (js "Ann")); ("email", JStr (js "a@b.com"));
   ("amount", JNum 100); ("month", JNum 6); ("year", JNum 2015);
   ("calculationData",
    JObj [("originalValue", JNum 100); ("todayValue", JNum 150);
          ("lossInValue", JNum 50); ("percentageIncrease", JNum 25)])].

(** A report request whose [calculationData] has no field at all. *)
Definition bare_report_fields : list (string * jsval Z) :=
  [("email", JStr (js "a@b.com")); ("calculationData", JObj [])].

Definition progress_fields : list (string * jsval Z) :=
  [("userId", JStr (js "u1")); ("moduleId", JStr (js "m1"));
   ("completed", JStr (js "true")); ("score", JStr (js "85"));
   ("timeSpent", JStr (js "120"))].


(** The body of the report for a request, where it renders. *)
Definition rendered (fs : list (string * jsval Z)) (d : Date) : jsstring :=
  match content_of fs d with
  | Ok content => content
  | Throw _ => []
  end.

(** Does [s] hold [sub]? *)
Fixpoint starts_with (sub s : jsstring) : bool :=
  match sub, s with
  | [], _ => true
  | _ :: _, [] => false
  | a :: sub', b :: s' => (a =? b)%N && starts_with sub' s'
  end.

Fixpoint includes (sub s : jsstring) : bool :=
  starts_with sub s ||
  match s with
  | [] => false
  | _ :: s' => includes sub s'
  end.

(** The same address but for the case of a letter. *)
Definition capital_subscription_fields : list (string * jsval Z) :=
  [("email", JStr (js "A@b.com"))].

Definition capital_lead_fields : list (string * jsval Z) :=
  [("name", JStr (js "Ann")); ("email", JStr (js "A@b.com"));
   ("investmentAmount", JStr (js "50000")); ("experienceLevel", JStr (js "beginner"))].

(** A lead whose name is a number. *)
Definition unnamed_lead_fields : list (string * jsval Z) :=
  [("name", JNum 7); ("email", JStr (js "a@b.com"));
   ("investmentAmount", JStr (js "50000")); ("experienceLevel", JStr (js "beginner"))].

(** Between the look-up of a progress request (call 0) and its insert
    (call 1) another request for the same key is handled from start to
    end. *)
Definition racing_progress : Env Z :=
  {| db := true; SENDGRID_API_KEY := None;
     db_outage := fun _ => None;
     concurrent := fun n t =>
       if (n =? 1)%nat
       then
         let w := {| tables := t; mail_log := []; ticks := 0; now := noon |} in
         tables (snd (create_progress calm (JObj progress_fields) w))
       else t;
     sg_send := fun _ _ => None |}.

(** The store out of reach at the first statement. *)
Definition down : Env Z :=
  {| db := true; SENDGRID_API_KEY := None;
     db_outage := fun _ => Some unreachable; concurrent := fun _ t => t;
     sg_send := fun _ _ => None |}.

Definition no_records : Records :=
  {| contact_submissions := []; contact_submissions_id_seq := 1;
     inflation_calculations := []; inflation_calculations_id_seq := 1;
     achievements := []; achievements_id_seq := 1;
     quiz_results := []; quiz_results_id_seq := 1 |}.

Definition opening : Site := {| world := start; records := no_records |}.

(** Nobody else writes to the four tables. *)
Definition nobody : nat -> Records -> Records := fun _ r => r.

(** A form whose message is white space. *)
Definition contact_fields : list (string * jsval Z) :=
  [("name", JStr (js " Ann ")); ("email", JStr (js "a@b.com"));
   ("investmentAmount", JStr (js "50000")); ("message", JStr (js "   "))].

Definition badge_fields : list (string * jsval Z) :=
  [("userId", JStr (js "u1")); ("badgeId", JStr (js "first-steps"));
   ("title", JStr (js "First steps")); ("description", JStr (js "One module done"))].

(** The same badge under another title. *)
Definition second_badge_fields : list (string * jsval Z) :=
  [("userId", JStr (js "u1")); ("badgeId", JStr (js "first-steps"));
   ("title", JStr (js "Beginner")); ("description", JStr (js "Again"))].

(** Between the look-up of a badge (call 0) and its insert (call 1)
    another request for the same badge is handled from start to end. *)
Definition rival_badge : nat -> Records -> Records :=
  fun n r =>
    if (n =? 1)%nat
    then records (snd (create_achievement calm nobody (JObj badge_fields)
                         {| world := start; records := r |}))
    else r.

(** A quiz nobody got a point in. *)
Definition quiz_fields : list (string * jsval Z) :=
  [("userId", JStr (js "u1")); ("quizId", JStr (js "q1"));
   ("score", JNum 0); ("totalQuestions", JNum 10);
   ("answers", JArr [JNum 2; JNum 1])].

Definition null_score_fields : list (string * jsval Z) :=
  [("userId", JStr (js "u1")); ("quizId", JStr (js "q1"));
   ("score", JNull); ("totalQuestions", JNum 10);
   ("answers", JArr [JNum 2; JNum 1])].

(** The start-up meets a store that refuses statement [k]. *)
Definition refused_at (k : nat) : nat -> option (Error Z) :=
  fun n => if (n =? k)%nat then Some unreachable else None.

(** A store that has the first table already, from an older release. *)
Definition old_catalog : Catalog :=
  [("newsletter_subscriptions",
    "CREATE TABLE newsletter_subscriptions (id SERIAL PRIMARY KEY, email TEXT)")].

Arguments js : simpl never.
Arguments html : simpl never.
Arguments trim : simpl never.
Arguments emailRegex_test : simpl never.
Arguments ToString_int : simpl never.
Arguments emailContent : simpl never.
Arguments confirmation_html : simpl never.
Arguments JSON_stringify : simpl never.
Arguments jsstring_eqb : simpl never.

(** ** Tactics *)

(** Case analysis along a handler: every [match] and [if] on the way is
    decided, innermost scrutinee first. *)
Ltac inner x :=
  lazymatch x with
  | context [match ?y with _ => _ end] => inner y
  | _ => destruct x eqn:?
  end.

Ltac step :=
  match goal with
  | |- context [match ?x with _ => _ end] => inner x
  | |- context [if ?x then _ else _] => inner x
  end.

Ltac run_lead :=
  unfold send_deal_lead, handler, bind, lift, ret, throw, try_catch,
    select_dealSourcingWaitlist, insert_dealSourcingWaitlist, db_statement,
    sgMail_send.

Ltac run_ingest :=
  unfold newsletter, create_progress, update_progress, handler, bind, lift, ret,
    throw, new_Date, select_newsletterSubscriptions, insert_newsletterSubscriptions,
    select_learningProgress, update_learningProgress, insert_learningProgress,
    db_statement.

(** What closes the cases where something went wrong; [get_field] relates
    a property read to [field]. *)
Ltac surfaced_by get_field :=
  intros;
  repeat match goal with
         | H : get _ _ = Ok _ |- _ => apply get_field in H; subst
         end;
  try reflexivity; try discriminate;
  try match goal with
      | H : db ?e = false, H' : negb (db ?e) = false |- _ =>
          rewrite H in H'; discriminate
      | H : ?x <> None, H' : ?x = None |- _ => contradiction
      | H : ?x <> ?x |- _ => now contradiction H
      | H : field "email" ?r = JStr ?s,
        H' : call_trim "email" (field "email" ?r) = Ok ?a,
        H'' : negb (emailRegex_test ?a) = false |- _ =>
          rewrite H in H'; cbn in H'; injection H' as <-;
          apply negb_false_iff in H''; congruence
      | H : _ && _ = false, H' : _ || _ = false |- _ =>
          repeat (apply orb_false_iff in H' as [H' ?]);
          repeat match goal with
                 | H1 : negb ?b = false |- _ =>
                     apply negb_false_iff in H1; rewrite H1 in H
                 end;
          discriminate
      end.

Ltac run_report :=
  unfold inflation_email, send_report, store_pending, insert_pendingEmails,
    handler, bind, lift, ret, throw, try_catch, new_Date, db_statement.

Ltac run_reading :=
  unfold get_progress, handler, bind, lift, ret, throw,
    select_learningProgress_by, db_statement.

Ltac run_forms :=
  unfold contact, create_achievement, get_achievements, create_quiz_result,
    get_quiz_results, Fhandler, Fbind, Flift, Fret, Fthrow,
    insert_contactSubmissions, select_achievements, insert_achievements,
    select_quizResults, insert_quizResults, records_statement.

(** The three ways a handler leaves a table it appends to: as it was,
    with the sequence advanced, with a row more. *)
Ltac appended_by l k :=
  exists l, k;
  split; [cbn; rewrite ?app_nil_r, ?Z.add_0_r; reflexivity
         | split; [cbn; lia | lia]].

Ltac appended :=
  cbn [fst snd tables committed mailed];
  destruct (tables _);
  first [ appended_by (@nil newsletterSubscriptions.row) 0
        | appended_by (@nil newsletterSubscriptions.row) 1
        | appended_by (@nil dealSourcingWaitlist.row) 0
        | appended_by (@nil dealSourcingWaitlist.row) 1
        | appended_by (@nil pendingEmails.row) 0
        | eexists [_], 1;
          split; [cbn; reflexivity | split; [cbn; lia | lia]] ].

(** The ways a progress handler leaves its table; [kept] shows that the
    rows that were there are the same records. *)
Ltac rewritten_by kept rows' l k :=
  exists rows', l, k;
  split; [cbn; rewrite ?app_nil_r, ?Z.add_0_r; reflexivity
         | split; [kept | split; [cbn; lia | lia]]].

(** The same for the four other tables. *)
Ltac recorded_by l k :=
  exists l, k;
  split; [cbn; rewrite ?app_nil_r, ?Z.add_0_r; reflexivity
         | split; [cbn; lia | lia]].

Ltac recorded_once :=
  cbn [fst snd records recorded];
  destruct (records _);
  first [ recorded_by (@nil contactSubmissions.row) 0
        | recorded_by (@nil achievements.row) 0
        | recorded_by (@nil quizResults.row) 0
        | recorded_by (@nil quizResults.row) 1
        | eexists [_], 1;
          split; [cbn; reflexivity | split; [cbn; lia | lia]] ].

(** The status of an answer against its [success] flag. *)
Ltac status_and_flag :=
  split; [split; [intros H; try discriminate H; auto
                 | intros [H|H]; try discriminate H; reflexivity]|].

(** The row of an answer is the one just appended, or one the look-up
    found. *)
Ltac in_the_table :=
  first [ apply in_or_app; right; left; reflexivity
        | match goal with
          | H : filter ?f ?l = ?d :: _ |- In ?d ?l =>
              apply (proj1 (filter_In f d l)); rewrite H; left; reflexivity
          end ].

(** * Properties *)

(** ** Strings *)

Lemma jsstring_eqb_eq (a b : jsstring) : jsstring_eqb a b = true <-> a = b.
Proof.
  unfold jsstring_eqb. destruct (list_eq_dec N.eq_dec a b); split; congruence.
Qed.

Lemma jsstring_eqb_refl (a : jsstring) : jsstring_eqb a a = true.
Proof. apply jsstring_eqb_eq. reflexivity. Qed.

Lemma takePlain_dropPlain (s : jsstring) : takePlain s ++ dropPlain s = s.
Proof.
  induction s as [|c r IH]; simpl; [reflexivity|].
  destruct (plain c); simpl; [now rewrite IH | reflexivity].
Qed.

Lemma takePlain_all (s : jsstring) : forallb plain (takePlain s) = true.
Proof.
  induction s as [|c r IH]; simpl; [reflexivity|].
  destruct (plain c) eqn:E; simpl; [now rewrite E | reflexivity].
Qed.

Lemma takePlain_app (a r : jsstring) (c : N) :
  forallb plain a = true -> plain c = false ->
  takePlain (a ++ c :: r) = a /\ dropPlain (a ++ c :: r) = c :: r.
Proof.
  intros Ha Hc. induction a as [|x a IH]; simpl in *.
  - now rewrite Hc.
  - apply andb_true_iff in Ha as [Hx Ha]. rewrite Hx.
    destruct (IH Ha) as [-> ->]. now split.
Qed.

Lemma existsb_removelast_split (t : jsstring) :
  existsb (N.eqb full_stop) (removelast t) = true ->
  exists b c, t = b ++ full_stop :: c /\ c <> [].
Proof.
  induction t as [|x t IH]; [simpl; discriminate|].
  destruct t as [|y t]; [simpl; discriminate|].
  intros H.
  change (removelast (x :: y :: t)) with (x :: removelast (y :: t)) in H.
  cbn [existsb] in H. apply orb_true_iff in H as [H|H].
  - apply N.eqb_eq in H. subst x. exists [], (y :: t). split; [reflexivity | discriminate].
  - destruct (IH H) as (b & c & E & Hc). exists (x :: b), c.
    split; [now rewrite E | exact Hc].
Qed.

Lemma removelast_split_existsb (b c : jsstring) :
  c <> [] -> existsb (N.eqb full_stop) (removelast (b ++ full_stop :: c)) = true.
Proof.
  intros Hc. induction b as [|x b IH].
  - destruct c as [|y c]; [congruence|]. reflexivity.
  - change (existsb (N.eqb full_stop) (removelast (x :: (b ++ full_stop :: c))) = true).
    destruct (b ++ full_stop :: c) eqn:E.
    + destruct b; discriminate.
    + change (removelast (x :: n :: l)) with (x :: removelast (n :: l)).
      cbn [existsb]. rewrite IH. apply orb_true_r.
Qed.

Lemma plain_at_sign : plain at_sign = false.
Proof. reflexivity. Qed.

(** The test is the regular expression: it accepts exactly the strings
    [a@b.c] with [a], [b] and [c] non-empty and free of white space and of
    [@]. *)
Lemma emailRegex_test_spec (s : jsstring) :
  emailRegex_test s = true <-> matches_emailRegex s.
Proof.
  unfold emailRegex_test, matches_emailRegex. split.
  - pose proof (takePlain_dropPlain s) as Hs.
    pose proof (takePlain_all s) as Ha.
    destruct (takePlain s) as [|x a] eqn:Et; [discriminate|].
    destruct (dropPlain s) as [|c d] eqn:Ed; [discriminate|].
    intros H. apply andb_true_iff in H as [H Hdot].
    apply andb_true_iff in H as [Hc Hd]. apply N.eqb_eq in Hc. subst c.
    destruct d as [|y t]; [discriminate|].
    destruct (existsb_removelast_split t Hdot) as (b & c & E & Hc).
    subst t. exists (x :: a), (y :: b), c.
    change (y :: b ++ full_stop :: c) with ((y :: b) ++ full_stop :: c) in Hd.
    rewrite forallb_app in Hd. apply andb_true_iff in Hd as [Hb Hc'].
    simpl in Hc'.
    repeat split; try discriminate; try assumption.
    now rewrite <- Hs.
  - intros (a & b & c & -> & Ha & Hb & Hc & Pa & Pb & Pc).
    destruct (takePlain_app a (b ++ full_stop :: c) at_sign Pa plain_at_sign)
      as [-> ->].
    destruct a as [|x a]; [congruence|].
    rewrite N.eqb_refl. simpl andb.
    assert (Pd : forallb plain (b ++ full_stop :: c) = true).
    { rewrite forallb_app. rewrite Pb. simpl. now rewrite Pc. }
    rewrite Pd. destruct b as [|y b]; [congruence|].
    change ((y :: b) ++ full_stop :: c) with (y :: (b ++ full_stop :: c)).
    now apply removelast_split_existsb.
Qed.

Lemma emailRegex_test_nonempty (s : jsstring) :
  emailRegex_test s = true -> exists c r, s = c :: r.
Proof.
  unfold emailRegex_test. destruct s as [|c r]; [discriminate|]. eauto.
Qed.

(** ** Running a handler *)

Section Runs.

Context {num : Type} {NumOps : JsNumber num} {Driver : PgDriver num}.

Variable env : Env num.

Lemma db_statement_up {A} (run : Date -> Tables -> Result (Error num) A * Tables) w :
  db_outage env (ticks w) = None ->
  db_statement env run w =
  (fst (run (now w) (concurrent env (ticks w) (tables w))),
   committed (snd (run (now w) (concurrent env (ticks w) (tables w)))) w).
Proof.
  intros H. unfold db_statement. rewrite H.
  now destruct (run (now w) (concurrent env (ticks w) (tables w))).
Qed.

Lemma db_statement_down {A} (run : Date -> Tables -> Result (Error num) A * Tables) w e :
  db_outage env (ticks w) = Some e ->
  db_statement env run w = (Throw e, committed (concurrent env (ticks w) (tables w)) w).
Proof. intros H. unfold db_statement. now rewrite H. Qed.

Lemma empty_trim_of_match (t : jsstring) :
  emailRegex_test t = true -> empty t = false.
Proof.
  intros H. destruct (emailRegex_test_nonempty t H) as (c & r & ->). reflexivity.
Qed.

Lemma truthy_of_match (s : jsstring) :
  emailRegex_test (trim s) = true -> truthy (JStr s : jsval num) = true.
Proof.
  destruct s; [|reflexivity]. intros H. apply emailRegex_test_nonempty in H.
  destruct H as (c & r & H). discriminate.
Qed.

(** *** [POST /api/newsletter] *)

(** A request with a well-formed address gets past the checks. *)
Lemma newsletter_valid fs s w :
  obj_get "email" fs = JStr s ->
  emailRegex_test (trim s) = true ->
  db env = true ->
  newsletter env (JObj fs) w =
  handler
    (bind (select_newsletterSubscriptions env (trim s)) (fun existing =>
       match existing with
       | r :: _ =>
           ret (answer 200 "Email already subscribed to newsletter"
                  (subscription_data r))
       | [] =>
           bind (insert_newsletterSubscriptions env (trim s)) (fun result =>
             match result with
             | [] => throw (NewError (js "Failed to create newsletter subscription"))
             | r :: _ =>
                 ret (answer 201 "Successfully subscribed to newsletter"
                        (subscription_data r))
             end)
       end))
    (failed "Failed to subscribe to newsletter") w.
Proof.
  intros He Hm Hdb. unfold newsletter, handler, bind at 1 2 3, lift. simpl get.
  rewrite He, (truthy_of_match s Hm). simpl rbind.
  rewrite (empty_trim_of_match _ Hm). unfold call_trim. rewrite Hm, Hdb. reflexivity.
Qed.

(** The look-up finds a row: it is returned and nothing is written. *)
Lemma newsletter_found fs s w r rest :
  obj_get "email" fs = JStr s ->
  emailRegex_test (trim s) = true ->
  db env = true ->
  db_outage env (ticks w) = None ->
  filter (subscribed_as (trim s))
    (newsletter_subscriptions (concurrent env (ticks w) (tables w))) = r :: rest ->
  newsletter env (JObj fs) w =
  (answer 200 "Email already subscribed to newsletter" (subscription_data r),
   committed (concurrent env (ticks w) (tables w)) w).
Proof.
  intros He Hm Hdb Hup Hf. rewrite (newsletter_valid fs s w He Hm Hdb).
  unfold handler, bind, select_newsletterSubscriptions.
  rewrite (db_statement_up _ w Hup). cbn [fst snd].
  rewrite Hf. reflexivity.
Qed.

(** The look-up finds nothing and the insert goes through. *)
Lemma newsletter_created fs s w :
  let t1 := concurrent env (ticks w) (tables w) in
  let t2 := concurrent env (S (ticks w)) t1 in
  let r := {| newsletterSubscriptions.id := newsletter_subscriptions_id_seq t2;
              newsletterSubscriptions.email := trim s;
              newsletterSubscriptions.createdAt := now w |} in
  obj_get "email" fs = JStr s ->
  emailRegex_test (trim s) = true ->
  db env = true ->
  db_outage env (ticks w) = None ->
  db_outage env (S (ticks w)) = None ->
  filter (subscribed_as (trim s)) (newsletter_subscriptions t1) = [] ->
  existsb (subscribed_as (trim s)) (newsletter_subscriptions t2) = false ->
  newsletter env (JObj fs) w =
  (answer 201 "Successfully subscribed to newsletter" (subscription_data r),
   committed
     (set_newsletter_subscriptions (newsletter_subscriptions t2 ++ [r])
        (newsletter_subscriptions_id_seq t2 + 1) t2)
     (committed t1 w)).
Proof.
  intros t1 t2 r He Hm Hdb Hup1 Hup2 Hf Hx.
  rewrite (newsletter_valid fs s w He Hm Hdb).
  unfold handler, bind, select_newsletterSubscriptions, insert_newsletterSubscriptions.
  rewrite (db_statement_up _ w Hup1). cbn [fst snd].
  fold t1. rewrite Hf.
  rewrite db_statement_up by exact Hup2. cbn [tables ticks committed now].
  fold t2. rewrite Hx. reflexivity.
Qed.

(** The look-up finds nothing, and when the insert arrives another request
    has committed the address: the error of the store is the answer, and
    the handler sends no third statement. *)
Lemma newsletter_conflict fs s w :
  let t1 := concurrent env (ticks w) (tables w) in
  let t2 := concurrent env (S (ticks w)) t1 in
  obj_get "email" fs = JStr s ->
  emailRegex_test (trim s) = true ->
  db env = true ->
  db_outage env (ticks w) = None ->
  db_outage env (S (ticks w)) = None ->
  filter (subscribed_as (trim s)) (newsletter_subscriptions t1) = [] ->
  existsb (subscribed_as (trim s)) (newsletter_subscriptions t2) = true ->
  newsletter env (JObj fs) w =
  (failed "Failed to subscribe to newsletter"
     (unique_violation "newsletter_subscriptions_email_key"),
   committed
     (set_newsletter_subscriptions (newsletter_subscriptions t2)
        (newsletter_subscriptions_id_seq t2 + 1) t2)
     (committed t1 w)).
Proof.
  intros t1 t2 He Hm Hdb Hup1 Hup2 Hf Hx.
  rewrite (newsletter_valid fs s w He Hm Hdb).
  unfold handler, bind, select_newsletterSubscriptions, insert_newsletterSubscriptions.
  rewrite (db_statement_up _ w Hup1). cbn [fst snd].
  fold t1. rewrite Hf.
  rewrite db_statement_up by exact Hup2. cbn [tables ticks committed now].
  fold t2. rewrite Hx. reflexivity.
Qed.

(** *** [POST /api/send-deal-lead] *)

Lemma send_deal_lead_valid fs s w :
  lead_request fs s ->
  db env = true ->
  send_deal_lead env (JObj fs) w =
  handler
    (bind (select_dealSourcingWaitlist env (trim s)) (fun existing =>
       match existing with
       | r :: _ =>
           ret (answer 200 "Email already on deal sourcing waitlist"
                  (JObj (waitlist_data r)))
       | [] =>
           bind (lift (call_trim "name" (obj_get "name" fs))) (fun n =>
           bind (lift (phone_column (obj_get "phone" fs))) (fun p =>
           bind (lift (call_trim "investmentAmount" (obj_get "investmentAmount" fs)))
             (fun a =>
           bind (lift (call_trim "experienceLevel" (obj_get "experienceLevel" fs)))
             (fun l =>
           bind (insert_dealSourcingWaitlist env n (trim s) p a l) (fun result =>
             match result with
             | [] => throw (NewError (js "Failed to add to deal sourcing waitlist"))
             | waitlistEntry :: _ =>
                 bind (if sendgrid_configured env
                       then try_catch
                              (bind (sgMail_send env (welcome (trim s) n))
                                 (fun _ => ret true))
                              (fun _ => ret false)
                       else ret false)
                   (fun emailSent =>
                      ret (answer 201 "Successfully added to deal sourcing waitlist"
                             (JObj (waitlist_data waitlistEntry
                                    ++ [("emailSent", JBool emailSent)]))))
             end)))))
       end))
    (failed "Failed to join deal sourcing waitlist") w.
Proof.
  intros (Hn & He & Ha & Hl & Hm) Hdb.
  unfold send_deal_lead, handler, bind at 1 2 3 4 5 6, lift. simpl get.
  cbv beta iota. rewrite Hn, He, Ha, Hl, (truthy_of_match s Hm). cbn [negb orb].
  unfold call_trim at 1. rewrite Hm, Hdb. reflexivity.
Qed.

Lemma send_deal_lead_found fs s w r rest :
  lead_request fs s ->
  db env = true ->
  db_outage env (ticks w) = None ->
  filter (waitlisted_as (trim s))
    (deal_sourcing_waitlist (concurrent env (ticks w) (tables w))) = r :: rest ->
  send_deal_lead env (JObj fs) w =
  (answer 200 "Email already on deal sourcing waitlist" (JObj (waitlist_data r)),
   committed (concurrent env (ticks w) (tables w)) w).
Proof.
  intros Hreq Hdb Hup Hf. rewrite (send_deal_lead_valid fs s w Hreq Hdb).
  unfold handler, bind, select_dealSourcingWaitlist.
  rewrite (db_statement_up _ w Hup). cbn [fst snd]. rewrite Hf. reflexivity.
Qed.

Lemma confirmed_run e n w :
  (if sendgrid_configured env
   then try_catch (bind (sgMail_send env (welcome e n)) (fun _ => ret true))
          (fun _ => ret false)
   else ret false) w
  = (Ok (fst (confirmed env e n w)), snd (confirmed env e n w)).
Proof.
  unfold confirmed. destruct (sendgrid_configured env); [|reflexivity].
  unfold try_catch, bind, sgMail_send, ret.
  now destruct (sg_send env (ticks w) (welcome e n)).
Qed.

Lemma send_deal_lead_created fs s n p a l w :
  let t1 := concurrent env (ticks w) (tables w) in
  let t2 := concurrent env (S (ticks w)) t1 in
  let r := {| dealSourcingWaitlist.id := deal_sourcing_waitlist_id_seq t2;
              dealSourcingWaitlist.name := n;
              dealSourcingWaitlist.email := trim s;
              dealSourcingWaitlist.phone := p;
              dealSourcingWaitlist.investmentAmount := a;
              dealSourcingWaitlist.experienceLevel := l;
              dealSourcingWaitlist.createdAt := now w |} in
  let w2 := committed
              (set_deal_sourcing_waitlist (deal_sourcing_waitlist t2 ++ [r])
                 (deal_sourcing_waitlist_id_seq t2 + 1) t2)
              (committed t1 w) in
  lead_request fs s ->
  lead_columns fs n p a l ->
  db env = true ->
  db_outage env (ticks w) = None ->
  db_outage env (S (ticks w)) = None ->
  filter (waitlisted_as (trim s)) (deal_sourcing_waitlist t1) = [] ->
  existsb (waitlisted_as (trim s)) (deal_sourcing_waitlist t2) = false ->
  send_deal_lead env (JObj fs) w =
  (answer 201 "Successfully added to deal sourcing waitlist"
     (JObj (waitlist_data r
            ++ [("emailSent", JBool (fst (confirmed env (trim s) n w2)))])),
   snd (confirmed env (trim s) n w2)).
Proof.
  intros t1 t2 r w2 Hreq (Cn & Cp & Ca & Cl) Hdb Hup1 Hup2 Hf Hx.
  rewrite (send_deal_lead_valid fs s w Hreq Hdb).
  unfold handler. unfold bind at 1. unfold select_dealSourcingWaitlist.
  rewrite (db_statement_up _ w Hup1). cbn [fst snd]. fold t1. rewrite Hf.
  rewrite Cn, Cp, Ca, Cl. unfold bind at 1 2 3 4 5, lift.
  unfold insert_dealSourcingWaitlist.
  rewrite db_statement_up by exact Hup2. cbn [tables ticks committed now].
  fold t2. rewrite Hx. cbn [fst snd]. fold r. unfold bind.
  change (committed _ (committed t1 w)) with w2 at 1.
  unfold confirmed. destruct (sendgrid_configured env); [|reflexivity].
  unfold try_catch, sgMail_send, ret.
  now destruct (sg_send env (ticks w2) (welcome (trim s) n)).
Qed.

(** The insert meets a row another request has just committed. *)
Lemma send_deal_lead_conflict fs s n p a l w :
  let t1 := concurrent env (ticks w) (tables w) in
  let t2 := concurrent env (S (ticks w)) t1 in
  lead_request fs s ->
  lead_columns fs n p a l ->
  db env = true ->
  db_outage env (ticks w) = None ->
  db_outage env (S (ticks w)) = None ->
  filter (waitlisted_as (trim s)) (deal_sourcing_waitlist t1) = [] ->
  existsb (waitlisted_as (trim s)) (deal_sourcing_waitlist t2) = true ->
  send_deal_lead env (JObj fs) w =
  (failed "Failed to join deal sourcing waitlist"
     (unique_violation "deal_sourcing_waitlist_email_key"),
   committed
     (set_deal_sourcing_waitlist (deal_sourcing_waitlist t2)
        (deal_sourcing_waitlist_id_seq t2 + 1) t2)
     (committed t1 w)).
Proof.
  intros t1 t2 Hreq (Cn & Cp & Ca & Cl) Hdb Hup1 Hup2 Hf Hx.
  rewrite (send_deal_lead_valid fs s w Hreq Hdb).
  unfold handler. unfold bind at 1. unfold select_dealSourcingWaitlist.
  rewrite (db_statement_up _ w Hup1). cbn [fst snd]. fold t1. rewrite Hf.
  rewrite Cn, Cp, Ca, Cl. unfold bind at 1 2 3 4 5, lift.
  unfold insert_dealSourcingWaitlist.
  rewrite db_statement_up by exact Hup2. cbn [tables ticks committed now].
  fold t2. rewrite Hx. reflexivity.
Qed.

(** The store refuses the look-up, or the insert. *)
Lemma send_deal_lead_select_refused fs s w e :
  lead_request fs s ->
  db env = true ->
  db_outage env (ticks w) = Some e ->
  send_deal_lead env (JObj fs) w =
  (failed "Failed to join deal sourcing waitlist" e,
   committed (concurrent env (ticks w) (tables w)) w).
Proof.
  intros Hreq Hdb Hdown. rewrite (send_deal_lead_valid fs s w Hreq Hdb).
  unfold handler. unfold bind at 1. unfold select_dealSourcingWaitlist.
  now rewrite (db_statement_down _ w e Hdown).
Qed.

Lemma send_deal_lead_insert_refused fs s n p a l w e :
  let t1 := concurrent env (ticks w) (tables w) in
  let t2 := concurrent env (S (ticks w)) t1 in
  lead_request fs s ->
  lead_columns fs n p a l ->
  db env = true ->
  db_outage env (ticks w) = None ->
  db_outage env (S (ticks w)) = Some e ->
  filter (waitlisted_as (trim s)) (deal_sourcing_waitlist t1) = [] ->
  send_deal_lead env (JObj fs) w =
  (failed "Failed to join deal sourcing waitlist" e, committed t2 (committed t1 w)).
Proof.
  intros t1 t2 Hreq (Cn & Cp & Ca & Cl) Hdb Hup1 Hdown Hf.
  rewrite (send_deal_lead_valid fs s w Hreq Hdb).
  unfold handler. unfold bind at 1. unfold select_dealSourcingWaitlist.
  rewrite (db_statement_up _ w Hup1). cbn [fst snd]. fold t1. rewrite Hf.
  rewrite Cn, Cp, Ca, Cl. unfold bind at 1 2 3 4 5, lift.
  unfold insert_dealSourcingWaitlist.
  now rewrite (db_statement_down _ (committed t1 w) e Hdown).
Qed.

(** *** [POST /api/inflation-email] *)

Lemma inflation_email_valid fs s w :
  report_request fs s ->
  inflation_email env (JObj fs) w =
  handler
    (bind (send_report env (trim s) (obj_get "name" fs) (obj_get "amount" fs)
             (obj_get "month" fs) (obj_get "year" fs) (obj_get "chartImage" fs)
             (obj_get "calculationData" fs))
       (fun flags =>
          let '(emailSent, emailError, emailStored) := flags in
          bind new_Date (fun d =>
            ret (answer 200 "Inflation email processed successfully"
                   (report_data emailSent emailStored (trim s) d emailError)))))
    (failed "Failed to process inflation email") w.
Proof.
  intros (He & Hc & Hm).
  unfold inflation_email, handler, bind at 1 2 3 4 5 6 7 8, lift. simpl get.
  cbv beta iota. rewrite He, Hc, (truthy_of_match s Hm). cbn [negb orb].
  unfold call_trim. rewrite Hm. reflexivity.
Qed.


(** The fallback: a row when the store is connected and takes the
    statement, nothing otherwise, and never an exception. *)
Lemma store_pending_run rcpt name content emailError w :
  let t := concurrent env (ticks w) (tables w) in
  store_pending env rcpt name content emailError w =
  if db env
  then match db_outage env (ticks w) with
       | None =>
           (Ok true,
            committed
              (set_pending_emails
                 (pending_emails t ++
                  [queued (pending_emails_id_seq t) rcpt name content emailError (now w)])
                 (pending_emails_id_seq t + 1) t) w)
       | Some _ => (Ok false, committed t w)
       end
  else (Ok false, w).
Proof.
  intros t. unfold store_pending. destruct (db env); [|reflexivity].
  unfold try_catch, bind, insert_pendingEmails, db_statement, ret.
  fold t. now destruct (db_outage env (ticks w)).
Qed.

Lemma send_report_unconfigured rcpt name amount month year chartImage cd w :
  sendgrid_configured env = false ->
  send_report env rcpt name amount month year chartImage cd w
  = (Ok (false, None, false), w).
Proof. intros H. unfold send_report. now rewrite H. Qed.



(** No credential: nothing is tried and nothing is written. *)
Lemma inflation_email_unconfigured fs s w :
  report_request fs s ->
  sendgrid_configured env = false ->
  inflation_email env (JObj fs) w =
  (answer 200 "Inflation email processed successfully"
     (report_data false false (trim s) (now w) None), w).
Proof.
  intros Hreq Hkey. rewrite (inflation_email_valid fs s w Hreq).
  unfold handler, bind at 1. now rewrite send_report_unconfigured.
Qed.

(** The loop and the fallback never throw. *)
Lemma send_with_returns rcpt content configs :
  forall w emailSent emailError,
  exists sent err w', send_with env configs rcpt content emailSent emailError w
                      = (Ok (sent, err), w') /\ now w' = now w.
Proof.
  induction configs as [|c rest IH]; intros w emailSent emailError.
  - exists emailSent, emailError, w. now split.
  - cbn [send_with]. unfold try_catch, bind, sgMail_send.
    destruct (sg_send env (ticks w) (report_msg rcpt content c)) as [e|].
    + destruct (IH (mailed (report_msg rcpt content c) w) emailSent (Some e))
        as (sent & err & w' & -> & Hn). now exists sent, err, w'.
    + eexists _, _, _. split; reflexivity.
Qed.

Lemma send_report_returns rcpt name amount month year chartImage cd w :
  exists flags w',
    send_report env rcpt name amount month year chartImage cd w = (Ok flags, w') /\
    now w' = now w.
Proof.
  unfold send_report. destruct (sendgrid_configured env).
  - unfold bind at 1, new_Date.
    destruct (emailContent name amount month year chartImage cd (now w)) as [content|e].
    + unfold bind at 1.
      destruct (send_with_returns rcpt content senderConfigs w false None)
        as (sent & err & w' & -> & Hn).
      destruct sent; cbn [negb].
      * eexists _, _. split; [reflexivity | exact Hn].
      * unfold bind. rewrite store_pending_run.
        destruct (db env); [destruct (db_outage env (ticks w'))|];
          (eexists _, _; split; [reflexivity | exact Hn]).
    + eexists _, _. split; reflexivity.
  - eexists _, _. split; reflexivity.
Qed.

(** A well-formed request is answered 200, whatever store and transport
    do. *)
Lemma inflation_email_answers fs s w :
  report_request fs s ->
  exists emailSent emailStored emailError w',
    inflation_email env (JObj fs) w =
    (answer 200 "Inflation email processed successfully"
       (report_data emailSent emailStored (trim s) (now w) emailError), w').
Proof.
  intros Hreq. rewrite (inflation_email_valid fs s w Hreq).
  unfold handler, bind at 1.
  destruct (send_report_returns (trim s) (obj_get "name" fs) (obj_get "amount" fs)
              (obj_get "month" fs) (obj_get "year" fs) (obj_get "chartImage" fs)
              (obj_get "calculationData" fs) w)
    as ([[sent err] stored] & w' & -> & Hn).
  exists sent, stored, err, w'. unfold bind, new_Date, ret. now rewrite Hn.
Qed.

(** *** Learning progress *)

Lemma progress_of_set_progress u m c s ts d r :
  progress_of u m (set_progress c s ts d r) = progress_of u m r.
Proof. reflexivity. Qed.

Lemma filter_overwrite u m c s ts d rows :
  filter (progress_of u m) (overwrite u m c s ts d rows)
  = map (set_progress c s ts d) (filter (progress_of u m) rows).
Proof.
  unfold overwrite. induction rows as [|r rows IH]; [reflexivity|].
  cbn [map filter]. destruct (progress_of u m r) eqn:E.
  - rewrite progress_of_set_progress, E. cbn [map]. now rewrite IH.
  - now rewrite E.
Qed.

Lemma overwrite_none u m c s ts d rows :
  filter (progress_of u m) rows = [] -> overwrite u m c s ts d rows = rows.
Proof.
  unfold overwrite. induction rows as [|r rows IH]; [reflexivity|].
  cbn [map filter]. destruct (progress_of u m r); [discriminate|].
  intros H. now rewrite (IH H).
Qed.

Lemma create_progress_valid fs u m w :
  progress_request fs u m ->
  db env = true ->
  create_progress env (JObj fs) w =
  handler
    (bind (select_learningProgress env u m) (fun existing =>
     bind (match existing with
           | _ :: _ =>
               bind new_Date (fun d =>
                 update_learningProgress env u m
                   (completed_text (obj_get "completed" fs))
                   (nullable_text (obj_get "score" fs))
                   (nullable_text (obj_get "timeSpent" fs)) d)
           | [] =>
               insert_learningProgress env u m
                 (completed_text (obj_get "completed" fs))
                 (nullable_text (obj_get "score" fs))
                 (nullable_text (obj_get "timeSpent" fs))
           end)
       (fun result =>
          match result with
          | [] => throw (NewError (js "Failed to create/update learning progress"))
          | r :: _ =>
              ret (answer 201 "Learning progress saved successfully" (progress_json r))
          end)))
    (failed "Failed to create learning progress") w.
Proof.
  intros (Hu & Hm & <- & <-) Hdb.
  unfold create_progress, handler, bind at 1 2 3 4 5 6, lift. simpl get.
  cbv beta iota. rewrite Hu, Hm, Hdb. reflexivity.
Qed.

(** [POST]: a matching row is there. *)
Lemma create_progress_updates fs u m w r0 rest :
  let c := completed_text (obj_get "completed" fs) in
  let s := nullable_text (obj_get "score" fs) in
  let ts := nullable_text (obj_get "timeSpent" fs) in
  store_up env -> alone env ->
  progress_request fs u m ->
  filter (progress_of u m) (learning_progress (tables w)) = r0 :: rest ->
  create_progress env (JObj fs) w =
  (answer 201 "Learning progress saved successfully"
     (progress_json (set_progress c s ts (now w) r0)),
   committed
     (set_learning_progress (overwrite u m c s ts (now w) (learning_progress (tables w)))
        (learning_progress_id_seq (tables w)) (tables w))
     (committed (tables w) w)).
Proof.
  intros c s ts [Hdb Hup] Hal Hreq Hf.
  rewrite (create_progress_valid fs u m w Hreq Hdb).
  unfold handler. unfold bind at 1. unfold select_learningProgress.
  rewrite (db_statement_up _ w (Hup _)). cbn [fst snd]. rewrite Hal, Hf.
  unfold bind at 1 2, new_Date, update_learningProgress.
  rewrite db_statement_up by apply Hup.
  cbn [fst snd tables now committed]. rewrite Hal.
  fold c s ts. rewrite filter_overwrite, Hf. reflexivity.
Qed.

(** [POST]: no matching row. *)
Lemma create_progress_inserts fs u m w :
  let c := completed_text (obj_get "completed" fs) in
  let s := nullable_text (obj_get "score" fs) in
  let ts := nullable_text (obj_get "timeSpent" fs) in
  let r := new_progress (learning_progress_id_seq (tables w)) u m c s ts (now w) in
  store_up env -> alone env ->
  progress_request fs u m ->
  filter (progress_of u m) (learning_progress (tables w)) = [] ->
  create_progress env (JObj fs) w =
  (answer 201 "Learning progress saved successfully" (progress_json r),
   committed
     (set_learning_progress (learning_progress (tables w) ++ [r])
        (learning_progress_id_seq (tables w) + 1) (tables w))
     (committed (tables w) w)).
Proof.
  intros c s ts r [Hdb Hup] Hal Hreq Hf.
  rewrite (create_progress_valid fs u m w Hreq Hdb).
  unfold handler. unfold bind at 1. unfold select_learningProgress.
  rewrite (db_statement_up _ w (Hup _)). cbn [fst snd]. rewrite Hal, Hf.
  unfold bind at 1, insert_learningProgress.
  rewrite db_statement_up by apply Hup.
  cbn [fst snd tables now committed]. rewrite Hal. reflexivity.
Qed.

(** [PUT]: a matching row is there. *)
Lemma update_progress_updates u m fs w r0 rest :
  let c := completed_text (obj_get "completed" fs) in
  let s := nullable_text (obj_get "score" fs) in
  let ts := nullable_text (obj_get "timeSpent" fs) in
  store_up env -> alone env ->
  filter (progress_of u m) (learning_progress (tables w)) = r0 :: rest ->
  update_progress env u m (JObj fs) w =
  (answer 200 "Learning progress updated successfully"
     (progress_json (set_progress c s ts (now w) r0)),
   committed
     (set_learning_progress (overwrite u m c s ts (now w) (learning_progress (tables w)))
        (learning_progress_id_seq (tables w)) (tables w))
     w).
Proof.
  intros c s ts [Hdb Hup] Hal Hf.
  unfold update_progress, handler, bind at 1 2 3, lift. simpl get. cbv beta iota.
  rewrite Hdb. cbn [negb]. unfold bind at 1 2, new_Date, update_learningProgress.
  rewrite db_statement_up by apply Hup.
  cbn [fst snd]. rewrite Hal. fold c s ts. rewrite filter_overwrite, Hf. reflexivity.
Qed.

(** [PUT]: no matching row. *)
Lemma update_progress_inserts u m fs w :
  let c := completed_text (obj_get "completed" fs) in
  let s := nullable_text (obj_get "score" fs) in
  let ts := nullable_text (obj_get "timeSpent" fs) in
  let r := new_progress (learning_progress_id_seq (tables w)) u m c s ts (now w) in
  store_up env -> alone env ->
  filter (progress_of u m) (learning_progress (tables w)) = [] ->
  update_progress env u m (JObj fs) w =
  (answer 200 "Learning progress created successfully" (progress_json r),
   committed
     (set_learning_progress (learning_progress (tables w) ++ [r])
        (learning_progress_id_seq (tables w) + 1) (tables w))
     (committed (tables w) w)).
Proof.
  intros c s ts r [Hdb Hup] Hal Hf.
  unfold update_progress, handler, bind at 1 2 3, lift. simpl get. cbv beta iota.
  rewrite Hdb. cbn [negb]. unfold bind at 1 2, new_Date, update_learningProgress.
  rewrite db_statement_up by apply Hup.
  cbn [fst snd]. rewrite Hal. fold c s ts.
  rewrite filter_overwrite, Hf. cbn [map].
  unfold bind at 1, insert_learningProgress.
  rewrite db_statement_up by apply Hup.
  cbn [fst snd tables now committed ticks]. rewrite Hal.
  cbn [learning_progress learning_progress_id_seq set_learning_progress].
  rewrite (overwrite_none _ _ _ _ _ _ _ Hf).
  destruct (tables w); reflexivity.
Qed.

Lemma filter_none {A} (f : A -> bool) (l : list A) :
  existsb f l = false -> filter f l = [].
Proof.
  induction l as [|x l IH]; simpl; [reflexivity|].
  destruct (f x); simpl; [discriminate | exact IH].
Qed.

Lemma filter_new {A} (f : A -> bool) (l : list A) (x : A) :
  existsb f l = false -> f x = true -> filter f (l ++ [x]) = [x].
Proof.
  intros Hl Hx. rewrite filter_app, (filter_none f l Hl). simpl. now rewrite Hx.
Qed.

End Runs.

(** ** Idempotent ingestion *)

Section Ingestion.

Context {num : Type} {NumOps : JsNumber num} {Driver : PgDriver num}.

Lemma get_field (req : jsval num) k a : get req k = Ok a -> a = field k req.
Proof. destruct req; simpl; congruence. Qed.

(** Transport and credential bear on nothing of the answer of the
    waitlist but [emailSent], and on nothing of the store. *)
Lemma send_deal_lead_transport_free (env1 env2 : Env num) req w :
  same_store env1 env2 ->
  let '(r1, w1) := send_deal_lead env1 req w in
  let '(r2, w2) := send_deal_lead env2 req w in
  status r1 = status r2 /\ success r1 = success r2 /\
  data "id" r1 = data "id" r2 /\ tables w1 = tables w2.
Proof.
  intros (Hdb & Hout & Hcon). run_lead.
  repeat (cbv beta; rewrite <- ?Hdb, <- ?Hout, <- ?Hcon; step).
  all: try (repeat split; reflexivity).
  all: discriminate.
Qed.

(** A success names a row that is in the table. *)
Lemma send_deal_lead_success_has_record (env : Env num) req w :
  let '(r, w') := send_deal_lead env req w in
  success r = true ->
  exists row, In row (deal_sourcing_waitlist (tables w')) /\
              data "id" r = JNum (num_of_Z (dealSourcingWaitlist.id row)) /\
              data "email" r = JStr (dealSourcingWaitlist.email row).
Proof.
  run_lead. repeat (cbv beta; step); intros Hs; try discriminate Hs.
  all: match goal with |- context [waitlist_data ?r] => exists r end.
  all: (split; [|split; reflexivity]).
  all: cbn [tables mailed committed set_deal_sourcing_waitlist deal_sourcing_waitlist].
  all: try (apply in_or_app; right; left; reflexivity).
  all: match goal with
       | H : filter ?f ?l = ?d :: _ |- In ?d ?l =>
           apply (proj1 (filter_In f d l)); rewrite H; left; reflexivity
       end.
Qed.

(** No store, a refused look-up, a missing field or a malformed address:
    the answer is an error. *)
Lemma send_deal_lead_failures (env : Env num) req w :
  let '(r, w') := send_deal_lead env req w in
  (success r = true -> status r = 200 \/ status r = 201) /\
  (success r = false -> status r = 400 \/ status r = 500) /\
  (db env = false -> success r = false) /\
  (db_outage env (ticks w) <> None -> success r = false) /\
  (truthy (field "name" req) && truthy (field "email" req) &&
   truthy (field "investmentAmount" req) && truthy (field "experienceLevel" req)
   = false -> success r = false) /\
  (forall s, field "email" req = JStr s -> emailRegex_test (trim s) = false ->
             success r = false).
Proof.
  run_lead. repeat (cbv beta; step).
  all: repeat split; auto; surfaced_by get_field.
Qed.

(** The newsletter and the two progress handlers answer an error when
    there is no store or the store refuses their first statement. *)
Lemma store_failures_are_answered (env : Env num) req w :
  db env = false \/ db_outage env (ticks w) <> None ->
  success (fst (newsletter env req w)) = false /\
  success (fst (create_progress env req w)) = false /\
  forall u m, success (fst (update_progress env u m req w)) = false.
Proof.
  intros H. split; [|split; [|intros u m]]; run_ingest.
  all: repeat (cbv beta; step).
  all: try reflexivity.
  all: destruct H as [H|H]; surfaced_by get_field.
Qed.

(** C1. On the waitlist, the transport and its credential change neither
    status, [success] flag, record nor tables: a request whose record is
    created is answered 201 whether the confirmation mail goes out, is
    refused or is not attempted.  What goes wrong with the record is
    answered as an error: no store, a statement the store refuses (the
    look-up, or the insert for an outage or for the unique constraint), a
    missing field, a malformed address; and a success names a row that is
    in the table.  A well-formed report request is answered 200 with
    [success] whatever transport and store do.  The newsletter and the two
    progress handlers, which send no mail, answer an error too when the
    store is missing or refuses their first statement. *)
Theorem notification_failure_never_fails_ingestion
    (env1 env2 : Env num) (req : jsval num) (w : World) :
  same_store env1 env2 ->
  let '(r1, w1) := send_deal_lead env1 req w in
  let '(r2, w2) := send_deal_lead env2 req w in
  (status r1 = status r2 /\ success r1 = success r2 /\
   data "id" r1 = data "id" r2 /\ tables w1 = tables w2) /\
  (forall fs s n p a l,
      req = JObj fs -> lead_request fs s -> lead_columns fs n p a l ->
      db env1 = true ->
      db_outage env1 (ticks w) = None -> db_outage env1 (S (ticks w)) = None ->
      let t1 := concurrent env1 (ticks w) (tables w) in
      let t2 := concurrent env1 (S (ticks w)) t1 in
      filter (waitlisted_as (trim s)) (deal_sourcing_waitlist t1) = [] ->
      existsb (waitlisted_as (trim s)) (deal_sourcing_waitlist t2) = false ->
      status r1 = 201 /\ success r1 = true /\
      status r2 = 201 /\ success r2 = true /\
      data "id" r2 = JNum (num_of_Z (deal_sourcing_waitlist_id_seq t2))) /\
  (success r1 = true ->
   (status r1 = 200 \/ status r1 = 201) /\
   exists row, In row (deal_sourcing_waitlist (tables w1)) /\
               data "id" r1 = JNum (num_of_Z (dealSourcingWaitlist.id row)) /\
               data "email" r1 = JStr (dealSourcingWaitlist.email row)) /\
  (success r1 = false -> status r1 = 400 \/ status r1 = 500) /\
  (db env1 = false -> success r1 = false) /\
  (db_outage env1 (ticks w) <> None -> success r1 = false) /\
  (forall fs s n p a l,
      req = JObj fs -> lead_request fs s -> lead_columns fs n p a l ->
      db env1 = true -> db_outage env1 (ticks w) = None ->
      let t1 := concurrent env1 (ticks w) (tables w) in
      filter (waitlisted_as (trim s)) (deal_sourcing_waitlist t1) = [] ->
      db_outage env1 (S (ticks w)) <> None \/
      existsb (waitlisted_as (trim s))
        (deal_sourcing_waitlist (concurrent env1 (S (ticks w)) t1)) = true ->
      success r1 = false) /\
  (truthy (field "name" req) && truthy (field "email" req) &&
   truthy (field "investmentAmount" req) && truthy (field "experienceLevel" req)
   = false -> success r1 = false) /\
  (forall s, field "email" req = JStr s -> emailRegex_test (trim s) = false ->
             success r1 = false) /\
  (forall fs s w0,
      req = JObj fs -> report_request fs s ->
      status (fst (inflation_email env1 req w0)) = 200 /\
      success (fst (inflation_email env1 req w0)) = true) /\
  (db env1 = false \/ db_outage env1 (ticks w) <> None ->
   success (fst (newsletter env1 req w)) = false /\
   success (fst (create_progress env1 req w)) = false /\
   forall u m, success (fst (update_progress env1 u m req w)) = false).
Proof.
  intros Hsame.
  pose proof (send_deal_lead_transport_free env1 env2 req w Hsame) as Hfree.
  pose proof (send_deal_lead_success_has_record env1 req w) as Hrec.
  pose proof (send_deal_lead_failures env1 req w) as Hfail.
  assert (Hins : forall fs s n p a l,
      req = JObj fs -> lead_request fs s -> lead_columns fs n p a l ->
      db env1 = true -> db_outage env1 (ticks w) = None ->
      filter (waitlisted_as (trim s))
        (deal_sourcing_waitlist (concurrent env1 (ticks w) (tables w))) = [] ->
      db_outage env1 (S (ticks w)) <> None \/
      existsb (waitlisted_as (trim s))
        (deal_sourcing_waitlist
           (concurrent env1 (S (ticks w)) (concurrent env1 (ticks w) (tables w))))
        = true ->
      success (fst (send_deal_lead env1 req w)) = false).
  { intros fs s n p a l -> Hreq Hcol Hdb Hup Hf [Hdown | Hx].
    - destruct (db_outage env1 (S (ticks w))) as [e|] eqn:E; [|congruence].
      now rewrite (send_deal_lead_insert_refused env1 fs s n p a l w e
                     Hreq Hcol Hdb Hup E Hf).
    - destruct (db_outage env1 (S (ticks w))) as [e|] eqn:E.
      + now rewrite (send_deal_lead_insert_refused env1 fs s n p a l w e
                       Hreq Hcol Hdb Hup E Hf).
      + now rewrite (send_deal_lead_conflict env1 fs s n p a l w
                       Hreq Hcol Hdb Hup E Hf Hx). }
  assert (Hnew : forall fs s n p a l,
      req = JObj fs -> lead_request fs s -> lead_columns fs n p a l ->
      db env1 = true ->
      db_outage env1 (ticks w) = None -> db_outage env1 (S (ticks w)) = None ->
      filter (waitlisted_as (trim s))
        (deal_sourcing_waitlist (concurrent env1 (ticks w) (tables w))) = [] ->
      existsb (waitlisted_as (trim s))
        (deal_sourcing_waitlist
           (concurrent env1 (S (ticks w)) (concurrent env1 (ticks w) (tables w))))
        = false ->
      status (fst (send_deal_lead env1 req w)) = 201 /\
      success (fst (send_deal_lead env1 req w)) = true /\
      data "id" (fst (send_deal_lead env1 req w))
      = JNum (num_of_Z (deal_sourcing_waitlist_id_seq
                          (concurrent env1 (S (ticks w))
                             (concurrent env1 (ticks w) (tables w)))))).
  { intros fs s n p a l -> Hreq Hcol Hdb Hup1 Hup2 Hf Hx.
    rewrite (send_deal_lead_created env1 fs s n p a l w
               Hreq Hcol Hdb Hup1 Hup2 Hf Hx).
    repeat split; reflexivity. }
  destruct (send_deal_lead env1 req w) as [r1 w1].
  destruct (send_deal_lead env2 req w) as [r2 w2].
  destruct Hfail as (F1 & F2 & F3 & F4 & F5 & F6).
  refine (conj Hfree (conj _ (conj _ (conj F2 (conj F3 (conj F4
            (conj _ (conj F5 (conj F6 (conj _ _)))))))))).
  - intros fs s n p a l Hb Hreq Hcol Hdb Hup1 Hup2 t1 t2 Hf Hx.
    destruct (Hnew fs s n p a l Hb Hreq Hcol Hdb Hup1 Hup2 Hf Hx) as (N1 & N2 & N3).
    destruct Hfree as (E1 & E2 & E3 & _). cbn [fst] in N1, N2, N3.
    rewrite <- E1, <- E2, <- E3. repeat split; assumption.
  - intros Hs. split; [now apply F1 | now apply Hrec].
  - intros fs s n p a l. apply Hins.
  - intros fs s w0 -> Hreq.
    destruct (inflation_email_answers env1 fs s w0 Hreq)
      as (sent & stored & err & w' & E).
    rewrite E. split; reflexivity.
  - apply store_failures_are_answered.
Qed.

(** C2 (as the code has it).  A request whose look-up finds no row and
    whose insert meets the unique constraint, because another request has
    committed the address in between, is answered 500 with the error of
    the store.  The handler has sent two statements and sends no third: it
    does not read the row back; the table is as the other request left it.
    On the waitlist no mail is attempted either. *)
Theorem lost_race_is_answered_with_the_error (env : Env num) (w : World) :
  db env = true ->
  db_outage env (ticks w) = None ->
  db_outage env (S (ticks w)) = None ->
  let t1 := concurrent env (ticks w) (tables w) in
  let t2 := concurrent env (S (ticks w)) t1 in
  (forall fs s,
      obj_get "email" fs = JStr s -> emailRegex_test (trim s) = true ->
      filter (subscribed_as (trim s)) (newsletter_subscriptions t1) = [] ->
      existsb (subscribed_as (trim s)) (newsletter_subscriptions t2) = true ->
      let '(r, w') := newsletter env (JObj fs) w in
      r = failed "Failed to subscribe to newsletter"
            (unique_violation "newsletter_subscriptions_email_key") /\
      status r = 500 /\ success r = false /\
      ticks w' = S (S (ticks w)) /\
      newsletter_subscriptions (tables w') = newsletter_subscriptions t2)
  /\
  (forall fs s n p a l,
      lead_request fs s -> lead_columns fs n p a l ->
      filter (waitlisted_as (trim s)) (deal_sourcing_waitlist t1) = [] ->
      existsb (waitlisted_as (trim s)) (deal_sourcing_waitlist t2) = true ->
      let '(r, w') := send_deal_lead env (JObj fs) w in
      r = failed "Failed to join deal sourcing waitlist"
            (unique_violation "deal_sourcing_waitlist_email_key") /\
      status r = 500 /\ success r = false /\
      ticks w' = S (S (ticks w)) /\
      deal_sourcing_waitlist (tables w') = deal_sourcing_waitlist t2 /\
      mail_log w' = mail_log w).
Proof.
  intros Hdb Hup1 Hup2 t1 t2. split.
  - intros fs s He Hm Hf Hx.
    rewrite (newsletter_conflict env fs s w He Hm Hdb Hup1 Hup2 Hf Hx).
    repeat split; reflexivity.
  - intros fs s n p a l Hreq Hcol Hf Hx.
    rewrite (send_deal_lead_conflict env fs s n p a l w Hreq Hcol Hdb Hup1 Hup2 Hf Hx).
    repeat split; reflexivity.
Qed.

(** C3. With the store up and no other request in between, a first
    submission of an address that is not in the table creates a row (201)
    and a second submission of the same address, whatever else it carries
    and whenever it comes, is answered (200) with that very row and leaves
    the tables as they were: for the newsletter and for the waitlist. *)
Theorem second_submission_returns_the_first_record
    (env : Env num) (w : World) (d2 : Date) :
  store_up env -> alone env ->
  (forall fs1 fs2 s1 s2,
      obj_get "email" fs1 = JStr s1 -> obj_get "email" fs2 = JStr s2 ->
      emailRegex_test (trim s1) = true -> trim s2 = trim s1 ->
      existsb (subscribed_as (trim s1)) (newsletter_subscriptions (tables w)) = false ->
      let row := {| newsletterSubscriptions.id :=
                      newsletter_subscriptions_id_seq (tables w);
                    newsletterSubscriptions.email := trim s1;
                    newsletterSubscriptions.createdAt := now w |} in
      let '(r1, w1) := newsletter env (JObj fs1) w in
      let '(r2, w2) := newsletter env (JObj fs2) (at_time d2 w1) in
      r1 = answer 201 "Successfully subscribed to newsletter" (subscription_data row) /\
      r2 = answer 200 "Email already subscribed to newsletter" (subscription_data row) /\
      newsletter_subscriptions (tables w1)
        = newsletter_subscriptions (tables w) ++ [row] /\
      tables w2 = tables w1)
  /\
  (forall fs1 fs2 s1 s2 n p a l,
      lead_request fs1 s1 -> lead_columns fs1 n p a l ->
      lead_request fs2 s2 -> trim s2 = trim s1 ->
      existsb (waitlisted_as (trim s1)) (deal_sourcing_waitlist (tables w)) = false ->
      let row := {| dealSourcingWaitlist.id :=
                      deal_sourcing_waitlist_id_seq (tables w);
                    dealSourcingWaitlist.name := n;
                    dealSourcingWaitlist.email := trim s1;
                    dealSourcingWaitlist.phone := p;
                    dealSourcingWaitlist.investmentAmount := a;
                    dealSourcingWaitlist.experienceLevel := l;
                    dealSourcingWaitlist.createdAt := now w |} in
      let '(r1, w1) := send_deal_lead env (JObj fs1) w in
      let '(r2, w2) := send_deal_lead env (JObj fs2) (at_time d2 w1) in
      status r1 = 201 /\ success r1 = true /\
      data "id" r1 = JNum (num_of_Z (dealSourcingWaitlist.id row)) /\
      r2 = answer 200 "Email already on deal sourcing waitlist"
             (JObj (waitlist_data row)) /\
      deal_sourcing_waitlist (tables w1)
        = deal_sourcing_waitlist (tables w) ++ [row] /\
      tables w2 = tables w1).
Proof.
  intros [Hdb Hup] Hal. split.
  - intros fs1 fs2 s1 s2 He1 He2 Hm Hk Hx row.
    pose proof (newsletter_created env fs1 s1 w He1 Hm Hdb (Hup _) (Hup _)) as H1.
    cbv zeta in H1. rewrite !Hal in H1.
    rewrite (H1 (filter_none _ _ Hx) Hx). clear H1. fold row.
    set (w1 := committed _ (committed (tables w) w)).
    assert (Hm2 : emailRegex_test (trim s2) = true) by now rewrite Hk.
    assert (Hrow : subscribed_as (trim s2) row = true).
    { unfold subscribed_as. rewrite Hk. apply jsstring_eqb_refl. }
    erewrite (newsletter_found env fs2 s2 (at_time d2 w1) row [] He2 Hm2 Hdb (Hup _)).
    + rewrite Hal. repeat split; reflexivity.
    + rewrite Hal. cbn [tables at_time w1 committed set_newsletter_subscriptions
                        newsletter_subscriptions].
      rewrite Hk in *. now apply filter_new.
  - intros fs1 fs2 s1 s2 n p a l Hr1 Hc1 Hr2 Hk Hx row.
    pose proof (send_deal_lead_created env fs1 s1 n p a l w Hr1 Hc1 Hdb (Hup _) (Hup _))
      as H1.
    cbv zeta in H1. rewrite !Hal in H1.
    rewrite (H1 (filter_none _ _ Hx) Hx). clear H1. fold row.
    set (w0 := committed _ (committed (tables w) w)).
    set (w1 := snd (confirmed env (trim s1) n w0)).
    assert (Ht : tables w1 = tables w0).
    { unfold w1, confirmed. now destruct (sendgrid_configured env). }
    assert (Hrow : waitlisted_as (trim s2) row = true).
    { unfold waitlisted_as. rewrite Hk. apply jsstring_eqb_refl. }
    erewrite (send_deal_lead_found env fs2 s2 (at_time d2 w1) row [] Hr2 Hdb (Hup _)).
    + rewrite Hal. cbn [tables at_time]. rewrite Ht.
      repeat split; reflexivity.
    + rewrite Hal. cbn [tables at_time]. rewrite Ht.
      cbn [tables w0 committed set_deal_sourcing_waitlist deal_sourcing_waitlist].
      rewrite Hk in *. now apply filter_new.
Qed.

End Ingestion.

(** ** Delivery and the fallback queue *)

Section Delivery.

Context {num : Type} {NumOps : JsNumber num} {Driver : PgDriver num}.





(** C10. Without [SENDGRID_API_KEY] a well-formed report request is
    answered 200 with [success], [emailSent] false and [emailStored] false,
    and the world is left as it was: no call to the transport, no row in
    [pending_emails]. *)
Theorem no_credential_no_mail_no_row
    (env : Env num) (fs : list (string * jsval num)) (s : jsstring) (w : World) :
  SENDGRID_API_KEY env = None ->
  report_request fs s ->
  let '(r, w') := inflation_email env (JObj fs) w in
  r = answer 200 "Inflation email processed successfully"
        (report_data false false (trim s) (now w) None) /\
  status r = 200 /\ success r = true /\
  data "emailSent" r = JBool false /\ data "emailStored" r = JBool false /\
  data "errorDetails" r = JNull /\
  w' = w /\ mail_log w' = mail_log w /\
  pending_emails (tables w') = pending_emails (tables w).
Proof.
  intros Hkey Hreq.
  rewrite (inflation_email_unconfigured env fs s w Hreq).
  - repeat split; reflexivity.
  - unfold sendgrid_configured. now rewrite Hkey.
Qed.

End Delivery.

(** ** The templates *)

Section Composition.

Context {num : Type} {NumOps : JsNumber num} {Driver : PgDriver num}.

(** C8 (as the code has it).  The body of the report is a function of
    the request and of the year the clock shows: two renderings of the
    same request in the same year are the same text.  The body of the
    confirmation is a function of the name alone. *)
Theorem report_body_is_fixed_by_request_and_year
    (name amount month year chartImage calculationData : jsval num) (d1 d2 : Date) :
  getFullYear d1 = getFullYear d2 ->
  emailContent name amount month year chartImage calculationData d1
  = emailContent name amount month year chartImage calculationData d2 /\
  forall n1 n2 : jsstring, n1 = n2 -> confirmation_html n1 = confirmation_html n2.
Proof.
  intros H. split.
  - unfold emailContent. now rewrite H.
  - now intros n1 n2 ->.
Qed.

Lemma ToString_primitive (v : jsval num) :
  primitive v = true -> exists s, ToString v = Ok s.
Proof. destruct v; try discriminate; intros _; eexists; reflexivity. Qed.

Lemma opt_toLocaleString_primitive (v : jsval num) :
  primitive v = true ->
  exists x, opt_toLocaleString v = Ok x /\ primitive x = true.
Proof.
  destruct v; try discriminate; intros _; eexists; split; reflexivity.
Qed.

Lemma opt_toFixed2_number (v : jsval num) :
  number_or_missing v = true ->
  exists x, opt_toFixed2 v = Ok x /\ primitive x = true.
Proof.
  destruct v; try discriminate; intros _; eexists; split; reflexivity.
Qed.

Lemma primitive_or_else (a b : jsval num) :
  primitive a = true -> primitive b = true -> primitive (or_else a b) = true.
Proof. unfold or_else. now destruct (truthy a). Qed.

Lemma template_renders (parts : list (Result (Error num) jsstring)) :
  Forall (fun p => exists s, p = Ok s) parts -> exists s, template parts = Ok s.
Proof.
  induction 1 as [|p parts (s & ->) _ (t & IH)]; cbn [template rbind].
  - now exists [].
  - rewrite IH. cbn [rbind]. now exists (s ++ t).
Qed.

Lemma localized_renders (v : jsval num) :
  primitive v = true ->
  exists s, rbind (opt_toLocaleString v) ToString = Ok s.
Proof.
  intros P. destruct (opt_toLocaleString_primitive v P) as (x & -> & Px).
  cbn [rbind]. now apply ToString_primitive.
Qed.

Lemma fixed_renders (v : jsval num) :
  number_or_missing v = true ->
  exists s, rbind (opt_toFixed2 v) ToString = Ok s.
Proof.
  intros P. destruct (opt_toFixed2_number v P) as (x & -> & Px).
  cbn [rbind]. now apply ToString_primitive.
Qed.

(** The template renders whenever what it formats is missing, a
    number, a string or a boolean. *)
Lemma emailContent_renders
    (name amount month year chartImage : jsval num) (cd : list (string * jsval num))
    (d : Date) :
  primitive name = true -> primitive amount = true -> primitive month = true ->
  primitive year = true -> primitive chartImage = true ->
  primitive (obj_get "originalValue" cd) = true ->
  primitive (obj_get "todayValue" cd) = true ->
  primitive (obj_get "lossInValue" cd) = true ->
  number_or_missing (obj_get "percentageIncrease" cd) = true ->
  exists content,
    emailContent name amount month year chartImage (JObj cd) d = Ok content.
Proof.
  intros Pn Pa Pm Py Pc Po Pt Pl Pp.
  unfold emailContent. apply template_renders. cbn [get rbind].
  repeat apply Forall_cons; try apply Forall_nil;
    try (eexists; reflexivity);
    try (now apply ToString_primitive);
    try (now apply localized_renders);
    try (now apply fixed_renders).
  - apply ToString_primitive. now apply primitive_or_else.
  - destruct (opt_toLocaleString_primitive amount Pa) as (x & -> & Px).
    cbn [rbind]. destruct (truthy x).
    + now apply ToString_primitive.
    + now apply localized_renders.
  - destruct (truthy chartImage); [|now exists []].
    apply template_renders.
    repeat apply Forall_cons; try apply Forall_nil;
      try (eexists; reflexivity). now apply ToString_primitive.
Qed.

(** C9 (as the code has it).  A report request is checked for the
    presence of [email] and [calculationData] and for the form of the
    address, and for nothing else: it is answered 400 exactly when one of
    the two is missing or the address is malformed.  The fields of
    [calculationData] are not checked: the template renders whenever each
    value it formats is missing, a number, a string or a boolean, and
    [percentageIncrease] is missing or a number; a missing value is written
    as [ToString] writes [undefined]. *)
Theorem report_is_checked_for_presence_only
    (env : Env num) (fs : list (string * jsval num)) (w : World) :
  status (fst (inflation_email env (JObj fs) w)) =
    (if negb (truthy (obj_get "email" fs)) ||
        negb (truthy (obj_get "calculationData" fs))
     then 400
     else match obj_get "email" fs with
          | JStr s => if emailRegex_test (trim s) then 200 else 400
          | _ => 500
          end) /\
  (forall cd d,
      obj_get "calculationData" fs = JObj cd ->
      primitive (obj_get "name" fs) = true ->
      primitive (obj_get "amount" fs) = true ->
      primitive (obj_get "month" fs) = true ->
      primitive (obj_get "year" fs) = true ->
      primitive (obj_get "chartImage" fs) = true ->
      primitive (obj_get "originalValue" cd) = true ->
      primitive (obj_get "todayValue" cd) = true ->
      primitive (obj_get "lossInValue" cd) = true ->
      number_or_missing (obj_get "percentageIncrease" cd) = true ->
      exists content, content_of fs d = Ok content) /\
  ToString (JUndefined : jsval num) = Ok (js "undefined") /\
  rbind (opt_toFixed2 (obj_get "percentageIncrease" ([] : list (string * jsval num))))
    ToString = Ok (js "undefined").
Proof.
  split; [|split; [|split; reflexivity]].
  - destruct (truthy (obj_get "email" fs)) eqn:Te;
      [destruct (truthy (obj_get "calculationData" fs)) eqn:Tc|]; cbn [negb orb].
    + destruct (obj_get "email" fs) as [| |b|n|s|l|l] eqn:Ee; try discriminate Te.
      3:{ destruct (emailRegex_test (trim s)) eqn:Em.
          - destruct (inflation_email_answers env fs s w (conj Ee (conj Tc Em)))
              as (sent & stored & err & w' & ->). reflexivity.
          - unfold inflation_email, handler, bind at 1 2 3 4 5 6 7 8, lift.
            simpl get. cbv beta iota. rewrite Ee, Tc. cbn [truthy negb orb].
            destruct s; [discriminate Te|]. unfold call_trim. rewrite Em.
            reflexivity. }
      all: unfold inflation_email, handler, bind at 1 2 3 4 5 6 7 8, lift;
        simpl get; cbv beta iota; rewrite Ee, Tc, Te; reflexivity.
    + unfold inflation_email, handler, bind at 1 2 3 4 5 6 7, lift.
      simpl get. cbv beta iota. rewrite Te, Tc. reflexivity.
    + unfold inflation_email, handler, bind at 1 2 3 4 5 6 7, lift.
      simpl get. cbv beta iota. rewrite Te. reflexivity.
  - intros cd d Hcd Pn Pa Pm Py Pc Po Pt Pl Pp. unfold content_of. rewrite Hcd.
    now apply emailContent_renders.
Qed.

End Composition.

(** ** Learning progress *)

Section Upsert.

Context {num : Type} {NumOps : JsNumber num} {Driver : PgDriver num}.


End Upsert.

(** ** The handlers at work

    The properties above, applied to the sample worlds. *)

Lemma store_up_calm : store_up calm.
Proof. split; [reflexivity | intros n; reflexivity]. Qed.

Lemma alone_calm : alone calm.
Proof. intros n t. reflexivity. Qed.

Lemma data_answer {num} k st msg (d : jsval num) :
  data k (answer st msg d) = field k d.
Proof. reflexivity. Qed.

Lemma notification_failure_never_fails_ingestion_witness :
  same_store calm refusing /\
  let r1 := fst (send_deal_lead calm (JObj lead_fields) start) in
  let r2 := fst (send_deal_lead refusing (JObj lead_fields) start) in
  status r1 = 201 /\ success r1 = true /\
  status r2 = 201 /\ success r2 = true /\
  data "id" r1 = data "id" r2.
Proof.
  assert (H : same_store calm refusing).
  { split; [reflexivity | split; intros; reflexivity]. }
  assert (B0 : lead_request lead_fields (js "a@b.com"))
    by (repeat split; vm_compute; reflexivity).
  assert (B1 : lead_columns lead_fields (js "Ann") None (js "50000") (js "beginner"))
    by (repeat split; vm_compute; reflexivity).
  assert (B2 : filter (waitlisted_as (trim (js "a@b.com")))
                 (deal_sourcing_waitlist
                    (concurrent calm (ticks start) (tables start))) = [])
    by (vm_compute; reflexivity).
  assert (B3 : existsb (waitlisted_as (trim (js "a@b.com")))
                 (deal_sourcing_waitlist
                    (concurrent calm (S (ticks start))
                       (concurrent calm (ticks start) (tables start)))) = false)
    by (vm_compute; reflexivity).
  split; [exact H|].
  pose proof (notification_failure_never_fails_ingestion
                calm refusing (JObj lead_fields) start H) as T.
  destruct (send_deal_lead calm (JObj lead_fields) start) as [r1 w1].
  destruct (send_deal_lead refusing (JObj lead_fields) start) as [r2 w2].
  cbn [fst]. destruct T as ((_ & _ & C & _) & N & _).
  destruct (N lead_fields (js "a@b.com") (js "Ann") None (js "50000") (js "beginner")
              eq_refl B0 B1 eq_refl eq_refl eq_refl B2 B3)
    as (N1 & N2 & N3 & N4 & _).
  split; [exact N1 | split; [exact N2 | split; [exact N3 | split; [exact N4 | exact C]]]].
Defined.

(** The record is created and answered 201 with the mail delivered, with
    the mail refused, and with no credential at all. *)
Example lead_created_whatever_the_mail :
  let answer_of env := fst (send_deal_lead env (JObj lead_fields) start) in
  (status (answer_of calm), data "emailSent" (answer_of calm)) = (201, JBool true) /\
  (status (answer_of refusing), data "emailSent" (answer_of refusing))
  = (201, JBool false) /\
  (status (answer_of keyless), data "emailSent" (answer_of keyless))
  = (201, JBool false).
Proof. vm_compute. repeat split; reflexivity. Qed.

(** C2, the claim refuted: in [racing] the look-up of a new address
    finds nothing, the insert meets the row the other request has just
    committed, and the answer is an error. *)
Lemma lost_race_is_not_recovered :
  ~ (forall (env : Env Z) (w : World) fs s,
        obj_get "email" fs = JStr s -> emailRegex_test (trim s) = true ->
        store_up env ->
        filter (subscribed_as (trim s))
          (newsletter_subscriptions (concurrent env (ticks w) (tables w))) = [] ->
        existsb (subscribed_as (trim s))
          (newsletter_subscriptions
             (concurrent env (S (ticks w)) (concurrent env (ticks w) (tables w))))
        = true ->
        success (fst (newsletter env (JObj fs) w)) = true).
Proof.
  intros H.
  assert (E : success (fst (newsletter racing (JObj subscription_fields) start)) = true).
  { apply (H racing start subscription_fields (js " a@b.com ")).
    - reflexivity.
    - vm_compute. reflexivity.
    - split; [reflexivity | intros n; reflexivity].
    - vm_compute. reflexivity.
    - vm_compute. reflexivity. }
  vm_compute in E. discriminate E.
Qed.

Lemma lost_race_is_answered_with_the_error_witness :
  db racing = true /\
  db_outage racing (ticks start) = None /\
  db_outage racing (S (ticks start)) = None /\
  status (fst (newsletter racing (JObj subscription_fields) start)) = 500 /\
  status (fst (send_deal_lead racing (JObj lead_fields) start)) = 500 /\
  List.length (newsletter_subscriptions
                 (tables (snd (newsletter racing (JObj subscription_fields) start))))
  = 1%nat.
Proof.
  destruct (lost_race_is_answered_with_the_error racing start eq_refl eq_refl eq_refl)
    as [T1 T2].
  split; [reflexivity|]. split; [reflexivity|]. split; [reflexivity|].
  assert (A0 : emailRegex_test (trim (js " a@b.com ")) = true)
    by (vm_compute; reflexivity).
  assert (A1 : filter (subscribed_as (trim (js " a@b.com ")))
                 (newsletter_subscriptions
                    (concurrent racing (ticks start) (tables start))) = [])
    by (vm_compute; reflexivity).
  assert (A2 : existsb (subscribed_as (trim (js " a@b.com ")))
                 (newsletter_subscriptions
                    (concurrent racing (S (ticks start))
                       (concurrent racing (ticks start) (tables start)))) = true)
    by (vm_compute; reflexivity).
  assert (B0 : lead_request lead_fields (js "a@b.com"))
    by (repeat split; vm_compute; reflexivity).
  assert (B1 : lead_columns lead_fields (js "Ann") None (js "50000") (js "beginner"))
    by (repeat split; vm_compute; reflexivity).
  assert (B2 : filter (waitlisted_as (trim (js "a@b.com")))
                 (deal_sourcing_waitlist
                    (concurrent racing (ticks start) (tables start))) = [])
    by (vm_compute; reflexivity).
  assert (B3 : existsb (waitlisted_as (trim (js "a@b.com")))
                 (deal_sourcing_waitlist
                    (concurrent racing (S (ticks start))
                       (concurrent racing (ticks start) (tables start)))) = true)
    by (vm_compute; reflexivity).
  assert (T := T1 subscription_fields (js " a@b.com ") eq_refl A0 A1 A2).
  assert (T' := T2 lead_fields (js "a@b.com") (js "Ann") None (js "50000")
                  (js "beginner") B0 B1 B2 B3).
  destruct (newsletter racing (JObj subscription_fields) start) as [r w'].
  destruct (send_deal_lead racing (JObj lead_fields) start) as [r' w''].
  cbn [fst snd].
  destruct T as (_ & E1 & _ & _ & E2). destruct T' as (_ & E3 & _).
  split; [exact E1 | split; [exact E3|]].
  rewrite E2. vm_compute. reflexivity.
Defined.


Lemma second_submission_returns_the_first_record_witness :
  store_up calm /\ alone calm /\
  (let w1 := snd (newsletter calm (JObj subscription_fields) start) in
   let r1 := fst (newsletter calm (JObj subscription_fields) start) in
   let r2 := fst (newsletter calm (JObj subscription_fields) (at_time new_year w1)) in
   let w2 := snd (newsletter calm (JObj subscription_fields) (at_time new_year w1)) in
   status r1 = 201 /\ status r2 = 200 /\ data "id" r1 = data "id" r2 /\
   tables w2 = tables w1) /\
  (let w1 := snd (send_deal_lead calm (JObj lead_fields) start) in
   let r1 := fst (send_deal_lead calm (JObj lead_fields) start) in
   let r2 := fst (send_deal_lead calm (JObj second_lead_fields) (at_time new_year w1)) in
   let w2 := snd (send_deal_lead calm (JObj second_lead_fields) (at_time new_year w1)) in
   status r1 = 201 /\ status r2 = 200 /\ data "id" r1 = data "id" r2 /\
   data "name" r2 = JStr (js "Ann") /\ tables w2 = tables w1).
Proof.
  split; [exact store_up_calm | split; [exact alone_calm|]].
  destruct (second_submission_returns_the_first_record calm start new_year
              store_up_calm alone_calm) as [T1 T2].
  assert (A0 : emailRegex_test (trim (js " a@b.com ")) = true)
    by (vm_compute; reflexivity).
  assert (A1 : existsb (subscribed_as (trim (js " a@b.com ")))
                 (newsletter_subscriptions (tables start)) = false)
    by (vm_compute; reflexivity).
  assert (B0 : lead_request lead_fields (js "a@b.com"))
    by (repeat split; vm_compute; reflexivity).
  assert (B1 : lead_columns lead_fields (js "Ann") None (js "50000") (js "beginner"))
    by (repeat split; vm_compute; reflexivity).
  assert (B2 : lead_request second_lead_fields (js "a@b.com "))
    by (repeat split; vm_compute; reflexivity).
  assert (B3 : trim (js "a@b.com ") = trim (js "a@b.com"))
    by (vm_compute; reflexivity).
  assert (B4 : existsb (waitlisted_as (trim (js "a@b.com")))
                 (deal_sourcing_waitlist (tables start)) = false)
    by (vm_compute; reflexivity).
  assert (T := T1 subscription_fields subscription_fields
                  (js " a@b.com ") (js " a@b.com ") eq_refl eq_refl A0 eq_refl A1).
  assert (T' := T2 lead_fields second_lead_fields (js "a@b.com") (js "a@b.com ")
                   (js "Ann") None (js "50000") (js "beginner") B0 B1 B2 B3 B4).
  clear T1 T2. cbv zeta in T, T'. split; cbv zeta.
  - clear T'.
    destruct (newsletter calm (JObj subscription_fields) start) as [r1 w1].
    cbn [fst snd] in *.
    destruct (newsletter calm (JObj subscription_fields) (at_time new_year w1))
      as [r2 w2].
    cbn [fst snd]. destruct T as (-> & -> & _ & ->). rewrite !data_answer.
    split; [reflexivity | split; [reflexivity | split; reflexivity]].
  - clear T.
    destruct (send_deal_lead calm (JObj lead_fields) start) as [r1 w1].
    cbn [fst snd] in *.
    destruct (send_deal_lead calm (JObj second_lead_fields) (at_time new_year w1))
      as [r2 w2].
    cbn [fst snd]. destruct T' as (E1 & _ & E2 & -> & _ & ->).
    rewrite E2, !data_answer.
    split; [exact E1 | split; [reflexivity | split; [|split]]]; reflexivity.
Defined.



Lemma report_request_sample : report_request report_fields (js "a@b.com").
Proof. repeat split; vm_compute; reflexivity. Qed.





Lemma no_credential_no_mail_no_row_witness :
  SENDGRID_API_KEY keyless = None /\
  report_request report_fields (js "a@b.com") /\
  let '(r, w') := inflation_email keyless (JObj report_fields) start in
  success r = true /\
  data "emailSent" r = JBool false /\ data "emailStored" r = JBool false /\
  w' = start.
Proof.
  assert (H := report_request_sample).
  split; [reflexivity | split; [exact H|]].
  assert (T := no_credential_no_mail_no_row keyless report_fields (js "a@b.com") start
                 eq_refl H).
  destruct (inflation_email keyless (JObj report_fields) start) as [r w'].
  destruct T as (_ & _ & Es & E1 & E2 & _ & Ew & _).
  split; [exact Es | split; [exact E1 | split; [exact E2 | exact Ew]]].
Defined.

(** C8, the claim refuted: the same request is rendered twice, before
    and after the turn of the year, and the two mails handed to the
    transport differ (in the footer). *)
Lemma report_changes_with_the_year :
  ~ (forall (env : Env Z) fs (w : World) (d : Date),
        map msg_html (mail_log (snd (inflation_email env (JObj fs) w)))
        = map msg_html (mail_log (snd (inflation_email env (JObj fs) (at_time d w))))).
Proof.
  intros H. specialize (H calm report_fields start new_year).
  apply (f_equal (map (includes (js "© 2025")))) in H.
  vm_compute in H. discriminate H.
Qed.

Lemma report_body_is_fixed_by_request_and_year_witness :
  let data : jsval Z := JObj [("todayValue", JNum 150); ("percentageIncrease", JNum 25)] in
  getFullYear noon = getFullYear year_end /\
  emailContent (JStr (js "Ann")) (JNum 100) (JNum 6) (JNum 2015) JUndefined data noon
  = emailContent (JStr (js "Ann")) (JNum 100) (JNum 6) (JNum 2015) JUndefined data
      year_end.
Proof.
  intros data.
  assert (H : getFullYear noon = getFullYear year_end) by (vm_compute; reflexivity).
  split; [exact H|].
  exact (proj1 (report_body_is_fixed_by_request_and_year
                  (JStr (js "Ann")) (JNum 100) (JNum 6) (JNum 2015) JUndefined data
                  noon year_end H)).
Defined.

(** The example of the specification: the report for a value of 150 and
    an increase of 25 holds [150] and [25.00%]. *)
Example report_of_the_specification :
  includes (js "£150</li>") (rendered report_fields noon) = true /\
  includes (js "25.00%") (rendered report_fields noon) = true /\
  includes (js "© 2025 KR Property Investments") (rendered report_fields noon) = true.
Proof. vm_compute. repeat split; reflexivity. Qed.

(** C9, the claim refuted: a [calculationData] without any field passes
    the checks, and the mail that goes out says [undefined%]. *)
Lemma report_is_rendered_from_incomplete_data :
  ~ (forall (env : Env Z) fs s cd (w : World),
        obj_get "email" fs = JStr s -> emailRegex_test (trim s) = true ->
        obj_get "calculationData" fs = JObj cd ->
        obj_get "percentageIncrease" cd = JUndefined ->
        status (fst (inflation_email env (JObj fs) w)) = 400 /\
        mail_log (snd (inflation_email env (JObj fs) w)) = mail_log w).
Proof.
  intros H.
  assert (A0 : emailRegex_test (trim (js "a@b.com")) = true)
    by (vm_compute; reflexivity).
  destruct (H calm bare_report_fields (js "a@b.com") [] start eq_refl A0 eq_refl eq_refl)
    as [E _].
  vm_compute in E. discriminate E.
Qed.

Example bare_report_says_undefined :
  let '(r, w') := inflation_email calm (JObj bare_report_fields) start in
  status r = 200 /\ data "emailSent" r = JBool true /\
  map (fun m => includes (js "<strong>undefined%</strong>") (msg_html m)) (mail_log w')
  = [true].
Proof. vm_compute. repeat split; reflexivity. Qed.

Lemma report_is_checked_for_presence_only_witness :
  status (fst (inflation_email calm (JObj bare_report_fields) start)) = 200 /\
  exists content, content_of bare_report_fields noon = Ok content.
Proof.
  destruct (report_is_checked_for_presence_only calm bare_report_fields start)
    as (E & R & _).
  split.
  - rewrite E. vm_compute. reflexivity.
  - apply (R [] noon); reflexivity.
Defined.



(** * The rest of the server

    Properties of the code the specification does not speak of: what the
    address check accepts, what a request leaves behind, the keys of the
    tables, the handlers that read, the other forms, the calculator and the
    start-up. *)

(** ** The address check *)

Lemma plain_not_space (c : N) : plain c = true -> is_space c = false.
Proof.
  unfold plain. intros H. apply andb_true_iff in H as [H _]. now apply negb_true_iff.
Qed.

Lemma trimStart_plain (c : N) (r : jsstring) :
  plain c = true -> trimStart (c :: r) = c :: r.
Proof. intros H. cbn. now rewrite (plain_not_space c H). Qed.

Lemma trim_plain_ends (x y : N) (s : jsstring) :
  plain x = true -> plain y = true -> trim (x :: s ++ [y]) = x :: s ++ [y].
Proof.
  intros Hx Hy. unfold trim. rewrite (trimStart_plain x _ Hx).
  assert (E : rev (x :: s ++ [y]) = y :: rev (x :: s)).
  { change (x :: s ++ [y]) with ((x :: s) ++ [y]). now rewrite rev_app_distr. }
  rewrite E, (trimStart_plain y _ Hy), <- E. apply rev_involutive.
Qed.

Lemma count_plain (s : jsstring) :
  forallb plain s = true -> count_occ N.eq_dec s at_sign = 0%nat.
Proof.
  induction s as [|c s IH]; [reflexivity|]. cbn [forallb]. intros H.
  apply andb_true_iff in H as [Hc Hs]. cbn [count_occ].
  destruct (N.eq_dec c at_sign) as [->|_]; [discriminate Hc | now apply IH].
Qed.

(** X1. [emailRegex.test] accepts exactly the strings [a@b.c] whose three
    parts are non-empty and hold neither white space nor [@].  An accepted
    string is therefore its own [trim], holds one [@] and no white space,
    and has five characters at least. *)
Theorem address_check_is_the_regular_expression (s : jsstring) :
  (emailRegex_test s = true <->
   exists a b c,
     s = a ++ at_sign :: b ++ full_stop :: c /\
     a <> [] /\ b <> [] /\ c <> [] /\
     forallb plain (a ++ b ++ c) = true) /\
  (emailRegex_test s = true ->
   trim s = s /\
   count_occ N.eq_dec s at_sign = 1%nat /\
   forallb (fun c => negb (is_space c)) s = true /\
   (5 <= List.length s)%nat).
Proof.
  assert (Shape : emailRegex_test s = true <->
            exists a b c,
              s = a ++ at_sign :: b ++ full_stop :: c /\
              a <> [] /\ b <> [] /\ c <> [] /\
              forallb plain (a ++ b ++ c) = true).
  { rewrite emailRegex_test_spec. unfold matches_emailRegex. split.
    - intros (a & b & c & E & Ha & Hb & Hc & Pa & Pb & Pc).
      exists a, b, c. rewrite !forallb_app, Pa, Pb, Pc. now repeat split.
    - intros (a & b & c & E & Ha & Hb & Hc & P).
      rewrite !forallb_app in P. apply andb_true_iff in P as [Pa P].
      apply andb_true_iff in P as [Pb Pc].
      exists a, b, c. now repeat split. }
  split; [exact Shape|].
  intros H. apply Shape in H as (a & b & c & -> & Ha & Hb & Hc & P).
  rewrite !forallb_app in P. apply andb_true_iff in P as [Pa P].
  apply andb_true_iff in P as [Pb Pc].
  split; [|split; [|split]].
  - destruct a as [|x a]; [congruence|].
    destruct (exists_last Hc) as (c' & y & ->).
    cbn [forallb] in Pa. apply andb_true_iff in Pa as [Px _].
    rewrite forallb_app in Pc. apply andb_true_iff in Pc as [_ Py].
    cbn [forallb] in Py. apply andb_true_iff in Py as [Py _].
    replace ((x :: a) ++ at_sign :: b ++ full_stop :: c' ++ [y])
      with (x :: (a ++ at_sign :: b ++ full_stop :: c') ++ [y]).
    + now apply trim_plain_ends.
    + cbn [app]. f_equal. rewrite <- !app_assoc. cbn [app]. f_equal. f_equal.
      rewrite <- app_assoc. reflexivity.
  - rewrite count_occ_app. cbn [count_occ].
    destruct (N.eq_dec at_sign at_sign) as [_|N]; [|congruence].
    rewrite count_occ_app. cbn [count_occ].
    destruct (N.eq_dec full_stop at_sign) as [E|_]; [discriminate E|].
    rewrite !count_plain by assumption. reflexivity.
  - rewrite forallb_app. cbn [forallb]. rewrite forallb_app. cbn [forallb].
    assert (Q : forall l, forallb plain l = true ->
                  forallb (fun c0 => negb (is_space c0)) l = true).
    { intros l Hl. apply forallb_forall. intros z Hz.
      rewrite forallb_forall in Hl. now rewrite (plain_not_space z (Hl z Hz)). }
    rewrite !Q by assumption. reflexivity.
  - rewrite length_app. cbn [List.length]. rewrite length_app. cbn [List.length].
    destruct a; [congruence|]. destruct b; [congruence|]. destruct c; [congruence|].
    cbn [List.length]. lia.
Qed.

(** ** What a request leaves behind *)

Section Traces.

Context {num : Type} {NumOps : JsNumber num} {Driver : PgDriver num}.


Lemma newsletter_refusal_is_free (env : Env num) req w :
  status (fst (newsletter env req w)) = 400 \/ db env = false ->
  snd (newsletter env req w) = w.
Proof.
  run_ingest. repeat (cbv beta; step).
  all: cbn [fst snd status answer failed refuse].
  all: intros [H|H]; try reflexivity; try discriminate H.
  all: try (rewrite H in *; discriminate).
Qed.

Lemma send_deal_lead_refusal_is_free (env : Env num) req w :
  status (fst (send_deal_lead env req w)) = 400 \/ db env = false ->
  snd (send_deal_lead env req w) = w.
Proof.
  run_lead. repeat (cbv beta; step).
  all: cbn [fst snd status answer failed refuse].
  all: intros [H|H]; try reflexivity; try discriminate H.
  all: try (rewrite H in *; discriminate).
Qed.

Lemma inflation_email_refusal_is_free (env : Env num) req w :
  status (fst (inflation_email env req w)) = 400 ->
  snd (inflation_email env req w) = w.
Proof.
  unfold inflation_email, handler, bind, lift, ret, throw, new_Date.
  repeat (cbv beta; step).
  all: cbn [fst snd status answer failed refuse].
  all: intros H; try reflexivity; try discriminate H.
Qed.

Lemma progress_refusal_is_free (env : Env num) req w :
  (status (fst (create_progress env req w)) = 400 \/ db env = false ->
   snd (create_progress env req w) = w) /\
  (forall u m, db env = false -> snd (update_progress env u m req w) = w) /\
  (forall u, db env = false -> snd (get_progress env u w) = w).
Proof.
  split; [|split; intros u; [intros m|]]; run_ingest; run_reading.
  all: repeat (cbv beta; step).
  all: cbn [fst snd status answer failed refuse].
  all: try (intros [H|H]); try intros H; try reflexivity; try discriminate H.
  all: try (rewrite H in *; discriminate).
Qed.

(** X2. A request that is refused at the checks (400) has sent no
    statement and no mail: the world is as it was.  The same holds, for the
    handlers that need the store, when there is no connection. *)
Theorem refused_request_leaves_no_trace (env : Env num) (req : jsval num) (w : World) :
  (status (fst (newsletter env req w)) = 400 \/ db env = false ->
   snd (newsletter env req w) = w) /\
  (status (fst (send_deal_lead env req w)) = 400 \/ db env = false ->
   snd (send_deal_lead env req w) = w) /\
  (status (fst (inflation_email env req w)) = 400 ->
   snd (inflation_email env req w) = w) /\
  (status (fst (create_progress env req w)) = 400 \/ db env = false ->
   snd (create_progress env req w) = w) /\
  (forall u m, db env = false -> snd (update_progress env u m req w) = w) /\
  (forall u, db env = false -> snd (get_progress env u w) = w).
Proof.
  split; [apply newsletter_refusal_is_free|].
  split; [apply send_deal_lead_refusal_is_free|].
  split; [apply inflation_email_refusal_is_free|].
  apply progress_refusal_is_free.
Qed.





(** *** Tables *)

Lemma newsletter_appends (env : Env num) req w :
  alone env ->
  exists l k,
    tables (snd (newsletter env req w)) =
      set_newsletter_subscriptions
        (newsletter_subscriptions (tables w) ++ l)
        (newsletter_subscriptions_id_seq (tables w) + k) (tables w) /\
    (List.length l <= 1)%nat /\ 0 <= k <= 1.
Proof.
  intros Hal. run_ingest. repeat (cbv beta; rewrite ?Hal; step).
  all: appended.
Qed.

Lemma send_deal_lead_appends (env : Env num) req w :
  alone env ->
  exists l k,
    tables (snd (send_deal_lead env req w)) =
      set_deal_sourcing_waitlist
        (deal_sourcing_waitlist (tables w) ++ l)
        (deal_sourcing_waitlist_id_seq (tables w) + k) (tables w) /\
    (List.length l <= 1)%nat /\ 0 <= k <= 1.
Proof.
  intros Hal. run_lead. repeat (cbv beta; rewrite ?Hal; step).
  all: appended.
Qed.

Lemma inflation_email_appends (env : Env num) req w :
  alone env ->
  exists l k,
    tables (snd (inflation_email env req w)) =
      set_pending_emails
        (pending_emails (tables w) ++ l)
        (pending_emails_id_seq (tables w) + k) (tables w) /\
    (List.length l <= 1)%nat /\ 0 <= k <= 1.
Proof.
  intros Hal. run_report. cbn [send_with senderConfigs].
  unfold try_catch, bind, ret, sgMail_send.
  repeat (cbv beta; rewrite ?Hal; step).
  all: appended.
Qed.

Lemma overwrite_same_record u m c sc ts d rows :
  Forall2 (same_record u m) rows (overwrite u m c sc ts d rows).
Proof.
  unfold overwrite. induction rows as [|r rows IH]; cbn [map]; constructor; [|exact IH].
  unfold same_record. destruct (progress_of u m r); cbn; repeat split; congruence.
Qed.

Lemma same_record_refl u m rows : Forall2 (same_record u m) rows rows.
Proof.
  induction rows; constructor; [|assumption]. unfold same_record.
  repeat split; reflexivity.
Qed.

Lemma progress_rewrites_and_appends (env : Env num) req w :
  alone env ->
  let rows := learning_progress (tables w) in
  let seq := learning_progress_id_seq (tables w) in
  (exists rows' l k,
     tables (snd (create_progress env req w)) =
       set_learning_progress (rows' ++ l) (seq + k) (tables w) /\
     Forall2 (same_record (param_text (field "userId" req))
                (param_text (field "moduleId" req))) rows rows' /\
     (List.length l <= 1)%nat /\ 0 <= k <= 1) /\
  (forall u m,
     exists rows' l k,
       tables (snd (update_progress env u m req w)) =
         set_learning_progress (rows' ++ l) (seq + k) (tables w) /\
       Forall2 (same_record u m) rows rows' /\
       (List.length l <= 1)%nat /\ 0 <= k <= 1).
Proof.
  intros Hal rows seq. split; [|intros u m]; run_ingest.
  all: repeat (cbv beta; rewrite ?Hal; step).
  all: cbn [fst snd tables committed].
  all: repeat match goal with
         | H : get _ _ = Ok _ |- _ => apply get_field in H; subst
         end.
  all: subst rows seq; destruct (tables w) as [t1 t2 t3 t4 old seq t7 t8].
  all: cbn [learning_progress learning_progress_id_seq set_learning_progress now
            committed].
  all: match goal with
       | |- context [overwrite ?u ?m ?c ?s ?ts ?d ?old ++ [?r]] =>
           rewritten_by ltac:(apply overwrite_same_record)
             (overwrite u m c s ts d old) [r] 1
       | |- context [?old ++ [?r]] =>
           rewritten_by ltac:(apply same_record_refl) old [r] 1
       | |- context [overwrite ?u ?m ?c ?s ?ts ?d ?old] =>
           rewritten_by ltac:(apply overwrite_same_record)
             (overwrite u m c s ts d old) (@nil learningProgress.row) 0
       | old : list learningProgress.row |- _ =>
           rewritten_by ltac:(apply same_record_refl) old (@nil learningProgress.row) 0
       end.
Qed.

(** X4. With no other request in between, a handler writes to its own
    table and to no other.  The newsletter, the waitlist and the report
    leave every row of [newsletter_subscriptions], [deal_sourcing_waitlist]
    and [pending_emails] as it is and add one row at most.  The progress
    handlers remove no row of [learning_progress] and add one at most; a
    row keeps its [id], its key and its [createdAt], and a row of another
    key is not changed at all. *)
Theorem each_handler_writes_its_own_table
    (env : Env num) (req : jsval num) (w : World) :
  alone env ->
  (exists l k,
     tables (snd (newsletter env req w)) =
       set_newsletter_subscriptions
         (newsletter_subscriptions (tables w) ++ l)
         (newsletter_subscriptions_id_seq (tables w) + k) (tables w) /\
     (List.length l <= 1)%nat /\ 0 <= k <= 1) /\
  (exists l k,
     tables (snd (send_deal_lead env req w)) =
       set_deal_sourcing_waitlist
         (deal_sourcing_waitlist (tables w) ++ l)
         (deal_sourcing_waitlist_id_seq (tables w) + k) (tables w) /\
     (List.length l <= 1)%nat /\ 0 <= k <= 1) /\
  (exists l k,
     tables (snd (inflation_email env req w)) =
       set_pending_emails
         (pending_emails (tables w) ++ l)
         (pending_emails_id_seq (tables w) + k) (tables w) /\
     (List.length l <= 1)%nat /\ 0 <= k <= 1) /\
  (exists rows' l k,
     tables (snd (create_progress env req w)) =
       set_learning_progress (rows' ++ l)
         (learning_progress_id_seq (tables w) + k) (tables w) /\
     Forall2 (same_record (param_text (field "userId" req))
                (param_text (field "moduleId" req)))
       (learning_progress (tables w)) rows' /\
     (List.length l <= 1)%nat /\ 0 <= k <= 1) /\
  (forall u m,
     exists rows' l k,
       tables (snd (update_progress env u m req w)) =
         set_learning_progress (rows' ++ l)
           (learning_progress_id_seq (tables w) + k) (tables w) /\
       Forall2 (same_record u m) (learning_progress (tables w)) rows' /\
       (List.length l <= 1)%nat /\ 0 <= k <= 1).
Proof.
  intros Hal.
  split; [now apply newsletter_appends|].
  split; [now apply send_deal_lead_appends|].
  split; [now apply inflation_email_appends|].
  exact (progress_rewrites_and_appends env req w Hal).
Qed.

(** *** Invariants *)

Lemma existsb_subscribed e rows :
  existsb (subscribed_as e) rows = false ->
  ~ In e (map newsletterSubscriptions.email rows).
Proof.
  intros H Hin. apply in_map_iff in Hin as (r & <- & Hr).
  assert (existsb (subscribed_as (newsletterSubscriptions.email r)) rows = true).
  { apply existsb_exists. exists r. split; [exact Hr | apply jsstring_eqb_refl]. }
  congruence.
Qed.

Lemma subscriptions_sound_insert t e d :
  subscriptions_sound t ->
  existsb (subscribed_as e) (newsletter_subscriptions t) = false ->
  emailRegex_test e = true ->
  subscriptions_sound
    (set_newsletter_subscriptions
       (newsletter_subscriptions t ++
        [{| newsletterSubscriptions.id := newsletter_subscriptions_id_seq t;
            newsletterSubscriptions.email := e;
            newsletterSubscriptions.createdAt := d |}])
       (newsletter_subscriptions_id_seq t + 1) t).
Proof.
  intros (He & Hi & Hf) Hx Hm. unfold subscriptions_sound.
  cbn [newsletter_subscriptions newsletter_subscriptions_id_seq set_newsletter_subscriptions].
  rewrite !map_app. cbn [map newsletterSubscriptions.email newsletterSubscriptions.id].
  split; [|split].
  - apply NoDup_app; [exact He | repeat constructor; intros [] |].
    intros x Hx1 [<-|[]]. now apply (existsb_subscribed _ _ Hx).
  - apply NoDup_app; [exact Hi | repeat constructor; intros [] |].
    intros x Hx1 [<-|[]]. apply in_map_iff in Hx1 as (r & Er & Hr).
    rewrite Forall_forall in Hf. destruct (Hf r Hr) as [Hlt _]. lia.
  - apply Forall_app. split.
    + eapply Forall_impl; [|exact Hf]. cbv beta. intros r [H1 H2]. split; [lia | exact H2].
    + repeat constructor; cbn; [lia | exact Hm].
Qed.

Lemma subscriptions_sound_skip t :
  subscriptions_sound t ->
  subscriptions_sound
    (set_newsletter_subscriptions (newsletter_subscriptions t)
       (newsletter_subscriptions_id_seq t + 1) t).
Proof.
  intros (He & Hi & Hf). unfold subscriptions_sound.
  cbn [newsletter_subscriptions newsletter_subscriptions_id_seq set_newsletter_subscriptions].
  split; [exact He | split; [exact Hi|]].
  eapply Forall_impl; [|exact Hf]. cbv beta. intros r [H1 H2]. split; [lia | exact H2].
Qed.

Lemma newsletter_keeps_subscriptions_sound (env : Env num) req w :
  (forall n t, subscriptions_sound t -> subscriptions_sound (concurrent env n t)) ->
  subscriptions_sound (tables w) ->
  subscriptions_sound (tables (snd (newsletter env req w))).
Proof.
  intros Hc Hw. run_ingest. repeat (cbv beta; step).
  all: cbn [fst snd tables committed ticks].
  all: try exact Hw.
  all: repeat match goal with
         | H : negb _ = false |- _ => apply negb_false_iff in H
         end.
  all: try (apply subscriptions_sound_insert; [| assumption | assumption]).
  all: try apply subscriptions_sound_skip.
  all: repeat apply Hc; exact Hw.
Qed.

Lemma existsb_waitlisted e rows :
  existsb (waitlisted_as e) rows = false ->
  ~ In e (map dealSourcingWaitlist.email rows).
Proof.
  intros H Hin. apply in_map_iff in Hin as (r & <- & Hr).
  assert (existsb (waitlisted_as (dealSourcingWaitlist.email r)) rows = true).
  { apply existsb_exists. exists r. split; [exact Hr | apply jsstring_eqb_refl]. }
  congruence.
Qed.

Lemma waitlist_sound_insert t n e p a l d :
  waitlist_sound t ->
  existsb (waitlisted_as e) (deal_sourcing_waitlist t) = false ->
  emailRegex_test e = true ->
  waitlist_sound
    (set_deal_sourcing_waitlist
       (deal_sourcing_waitlist t ++
        [{| dealSourcingWaitlist.id := deal_sourcing_waitlist_id_seq t;
            dealSourcingWaitlist.name := n;
            dealSourcingWaitlist.email := e;
            dealSourcingWaitlist.phone := p;
            dealSourcingWaitlist.investmentAmount := a;
            dealSourcingWaitlist.experienceLevel := l;
            dealSourcingWaitlist.createdAt := d |}])
       (deal_sourcing_waitlist_id_seq t + 1) t).
Proof.
  intros (He & Hi & Hf) Hx Hm. unfold waitlist_sound.
  cbn [deal_sourcing_waitlist deal_sourcing_waitlist_id_seq set_deal_sourcing_waitlist].
  rewrite !map_app. cbn [map dealSourcingWaitlist.email dealSourcingWaitlist.id].
  split; [|split].
  - apply NoDup_app; [exact He | repeat constructor; intros [] |].
    intros x Hx1 [<-|[]]. now apply (existsb_waitlisted _ _ Hx).
  - apply NoDup_app; [exact Hi | repeat constructor; intros [] |].
    intros x Hx1 [<-|[]]. apply in_map_iff in Hx1 as (r & Er & Hr).
    rewrite Forall_forall in Hf. destruct (Hf r Hr) as [Hlt _]. lia.
  - apply Forall_app. split.
    + eapply Forall_impl; [|exact Hf]. cbv beta. intros r [H1 H2]. split; [lia | exact H2].
    + repeat constructor; cbn; [lia | exact Hm].
Qed.

Lemma waitlist_sound_skip t :
  waitlist_sound t ->
  waitlist_sound
    (set_deal_sourcing_waitlist (deal_sourcing_waitlist t)
       (deal_sourcing_waitlist_id_seq t + 1) t).
Proof.
  intros (He & Hi & Hf). unfold waitlist_sound.
  cbn [deal_sourcing_waitlist deal_sourcing_waitlist_id_seq set_deal_sourcing_waitlist].
  split; [exact He | split; [exact Hi|]].
  eapply Forall_impl; [|exact Hf]. cbv beta. intros r [H1 H2]. split; [lia | exact H2].
Qed.

Lemma send_deal_lead_keeps_waitlist_sound (env : Env num) req w :
  (forall n t, waitlist_sound t -> waitlist_sound (concurrent env n t)) ->
  waitlist_sound (tables w) ->
  waitlist_sound (tables (snd (send_deal_lead env req w))).
Proof.
  intros Hc Hw. run_lead. repeat (cbv beta; step).
  all: cbn [fst snd tables committed mailed ticks].
  all: try exact Hw.
  all: repeat match goal with
         | H : negb _ = false |- _ => apply negb_false_iff in H
         end.
  all: try (apply waitlist_sound_insert; [| assumption | assumption]).
  all: try apply waitlist_sound_skip.
  all: repeat apply Hc; exact Hw.
Qed.

Lemma map_id_overwrite u m c s ts d rows :
  map learningProgress.id (overwrite u m c s ts d rows) = map learningProgress.id rows.
Proof.
  unfold overwrite. rewrite map_map. apply map_ext. intros r.
  now destruct (progress_of u m r).
Qed.

Lemma progress_sound_update t u m c s ts d :
  progress_sound t ->
  progress_sound
    (set_learning_progress (overwrite u m c s ts d (learning_progress t))
       (learning_progress_id_seq t) t).
Proof.
  intros (Hi & Hf). unfold progress_sound.
  cbn [learning_progress learning_progress_id_seq set_learning_progress].
  rewrite map_id_overwrite. split; [exact Hi|].
  unfold overwrite. apply Forall_map. eapply Forall_impl; [|exact Hf].
  cbv beta. intros r Hr. now destruct (progress_of u m r).
Qed.

Lemma progress_sound_insert t u m c s ts d :
  progress_sound t ->
  progress_sound
    (set_learning_progress
       (learning_progress t ++
        [new_progress (learning_progress_id_seq t) u m c s ts d])
       (learning_progress_id_seq t + 1) t).
Proof.
  intros (Hi & Hf). unfold progress_sound.
  cbn [learning_progress learning_progress_id_seq set_learning_progress].
  rewrite !map_app. cbn [map new_progress learningProgress.id].
  split.
  - apply NoDup_app; [exact Hi | repeat constructor; intros [] |].
    intros x Hx1 [<-|[]]. apply in_map_iff in Hx1 as (r & Er & Hr).
    rewrite Forall_forall in Hf. specialize (Hf r Hr). lia.
  - apply Forall_app. split.
    + eapply Forall_impl; [|exact Hf]. cbv beta. intros r H1. lia.
    + repeat constructor; cbn; lia.
Qed.

Lemma progress_handlers_keep_progress_sound (env : Env num) req w :
  (forall n t, progress_sound t -> progress_sound (concurrent env n t)) ->
  progress_sound (tables w) ->
  progress_sound (tables (snd (create_progress env req w))) /\
  (forall u m, progress_sound (tables (snd (update_progress env u m req w)))) /\
  (forall u, progress_sound (tables (snd (get_progress env u w)))).
Proof.
  intros Hc Hw. split; [|split; intros u; [intros m|]]; run_ingest;
    run_reading.
  all: repeat (cbv beta; step).
  all: cbn [fst snd tables committed ticks now].
  all: try exact Hw.
  all: repeat first [ apply progress_sound_insert | apply progress_sound_update | apply Hc ].
  all: exact Hw.
Qed.

(** X5. The handlers keep their tables sound, whatever the request and
    whatever the store answers, provided the other requests do.  In
    [newsletter_subscriptions] and in [deal_sourcing_waitlist] no address
    and no [id] comes twice, every [id] is below the next value of the
    sequence and every address has passed the check; in [learning_progress],
    which has no unique key, no [id] comes twice and every [id] is below
    the next value of the sequence. *)
Theorem tables_stay_sound (env : Env num) (req : jsval num) (w : World) :
  ((forall n t, subscriptions_sound t -> subscriptions_sound (concurrent env n t)) ->
   subscriptions_sound (tables w) ->
   subscriptions_sound (tables (snd (newsletter env req w)))) /\
  ((forall n t, waitlist_sound t -> waitlist_sound (concurrent env n t)) ->
   waitlist_sound (tables w) ->
   waitlist_sound (tables (snd (send_deal_lead env req w)))) /\
  ((forall n t, progress_sound t -> progress_sound (concurrent env n t)) ->
   progress_sound (tables w) ->
   progress_sound (tables (snd (create_progress env req w))) /\
   (forall u m, progress_sound (tables (snd (update_progress env u m req w)))) /\
   (forall u, progress_sound (tables (snd (get_progress env u w))))).
Proof.
  split; [apply newsletter_keeps_subscriptions_sound|].
  split; [apply send_deal_lead_keeps_waitlist_sound|].
  apply progress_handlers_keep_progress_sound.
Qed.

End Traces.

(** ** Keys *)

Section Keys.

Context {num : Type} {NumOps : JsNumber num} {Driver : PgDriver num}.

Lemma existsb_app_one {A} (f : A -> bool) l x :
  existsb f l = false -> f x = false -> existsb f (l ++ [x]) = false.
Proof. intros Hl Hx. rewrite existsb_app, Hl. cbn. now rewrite Hx. Qed.

Lemma jsstring_eqb_neq (a b : jsstring) : a <> b -> jsstring_eqb a b = false.
Proof.
  intros H. destruct (jsstring_eqb a b) eqn:E; [|reflexivity].
  apply jsstring_eqb_eq in E. contradiction.
Qed.

(** X6. The key of a subscriber is the trimmed address, compared as it
    is written: with the store up and no other request in between, two
    requests whose trimmed addresses differ in anything, be it the case of
    a letter, make two rows, each with its own [id]; for the newsletter and
    for the waitlist. *)
Theorem different_addresses_are_different_subscribers
    (env : Env num) (w : World) (d2 : Date) :
  store_up env -> alone env ->
  (forall fs1 fs2 s1 s2,
      obj_get "email" fs1 = JStr s1 -> obj_get "email" fs2 = JStr s2 ->
      emailRegex_test (trim s1) = true -> emailRegex_test (trim s2) = true ->
      trim s1 <> trim s2 ->
      existsb (subscribed_as (trim s1)) (newsletter_subscriptions (tables w)) = false ->
      existsb (subscribed_as (trim s2)) (newsletter_subscriptions (tables w)) = false ->
      let seq := newsletter_subscriptions_id_seq (tables w) in
      let row1 := {| newsletterSubscriptions.id := seq;
                     newsletterSubscriptions.email := trim s1;
                     newsletterSubscriptions.createdAt := now w |} in
      let row2 := {| newsletterSubscriptions.id := seq + 1;
                     newsletterSubscriptions.email := trim s2;
                     newsletterSubscriptions.createdAt := d2 |} in
      let '(r1, w1) := newsletter env (JObj fs1) w in
      let '(r2, w2) := newsletter env (JObj fs2) (at_time d2 w1) in
      r1 = answer 201 "Successfully subscribed to newsletter" (subscription_data row1) /\
      r2 = answer 201 "Successfully subscribed to newsletter" (subscription_data row2) /\
      newsletter_subscriptions (tables w2)
        = newsletter_subscriptions (tables w) ++ [row1; row2])
  /\
  (forall fs1 fs2 s1 s2 n1 p1 a1 l1 n2 p2 a2 l2,
      lead_request fs1 s1 -> lead_columns fs1 n1 p1 a1 l1 ->
      lead_request fs2 s2 -> lead_columns fs2 n2 p2 a2 l2 ->
      trim s1 <> trim s2 ->
      existsb (waitlisted_as (trim s1)) (deal_sourcing_waitlist (tables w)) = false ->
      existsb (waitlisted_as (trim s2)) (deal_sourcing_waitlist (tables w)) = false ->
      let seq := deal_sourcing_waitlist_id_seq (tables w) in
      let row1 := {| dealSourcingWaitlist.id := seq;
                     dealSourcingWaitlist.name := n1;
                     dealSourcingWaitlist.email := trim s1;
                     dealSourcingWaitlist.phone := p1;
                     dealSourcingWaitlist.investmentAmount := a1;
                     dealSourcingWaitlist.experienceLevel := l1;
                     dealSourcingWaitlist.createdAt := now w |} in
      let row2 := {| dealSourcingWaitlist.id := seq + 1;
                     dealSourcingWaitlist.name := n2;
                     dealSourcingWaitlist.email := trim s2;
                     dealSourcingWaitlist.phone := p2;
                     dealSourcingWaitlist.investmentAmount := a2;
                     dealSourcingWaitlist.experienceLevel := l2;
                     dealSourcingWaitlist.createdAt := d2 |} in
      let '(r1, w1) := send_deal_lead env (JObj fs1) w in
      let '(r2, w2) := send_deal_lead env (JObj fs2) (at_time d2 w1) in
      status r1 = 201 /\ status r2 = 201 /\
      deal_sourcing_waitlist (tables w2)
        = deal_sourcing_waitlist (tables w) ++ [row1; row2]).
Proof.
  intros [Hdb Hup] Hal. split.
  - intros fs1 fs2 s1 s2 He1 He2 Hm1 Hm2 Hne Hx1 Hx2 seq row1 row2.
    pose proof (newsletter_created env fs1 s1 w He1 Hm1 Hdb (Hup _) (Hup _)) as H1.
    cbv zeta in H1. rewrite !Hal in H1.
    rewrite (H1 (filter_none _ _ Hx1) Hx1). clear H1. fold seq row1.
    set (w1 := committed _ (committed (tables w) w)).
    assert (Hx2' : existsb (subscribed_as (trim s2))
                     (newsletter_subscriptions (tables (at_time d2 w1))) = false).
    { cbn [tables at_time w1 committed set_newsletter_subscriptions
           newsletter_subscriptions].
      apply existsb_app_one; [exact Hx2|]. unfold subscribed_as, row1. cbn.
      now apply jsstring_eqb_neq. }
    pose proof (newsletter_created env fs2 s2 (at_time d2 w1) He2 Hm2 Hdb (Hup _) (Hup _))
      as H2.
    cbv zeta in H2. rewrite !Hal in H2.
    rewrite (H2 (filter_none _ _ Hx2') Hx2'). clear H2.
    cbn [tables at_time w1 committed set_newsletter_subscriptions
         newsletter_subscriptions newsletter_subscriptions_id_seq now].
    fold seq row2. rewrite <- app_assoc. repeat split; reflexivity.
  - intros fs1 fs2 s1 s2 n1 p1 a1 l1 n2 p2 a2 l2 Hr1 Hc1 Hr2 Hc2 Hne Hx1 Hx2 seq row1 row2.
    pose proof (send_deal_lead_created env fs1 s1 n1 p1 a1 l1 w Hr1 Hc1 Hdb (Hup _) (Hup _))
      as H1.
    cbv zeta in H1. rewrite !Hal in H1.
    rewrite (H1 (filter_none _ _ Hx1) Hx1). clear H1. fold seq row1.
    set (w0 := committed _ (committed (tables w) w)).
    set (w1 := snd (confirmed env (trim s1) n1 w0)).
    assert (Ht : tables w1 = tables w0).
    { unfold w1, confirmed. now destruct (sendgrid_configured env). }
    assert (Hn : now w1 = now w).
    { unfold w1, confirmed. now destruct (sendgrid_configured env). }
    assert (Hx2' : existsb (waitlisted_as (trim s2))
                     (deal_sourcing_waitlist (tables (at_time d2 w1))) = false).
    { cbn [tables at_time]. rewrite Ht.
      cbn [tables w0 committed set_deal_sourcing_waitlist deal_sourcing_waitlist].
      apply existsb_app_one; [exact Hx2|]. unfold waitlisted_as, row1. cbn.
      now apply jsstring_eqb_neq. }
    pose proof (send_deal_lead_created env fs2 s2 n2 p2 a2 l2 (at_time d2 w1)
                  Hr2 Hc2 Hdb (Hup _) (Hup _)) as H2.
    cbv zeta in H2. rewrite !Hal in H2.
    rewrite (H2 (filter_none _ _ Hx2') Hx2'). clear H2.
    cbn [tables at_time now]. rewrite Ht.
    cbn [tables w0 committed set_deal_sourcing_waitlist
         deal_sourcing_waitlist deal_sourcing_waitlist_id_seq now fst snd].
    fold seq row2.
    split; [reflexivity | split; [reflexivity|]].
    unfold confirmed. destruct (sendgrid_configured env);
      cbn [snd tables mailed committed set_deal_sourcing_waitlist deal_sourcing_waitlist];
      now rewrite <- app_assoc.
Qed.

(** X7. [learning_progress] has no unique key on [(userId, moduleId)]:
    a request whose look-up (by [POST]) or update (by [PUT]) finds no row
    inserts one, whatever another request has committed in between.  Both
    handlers answer with the new row and the table holds one row more with
    the key than the other requests left: two rows for one key when the
    rival was first. *)
Theorem racing_progress_requests_duplicate_the_key
    (env : Env num) (w : World) (u m : jsstring) (fs : list (string * jsval num)) :
  db env = true ->
  db_outage env (ticks w) = None -> db_outage env (S (ticks w)) = None ->
  progress_request fs u m ->
  let t1 := concurrent env (ticks w) (tables w) in
  let t2 := concurrent env (S (ticks w)) t1 in
  filter (progress_of u m) (learning_progress t1) = [] ->
  let row := new_progress (learning_progress_id_seq t2) u m
               (completed_text (obj_get "completed" fs))
               (nullable_text (obj_get "score" fs))
               (nullable_text (obj_get "timeSpent" fs)) (now w) in
  let '(r1, w1) := create_progress env (JObj fs) w in
  let '(r2, w2) := update_progress env u m (JObj fs) w in
  r1 = answer 201 "Learning progress saved successfully" (progress_json row) /\
  r2 = answer 200 "Learning progress created successfully" (progress_json row) /\
  tables w1 = tables w2 /\
  learning_progress (tables w1) = learning_progress t2 ++ [row] /\
  List.length (filter (progress_of u m) (learning_progress (tables w1))) =
    S (List.length (filter (progress_of u m) (learning_progress t2))).
Proof.
  intros Hdb Hup1 Hup2 Hreq t1 t2 Hf row.
  rewrite (create_progress_valid env fs u m w Hreq Hdb).
  unfold handler. unfold bind at 1. unfold select_learningProgress.
  rewrite (db_statement_up env _ w Hup1). cbn [fst snd]. fold t1. rewrite Hf.
  unfold bind at 1, insert_learningProgress.
  rewrite db_statement_up by exact Hup2.
  cbn [fst snd tables now committed ticks]. fold t2. fold row.
  unfold update_progress, handler, bind at 1 2 3, lift. simpl get. cbv beta iota.
  rewrite Hdb. cbn [negb]. unfold bind at 1 2, new_Date, update_learningProgress.
  rewrite db_statement_up by exact Hup1.
  cbn [fst snd]. fold t1. rewrite filter_overwrite, Hf. cbn [map].
  unfold bind at 1, insert_learningProgress.
  rewrite db_statement_up by exact Hup2.
  cbn [fst snd tables now committed ticks].
  rewrite (overwrite_none _ _ _ _ _ _ _ Hf).
  assert (Et : set_learning_progress (learning_progress t1)
                 (learning_progress_id_seq t1) t1 = t1) by now destruct t1.
  rewrite Et. fold t2. fold row.
  split; [reflexivity | split; [reflexivity | split; [reflexivity | split; [reflexivity|]]]].
  cbn [tables committed set_learning_progress learning_progress].
  rewrite filter_app, length_app. cbn [filter].
  assert (Hrow : progress_of u m row = true).
  { unfold progress_of, row. cbn. now rewrite !jsstring_eqb_refl. }
  rewrite Hrow. cbn. lia.
Qed.

End Keys.

(** ** Reading progress *)

Section Listing.

Context {num : Type} {NumOps : JsNumber num} {Driver : PgDriver num}.

Lemma get_progress_run (env : Env num) u w :
  db env = true -> db_outage env (ticks w) = None ->
  get_progress env u w =
  (listing (map progress_json
              (filter (progress_by u)
                 (learning_progress (concurrent env (ticks w) (tables w))))),
   committed (concurrent env (ticks w) (tables w)) w).
Proof.
  intros Hdb Hup. unfold get_progress, handler, bind, select_learningProgress_by.
  rewrite Hdb. cbn [negb]. rewrite (db_statement_up env _ w Hup). reflexivity.
Qed.

Lemma progress_of_by u m r : progress_of u m r = true -> progress_by u r = true.
Proof. unfold progress_of, progress_by. intros H. now apply andb_true_iff in H. Qed.

(** X8. [GET /api/learning/progress/:userId] answers with every row of
    the user, in the order of the table, and with an empty list (200, not
    404) for a user who has none; it writes nothing and sends no mail.
    Without a connection it answers 500 and touches nothing; a statement
    the store refuses is answered 500 with the message of the store. *)
Theorem progress_listing_never_misses (env : Env num) (u : jsstring) (w : World) :
  let t := concurrent env (ticks w) (tables w) in
  let '(r, w') := get_progress env u w in
  (db env = false -> r = refuse 500 "Database connection not available" /\ w' = w) /\
  (forall e, db env = true -> db_outage env (ticks w) = Some e ->
             r = failed "Failed to get learning progress" e) /\
  (db env = true -> db_outage env (ticks w) = None ->
   r = listing (map progress_json (filter (progress_by u) (learning_progress t))) /\
   tables w' = t /\ mail_log w' = mail_log w /\
   (existsb (progress_by u) (learning_progress t) = false -> r = listing [])).
Proof.
  intros t. destruct (get_progress env u w) as [r w'] eqn:E.
  split; [|split].
  - intros Hdb. unfold get_progress, handler in E. rewrite Hdb in E. cbn in E.
    now inversion E.
  - intros e Hdb Hout. unfold get_progress, handler, bind, select_learningProgress_by in E.
    rewrite Hdb in E. cbn [negb] in E. rewrite (db_statement_down env _ w e Hout) in E.
    now inversion E.
  - intros Hdb Hup. rewrite (get_progress_run env u w Hdb Hup) in E.
    inversion E; subst r w'. clear E.
    split; [reflexivity | split; [reflexivity | split; [reflexivity|]]].
    intros Hx. subst t. now rewrite (filter_none _ _ Hx).
Qed.

(** X9. What is saved is listed: with the store up and no other request
    in between, the row a [POST] or a [PUT] answers with is among the rows
    a [GET] for its user answers with next, whenever that is; the listing
    holds the rows of the user in the table and the [GET] changes no
    table. *)
Theorem saved_progress_is_listed
    (env : Env num) (w : World) (u m : jsstring) (fs : list (string * jsval num))
    (d2 : Date) :
  store_up env -> alone env -> progress_request fs u m ->
  let '(r1, w1) := create_progress env (JObj fs) w in
  let '(r2, w2) := update_progress env u m (JObj fs) w in
  let '(l1, v1) := get_progress env u (at_time d2 w1) in
  let '(l2, v2) := get_progress env u (at_time d2 w2) in
  exists items,
    l1 = listing items /\ l2 = listing items /\
    In (field "data" (body r1)) items /\
    In (field "data" (body r2)) items /\
    items = map progress_json
              (filter (progress_by u) (learning_progress (tables w1))) /\
    tables v1 = tables w1 /\ tables v2 = tables w2.
Proof.
  intros Hst Hal Hreq.
  destruct (filter (progress_of u m) (learning_progress (tables w))) as [|r0 rest] eqn:Hf.
  - rewrite (create_progress_inserts env fs u m w Hst Hal Hreq Hf).
    rewrite (update_progress_inserts env u m fs w Hst Hal Hf).
    destruct Hst as [Hdb Hup].
    rewrite !get_progress_run by (try exact Hdb; apply Hup).
    rewrite !Hal. cbn [tables at_time committed set_learning_progress learning_progress].
    eexists. split; [reflexivity|]. split; [reflexivity|].
    cbn [body answer field obj_get String.eqb Ascii.eqb Bool.eqb].
    assert (Hin : forall r, progress_of u m r = true ->
              In (progress_json r)
                (map progress_json
                   (filter (progress_by u) (learning_progress (tables w) ++ [r])))).
    { intros r Hr. apply in_map. apply filter_In. split.
      - apply in_or_app. right. now left.
      - now apply progress_of_by with (m := m). }
    repeat split; apply Hin; unfold progress_of; cbn; now rewrite !jsstring_eqb_refl.
  - rewrite (create_progress_updates env fs u m w r0 rest Hst Hal Hreq Hf).
    rewrite (update_progress_updates env u m fs w r0 rest Hst Hal Hf).
    destruct Hst as [Hdb Hup].
    rewrite !get_progress_run by (try exact Hdb; apply Hup).
    rewrite !Hal. cbn [tables at_time committed set_learning_progress learning_progress].
    eexists. split; [reflexivity|]. split; [reflexivity|].
    cbn [body answer field obj_get String.eqb Ascii.eqb Bool.eqb].
    assert (Hr0 : In r0 (learning_progress (tables w)) /\ progress_of u m r0 = true).
    { apply filter_In. rewrite Hf. now left. }
    destruct Hr0 as [Hr0 Pr0].
    assert (Hin : In (progress_json (set_progress
                        (completed_text (obj_get "completed" fs))
                        (nullable_text (obj_get "score" fs))
                        (nullable_text (obj_get "timeSpent" fs)) (now w) r0))
                (map progress_json
                   (filter (progress_by u)
                      (overwrite u m (completed_text (obj_get "completed" fs))
                         (nullable_text (obj_get "score" fs))
                         (nullable_text (obj_get "timeSpent" fs)) (now w)
                         (learning_progress (tables w)))))).
    { apply in_map. apply filter_In. split.
      - unfold overwrite. apply in_map_iff. exists r0. now rewrite Pr0.
      - apply progress_of_by with (m := m). now rewrite progress_of_set_progress. }
    repeat split; exact Hin.
Qed.

End Listing.

(** ** The other forms *)

Section Forms_run.

Context {num : Type} {NumOps : JsNumber num} {Driver : PgDriver num}.

Variable env : Env num.
Variable concurrent_records : nat -> Records -> Records.

Lemma records_statement_up {A}
    (run : Date -> Records -> Result (Error num) A * Records) s :
  db_outage env (ticks (world s)) = None ->
  records_statement env concurrent_records run s =
  (fst (run (now (world s)) (concurrent_records (ticks (world s)) (records s))),
   recorded (concurrent env (ticks (world s)) (tables (world s)))
     (snd (run (now (world s)) (concurrent_records (ticks (world s)) (records s)))) s).
Proof.
  intros H. unfold records_statement. rewrite H.
  now destruct (run (now (world s)) (concurrent_records (ticks (world s)) (records s))).
Qed.

Lemma contact_created fs s n p a m st :
  contact_request fs s -> contact_columns fs n p a m ->
  db env = true -> db_outage env (ticks (world st)) = None ->
  let r := concurrent_records (ticks (world st)) (records st) in
  let x := {| contactSubmissions.id := contact_submissions_id_seq r;
              contactSubmissions.name := n;
              contactSubmissions.email := trim s;
              contactSubmissions.phone := p;
              contactSubmissions.investmentAmount := a;
              contactSubmissions.message := m;
              contactSubmissions.createdAt := now (world st) |} in
  contact env concurrent_records (JObj fs) st =
  (answer 201 "Contact form submitted successfully" (contact_data x),
   recorded (concurrent env (ticks (world st)) (tables (world st)))
     (set_contact_submissions (contact_submissions r ++ [x])
        (contact_submissions_id_seq r + 1) r) st).
Proof.
  intros (Hn & He & Ha & Hm & Hr) (Cn & Cp & Ca & Cm) Hdb Hup r x.
  unfold contact, Fhandler, Fbind at 1 2 3 4 5 6, Flift. simpl get. cbv beta iota.
  rewrite Hn, He, Ha, Hm. rewrite (truthy_of_match s Hr). cbn [negb orb].
  unfold call_trim at 1. rewrite Hr, Hdb. cbn [negb].
  rewrite Cn, Cp, Ca, Cm. unfold Fbind, insert_contactSubmissions.
  rewrite (records_statement_up _ st Hup). reflexivity.
Qed.

(** *** Achievements *)

Lemma create_achievement_valid fs u b st :
  achievement_request fs u b -> db env = true ->
  create_achievement env concurrent_records (JObj fs) st =
  Fhandler
    (Fbind (select_achievements env concurrent_records (achievement_of u b))
       (fun existing =>
          match existing with
          | x :: _ => Fret (answer 200 "Achievement already exists" (achievement_json x))
          | [] =>
              Fbind (insert_achievements env concurrent_records u b
                       (param_text (obj_get "title" fs))
                       (param_text (obj_get "description" fs)))
                (fun result =>
                   match result with
                   | [] => Fthrow (NewError (js "Failed to create achievement"))
                   | x :: _ =>
                       Fret (answer 201 "Achievement created successfully"
                               (achievement_json x))
                   end)
          end))
    (failed "Failed to create achievement") st.
Proof.
  intros (Hu & Hb & Ht & Hd & <- & <-) Hdb.
  unfold create_achievement, Fhandler, Fbind at 1 2 3 4 5, Flift. simpl get.
  cbv beta iota. rewrite Hu, Hb, Ht, Hd, Hdb. reflexivity.
Qed.

Lemma create_achievement_found fs u b st x rest :
  achievement_request fs u b -> db env = true ->
  db_outage env (ticks (world st)) = None ->
  let r := concurrent_records (ticks (world st)) (records st) in
  filter (achievement_of u b) (achievements r) = x :: rest ->
  create_achievement env concurrent_records (JObj fs) st =
  (answer 200 "Achievement already exists" (achievement_json x),
   recorded (concurrent env (ticks (world st)) (tables (world st))) r st).
Proof.
  intros Hreq Hdb Hup r Hf. rewrite (create_achievement_valid fs u b st Hreq Hdb).
  unfold Fhandler, Fbind, select_achievements.
  rewrite (records_statement_up _ st Hup). cbn [fst snd]. fold r. rewrite Hf. reflexivity.
Qed.

Lemma create_achievement_created fs u b st :
  achievement_request fs u b -> db env = true ->
  db_outage env (ticks (world st)) = None ->
  db_outage env (S (ticks (world st))) = None ->
  let r1 := concurrent_records (ticks (world st)) (records st) in
  let r2 := concurrent_records (S (ticks (world st))) r1 in
  let t1 := concurrent env (ticks (world st)) (tables (world st)) in
  let t2 := concurrent env (S (ticks (world st))) t1 in
  let x := {| achievements.id := achievements_id_seq r2;
              achievements.userId := u;
              achievements.badgeId := b;
              achievements.title := param_text (obj_get "title" fs);
              achievements.description := param_text (obj_get "description" fs);
              achievements.earnedAt := now (world st) |} in
  filter (achievement_of u b) (achievements r1) = [] ->
  create_achievement env concurrent_records (JObj fs) st =
  (answer 201 "Achievement created successfully" (achievement_json x),
   recorded t2 (set_achievements (achievements r2 ++ [x]) (achievements_id_seq r2 + 1) r2)
     (recorded t1 r1 st)).
Proof.
  intros Hreq Hdb Hup1 Hup2 r1 r2 t1 t2 x Hf.
  rewrite (create_achievement_valid fs u b st Hreq Hdb).
  unfold Fhandler. unfold Fbind at 1. unfold select_achievements.
  rewrite (records_statement_up _ st Hup1). cbn [fst snd]. fold r1 t1. rewrite Hf.
  unfold Fbind at 1, insert_achievements.
  rewrite records_statement_up by exact Hup2. reflexivity.
Qed.

End Forms_run.

Section Forms_properties.

Context {num : Type} {NumOps : JsNumber num} {Driver : PgDriver num}.

(** X10. [POST /api/contact] keeps every submission: with the store up
    and nobody else writing, a form sent twice makes two rows that differ
    in [id] and time only, and both are answered 201; no look-up is made
    and no mail is sent.  What is stored is the [trim] of each field
    ([phone] null when it is missing); a required field is checked before
    it is trimmed, so white space passes and is stored as the empty
    string. *)
Theorem every_contact_submission_is_kept
    (env : Env num) (concurrent_records : nat -> Records -> Records)
    (st : Site) (d2 : Date)
    (fs : list (string * jsval num)) (s n : jsstring) (p : option jsstring)
    (a m : jsstring) :
  store_up env -> quiet concurrent_records ->
  contact_request fs s -> contact_columns fs n p a m ->
  let seq := contact_submissions_id_seq (records st) in
  let row1 := {| contactSubmissions.id := seq;
                 contactSubmissions.name := n;
                 contactSubmissions.email := trim s;
                 contactSubmissions.phone := p;
                 contactSubmissions.investmentAmount := a;
                 contactSubmissions.message := m;
                 contactSubmissions.createdAt := now (world st) |} in
  let row2 := {| contactSubmissions.id := seq + 1;
                 contactSubmissions.name := n;
                 contactSubmissions.email := trim s;
                 contactSubmissions.phone := p;
                 contactSubmissions.investmentAmount := a;
                 contactSubmissions.message := m;
                 contactSubmissions.createdAt := d2 |} in
  let '(r1, s1) := contact env concurrent_records (JObj fs) st in
  let '(r2, s2) := contact env concurrent_records (JObj fs) (later d2 s1) in
  r1 = answer 201 "Contact form submitted successfully" (contact_data row1) /\
  r2 = answer 201 "Contact form submitted successfully" (contact_data row2) /\
  contact_submissions (records s2) = contact_submissions (records st) ++ [row1; row2] /\
  mail_log (world s2) = mail_log (world st).
Proof.
  intros [Hdb Hup] Hq Hreq Hcol seq row1 row2.
  rewrite (contact_created env concurrent_records fs s n p a m st Hreq Hcol Hdb (Hup _)).
  rewrite (contact_created env concurrent_records fs s n p a m _ Hreq Hcol Hdb (Hup _)).
  rewrite !Hq.
  cbn [records later recorded world now at_time contact_submissions
       contact_submissions_id_seq set_contact_submissions committed mail_log].
  fold seq row1 row2. rewrite <- app_assoc.
  split; [reflexivity | split; [reflexivity | split; reflexivity]].
Qed.

(** X11. A form that is refused at the checks (400), or that arrives
    when there is no connection, has sent no statement: the site is as it
    was.  The same holds for the two listings when there is no
    connection. *)
Theorem refused_form_leaves_no_trace
    (env : Env num) (concurrent_records : nat -> Records -> Records) req st :
  (status (fst (contact env concurrent_records req st)) = 400 \/ db env = false ->
   snd (contact env concurrent_records req st) = st) /\
  (status (fst (create_achievement env concurrent_records req st)) = 400 \/ db env = false ->
   snd (create_achievement env concurrent_records req st) = st) /\
  (status (fst (create_quiz_result env concurrent_records req st)) = 400 \/ db env = false ->
   snd (create_quiz_result env concurrent_records req st) = st) /\
  (forall u, db env = false -> snd (get_achievements env concurrent_records u st) = st) /\
  (forall u, db env = false -> snd (get_quiz_results env concurrent_records u st) = st).
Proof.
  split; [|split; [|split; [|split; intros u]]]; run_forms.
  all: repeat (cbv beta; step).
  all: cbn [fst snd status answer failed refuse listing].
  all: try (intros [H|H]); try intros H; try reflexivity; try discriminate H.
  all: try (rewrite H in *; discriminate).
Qed.

(** X18. With nobody else writing, a form writes to its own table and to
    no other: [POST /api/contact], [POST /api/learning/achievements] and
    [POST /api/learning/quiz-results] leave every row of their table as it
    is and add one row at most; the two listings change nothing; and none
    of them sends mail. *)
Theorem each_form_writes_its_own_table
    (env : Env num) (concurrent_records : nat -> Records -> Records)
    (req : jsval num) (st : Site) :
  quiet concurrent_records ->
  (exists l k,
     records (snd (contact env concurrent_records req st)) =
       set_contact_submissions (contact_submissions (records st) ++ l)
         (contact_submissions_id_seq (records st) + k) (records st) /\
     (List.length l <= 1)%nat /\ 0 <= k <= 1) /\
  (exists l k,
     records (snd (create_achievement env concurrent_records req st)) =
       set_achievements (achievements (records st) ++ l)
         (achievements_id_seq (records st) + k) (records st) /\
     (List.length l <= 1)%nat /\ 0 <= k <= 1) /\
  (exists l k,
     records (snd (create_quiz_result env concurrent_records req st)) =
       set_quiz_results (quiz_results (records st) ++ l)
         (quiz_results_id_seq (records st) + k) (records st) /\
     (List.length l <= 1)%nat /\ 0 <= k <= 1) /\
  (forall u, records (snd (get_achievements env concurrent_records u st)) = records st) /\
  (forall u, records (snd (get_quiz_results env concurrent_records u st)) = records st) /\
  mail_log (world (snd (contact env concurrent_records req st))) = mail_log (world st) /\
  mail_log (world (snd (create_achievement env concurrent_records req st)))
    = mail_log (world st) /\
  mail_log (world (snd (create_quiz_result env concurrent_records req st)))
    = mail_log (world st).
Proof.
  intros Hq.
  split; [|split; [|split; [|split; [|split; [|split; [|split]]]]]]; try intros u;
    run_forms.
  all: repeat (cbv beta; rewrite ?Hq; step).
  all: try reflexivity.
  all: try recorded_once.
Qed.

(** X12. The first achievement wins: with the store up and nobody else
    writing, a first [POST] for a user and a badge makes a row (201), and a
    second one for the same user and badge, whatever its title and
    description and whenever it comes, is answered (200) with the row of
    the first and changes no table. *)
Theorem first_achievement_wins
    (env : Env num) (concurrent_records : nat -> Records -> Records)
    (st : Site) (d2 : Date) (fs1 fs2 : list (string * jsval num)) (u b : jsstring) :
  store_up env -> quiet concurrent_records ->
  achievement_request fs1 u b -> achievement_request fs2 u b ->
  existsb (achievement_of u b) (achievements (records st)) = false ->
  let row := {| achievements.id := achievements_id_seq (records st);
                achievements.userId := u;
                achievements.badgeId := b;
                achievements.title := param_text (obj_get "title" fs1);
                achievements.description := param_text (obj_get "description" fs1);
                achievements.earnedAt := now (world st) |} in
  let '(r1, s1) := create_achievement env concurrent_records (JObj fs1) st in
  let '(r2, s2) := create_achievement env concurrent_records (JObj fs2) (later d2 s1) in
  r1 = answer 201 "Achievement created successfully" (achievement_json row) /\
  r2 = answer 200 "Achievement already exists" (achievement_json row) /\
  achievements (records s1) = achievements (records st) ++ [row] /\
  records s2 = records s1.
Proof.
  intros [Hdb Hup] Hq Hr1 Hr2 Hx row.
  pose proof (create_achievement_created env concurrent_records fs1 u b st
                Hr1 Hdb (Hup _) (Hup _)) as H1.
  cbv zeta in H1. rewrite !Hq in H1. rewrite (H1 (filter_none _ _ Hx)). clear H1.
  fold row.
  assert (Hrow : achievement_of u b row = true).
  { unfold achievement_of, row. cbn. now rewrite !jsstring_eqb_refl. }
  erewrite (create_achievement_found env concurrent_records fs2 u b _ row []
              Hr2 Hdb (Hup _)).
  - rewrite Hq. cbn [records later recorded set_achievements achievements].
    split; [reflexivity | split; [reflexivity | split; reflexivity]].
  - rewrite Hq. cbn [records later recorded set_achievements achievements].
    now apply filter_new.
Qed.

(** X13. [achievements] has no unique key on [(userId, badgeId)]: a
    request whose look-up finds no row inserts one, whatever another
    request has committed in between; it is answered 201 and the table
    holds one row more for the badge than the other requests left. *)
Theorem racing_achievements_duplicate_the_badge
    (env : Env num) (concurrent_records : nat -> Records -> Records)
    (st : Site) (fs : list (string * jsval num)) (u b : jsstring) :
  db env = true ->
  db_outage env (ticks (world st)) = None ->
  db_outage env (S (ticks (world st))) = None ->
  achievement_request fs u b ->
  let r1 := concurrent_records (ticks (world st)) (records st) in
  let r2 := concurrent_records (S (ticks (world st))) r1 in
  filter (achievement_of u b) (achievements r1) = [] ->
  let row := {| achievements.id := achievements_id_seq r2;
                achievements.userId := u;
                achievements.badgeId := b;
                achievements.title := param_text (obj_get "title" fs);
                achievements.description := param_text (obj_get "description" fs);
                achievements.earnedAt := now (world st) |} in
  let '(r, s') := create_achievement env concurrent_records (JObj fs) st in
  r = answer 201 "Achievement created successfully" (achievement_json row) /\
  achievements (records s') = achievements r2 ++ [row] /\
  List.length (filter (achievement_of u b) (achievements (records s'))) =
    S (List.length (filter (achievement_of u b) (achievements r2))).
Proof.
  intros Hdb Hup1 Hup2 Hreq r1 r2 Hf row.
  pose proof (create_achievement_created env concurrent_records fs u b st
                Hreq Hdb Hup1 Hup2) as H1.
  cbv zeta in H1. rewrite (H1 Hf). clear H1. fold r1 r2 row.
  cbn [records recorded set_achievements achievements].
  split; [reflexivity | split; [reflexivity|]].
  rewrite filter_app, length_app. cbn [filter].
  assert (Hrow : achievement_of u b row = true).
  { unfold achievement_of, row. cbn. now rewrite !jsstring_eqb_refl. }
  rewrite Hrow. cbn. lia.
Qed.

Lemma answers_text_truthy (v : jsval num) :
  truthy v = true -> exists a, answers_text v = Some a.
Proof.
  destruct v; cbn [truthy answers_text]; try discriminate; intros _;
    unfold JSON_stringify; eauto.
Qed.

Lemma create_quiz_result_valid (env : Env num) cr fs st :
  quiz_request fs -> db env = true ->
  create_quiz_result env cr (JObj fs) st =
  Fhandler
    (if is_undefined (obj_get "score" fs)
     then Fret (refuse 400
                  "userId, quizId, score, totalQuestions, and answers are required")
     else
       Fbind (Flift (call_toString "score" (obj_get "score" fs))) (fun sc =>
       Fbind (Flift (call_toString "totalQuestions" (obj_get "totalQuestions" fs)))
         (fun total =>
       Fbind (insert_quizResults env cr (param_text (obj_get "userId" fs))
                (param_text (obj_get "quizId" fs)) sc total
                (answers_text (obj_get "answers" fs)))
         (fun result =>
            match result with
            | [] => Fthrow (NewError (js "Failed to create quiz result"))
            | x :: _ => Fret (answer 201 "Quiz result created successfully" (quiz_json x))
            end))))
    (failed "Failed to create quiz result") st.
Proof.
  intros (Hu & Hq & Ht & Ha) Hdb.
  unfold create_quiz_result, Fhandler, Fbind at 1 2 3 4 5 6, Flift. simpl get.
  cbv beta iota. rewrite Hu, Hq, Ht, Ha, Hdb. cbn [negb orb].
  destruct (is_undefined (obj_get "score" fs)); reflexivity.
Qed.

Lemma create_quiz_result_created (env : Env num) cr fs st sc total a :
  quiz_request fs -> db env = true -> db_outage env (ticks (world st)) = None ->
  is_undefined (obj_get "score" fs) = false ->
  call_toString "score" (obj_get "score" fs) = Ok sc ->
  call_toString "totalQuestions" (obj_get "totalQuestions" fs) = Ok total ->
  answers_text (obj_get "answers" fs) = Some a ->
  let rs := cr (ticks (world st)) (records st) in
  let x := {| quizResults.id := quiz_results_id_seq rs;
              quizResults.userId := param_text (obj_get "userId" fs);
              quizResults.quizId := param_text (obj_get "quizId" fs);
              quizResults.score := sc;
              quizResults.totalQuestions := total;
              quizResults.answers := a;
              quizResults.completedAt := now (world st) |} in
  create_quiz_result env cr (JObj fs) st =
  (answer 201 "Quiz result created successfully" (quiz_json x),
   recorded (concurrent env (ticks (world st)) (tables (world st)))
     (set_quiz_results (quiz_results rs ++ [x]) (quiz_results_id_seq rs + 1) rs) st).
Proof.
  intros Hreq Hdb Hup Hu Hs Ht Ha rs x.
  rewrite (create_quiz_result_valid env cr fs st Hreq Hdb).
  rewrite Hu, Hs, Ht. unfold Fhandler, Fbind, Flift, insert_quizResults.
  rewrite (records_statement_up env cr _ st Hup). rewrite Ha. reflexivity.
Qed.

(** X14. [POST /api/learning/quiz-results] asks for a [score] but does
    not check it: with the other fields there and the store up, a request
    without [score] is refused (400); a [score] of [null] gets past the
    check, [score.toString()] throws and the answer is 500, with nothing
    written; a number, zero included, or a string, the empty one included,
    is stored as its text in a new row, answered 201. *)
Theorem quiz_score_is_required_not_checked
    (env : Env num) (concurrent_records : nat -> Records -> Records)
    (st : Site) (fs : list (string * jsval num)) (total : jsstring) :
  quiz_request fs ->
  call_toString "totalQuestions" (obj_get "totalQuestions" fs) = Ok total ->
  db env = true -> db_outage env (ticks (world st)) = None ->
  let '(r, s') := create_quiz_result env concurrent_records (JObj fs) st in
  let rs := concurrent_records (ticks (world st)) (records st) in
  (obj_get "score" fs = JUndefined ->
   r = refuse 400 "userId, quizId, score, totalQuestions, and answers are required" /\
   s' = st) /\
  (obj_get "score" fs = JNull ->
   r = failed "Failed to create quiz result"
         (TypeError (js "Cannot read properties of null (reading 'toString')")) /\
   s' = st) /\
  (forall sc,
     obj_get "score" fs = JStr sc \/
     (exists n, obj_get "score" fs = JNum n /\ sc = num_toString n) ->
     exists x,
       r = answer 201 "Quiz result created successfully" (quiz_json x) /\
       quiz_results (records s') = quiz_results rs ++ [x] /\
       quizResults.id x = quiz_results_id_seq rs /\
       quizResults.score x = sc /\
       quizResults.totalQuestions x = total /\
       answers_text (obj_get "answers" fs) = Some (quizResults.answers x)).
Proof.
  intros Hreq Ht Hdb Hup.
  destruct (create_quiz_result env concurrent_records (JObj fs) st) as [r s'] eqn:E.
  intros rs. split; [|split].
  - intros Hs. rewrite (create_quiz_result_valid env concurrent_records fs st Hreq Hdb) in E.
    rewrite Hs in E. cbn in E. now inversion E.
  - intros Hs. rewrite (create_quiz_result_valid env concurrent_records fs st Hreq Hdb) in E.
    rewrite Hs in E. cbn in E. now inversion E.
  - intros sc Hs.
    destruct (answers_text_truthy _ (proj2 (proj2 (proj2 Hreq)))) as (a & Ea).
    assert (Hu : is_undefined (obj_get "score" fs) = false /\
                 call_toString "score" (obj_get "score" fs) = Ok sc).
    { destruct Hs as [-> | (n & -> & ->)]; split; reflexivity. }
    destruct Hu as [Hu Hc].
    rewrite (create_quiz_result_created env concurrent_records fs st sc total a
               Hreq Hdb Hup Hu Hc Ht Ea) in E.
    inversion E; subst r s'. clear E. eexists. split; [reflexivity|].
    cbn [records recorded set_quiz_results quiz_results
         quizResults.id quizResults.score quizResults.totalQuestions quizResults.answers].
    fold rs. rewrite Ea.
    split; [reflexivity | split; [reflexivity | split; [reflexivity | split; reflexivity]]].
Qed.

Lemma get_achievements_run (env : Env num) cr u st :
  db env = true -> db_outage env (ticks (world st)) = None ->
  get_achievements env cr u st =
  (listing (map achievement_json
              (filter (achieved_by u)
                 (achievements (cr (ticks (world st)) (records st))))),
   recorded (concurrent env (ticks (world st)) (tables (world st)))
     (cr (ticks (world st)) (records st)) st).
Proof.
  intros Hdb Hup. unfold get_achievements, Fhandler, Fbind, select_achievements.
  rewrite Hdb. cbn [negb]. rewrite (records_statement_up env cr _ st Hup). reflexivity.
Qed.

Lemma get_quiz_results_run (env : Env num) cr u st :
  db env = true -> db_outage env (ticks (world st)) = None ->
  get_quiz_results env cr u st =
  (listing (map quiz_json
              (filter (taken_by u)
                 (quiz_results (cr (ticks (world st)) (records st))))),
   recorded (concurrent env (ticks (world st)) (tables (world st)))
     (cr (ticks (world st)) (records st)) st).
Proof.
  intros Hdb Hup. unfold get_quiz_results, Fhandler, Fbind, select_quizResults.
  rewrite Hdb. cbn [negb]. rewrite (records_statement_up env cr _ st Hup). reflexivity.
Qed.

Lemma achievement_of_by u b x : achievement_of u b x = true -> achieved_by u x = true.
Proof. unfold achievement_of, achieved_by. intros H. now apply andb_true_iff in H. Qed.

(** X15. What is saved is listed: with the store up and nobody else
    writing, the row [POST /api/learning/achievements] answers with, new or
    found, is among the rows [GET /api/learning/achievements/:userId]
    answers with next, and likewise the row of a quiz result; the listing
    holds the rows of the user in the table and the [GET] changes no
    table. *)
Theorem earned_badges_and_quiz_results_are_listed
    (env : Env num) (concurrent_records : nat -> Records -> Records)
    (st : Site) (d2 : Date) :
  store_up env -> quiet concurrent_records ->
  (forall fs u b,
     achievement_request fs u b ->
     let '(r1, s1) := create_achievement env concurrent_records (JObj fs) st in
     let '(l, s2) := get_achievements env concurrent_records u (later d2 s1) in
     exists items,
       l = listing items /\
       In (field "data" (body r1)) items /\
       items = map achievement_json
                 (filter (achieved_by u) (achievements (records s1))) /\
       records s2 = records s1) /\
  (forall fs sc total,
     quiz_request fs ->
     is_undefined (obj_get "score" fs) = false ->
     call_toString "score" (obj_get "score" fs) = Ok sc ->
     call_toString "totalQuestions" (obj_get "totalQuestions" fs) = Ok total ->
     let '(r1, s1) := create_quiz_result env concurrent_records (JObj fs) st in
     let '(l, s2) := get_quiz_results env concurrent_records
                       (param_text (obj_get "userId" fs)) (later d2 s1) in
     exists items,
       l = listing items /\
       In (field "data" (body r1)) items /\
       items = map quiz_json
                 (filter (taken_by (param_text (obj_get "userId" fs)))
                    (quiz_results (records s1))) /\
       records s2 = records s1).
Proof.
  intros [Hdb Hup] Hq. split.
  - intros fs u b Hreq.
    destruct (filter (achievement_of u b) (achievements (records st)))
      as [|x0 rest] eqn:Hf.
    + pose proof (create_achievement_created env concurrent_records fs u b st
                    Hreq Hdb (Hup _) (Hup _)) as H1.
      cbv zeta in H1. rewrite !Hq in H1. rewrite (H1 Hf). clear H1.
      rewrite get_achievements_run by (try exact Hdb; apply Hup). rewrite Hq.
      cbn [records later recorded set_achievements achievements].
      eexists. split; [reflexivity|].
      cbn [body answer field obj_get String.eqb Ascii.eqb Bool.eqb].
      split; [|split; reflexivity].
      apply in_map. apply filter_In. split.
      * apply in_or_app. right. now left.
      * unfold achieved_by. cbn. apply jsstring_eqb_refl.
    + rewrite (create_achievement_found env concurrent_records fs u b st x0 rest
                 Hreq Hdb (Hup _)) by (rewrite Hq; exact Hf).
      rewrite get_achievements_run by (try exact Hdb; apply Hup). rewrite !Hq.
      cbn [records later recorded].
      eexists. split; [reflexivity|].
      cbn [body answer field obj_get String.eqb Ascii.eqb Bool.eqb].
      split; [|split; reflexivity].
      assert (Hx : In x0 (achievements (records st)) /\ achievement_of u b x0 = true).
      { apply filter_In. rewrite Hf. now left. }
      apply in_map. apply filter_In. split; [apply Hx|].
      apply achievement_of_by with (b := b). apply Hx.
  - intros fs sc total Hreq Hu Hs Ht.
    destruct (answers_text_truthy _ (proj2 (proj2 (proj2 Hreq)))) as (a & Ea).
    rewrite (create_quiz_result_created env concurrent_records fs st sc total a
               Hreq Hdb (Hup _) Hu Hs Ht Ea).
    rewrite get_quiz_results_run by (try exact Hdb; apply Hup). rewrite !Hq.
    cbn [records later recorded set_quiz_results quiz_results].
    eexists. split; [reflexivity|].
    cbn [body answer field obj_get String.eqb Ascii.eqb Bool.eqb].
    split; [|split; reflexivity].
    apply in_map. apply filter_In. split.
    + apply in_or_app. right. now left.
    + unfold taken_by. cbn. apply jsstring_eqb_refl.
Qed.

End Forms_properties.

(** ** The calculator *)

Section Calculation.

Context {num : Type} {NumOps : JsNumber num} {Driver : PgDriver num}
        {Math : JsMath num}.

Lemma save_calculation_returns (env : Env num) cr a y r f st :
  exists s', save_calculation env cr a y r f st = (Ok tt, s') /\
             now (world s') = now (world st) /\
             mail_log (world s') = mail_log (world st) /\
             (ticks (world s') <= S (ticks (world st)))%nat /\
             (db env = false -> s' = st).
Proof.
  unfold save_calculation, insert_inflationCalculations, Fbind, Fret, Fthrow,
    Ftry_catch, records_statement.
  repeat (cbv beta; step).
  all: eexists; split; [reflexivity|]; cbn [world recorded now committed mail_log ticks].
  all: repeat split; try lia; try discriminate; try reflexivity.
Qed.

(** X16. The answer of [POST /api/inflation] does not depend on the
    store: whether there is a connection, whether the store takes the row
    or refuses it, and whatever other requests do, the same request at the
    same time gets the same answer.  The handler sends no mail and one
    statement at most, and none without a connection or when it refuses
    the request (400). *)
Theorem calculation_does_not_depend_on_the_store
    (env1 env2 : Env num) (cr1 cr2 : nat -> Records -> Records)
    (req : jsval num) (st : Site) :
  let '(r1, s1) := inflation env1 cr1 req st in
  let '(r2, s2) := inflation env2 cr2 req st in
  r1 = r2 /\
  mail_log (world s1) = mail_log (world st) /\
  (ticks (world s1) <= S (ticks (world st)))%nat /\
  (db env1 = false -> s1 = st) /\
  (status r1 = 400 -> s1 = st).
Proof.
  unfold inflation, parseFloat, parseInt, Fhandler, Fbind, Flift, Fret, Fnew_Date.
  repeat (cbv beta; step).
  all: repeat match goal with
         | H : save_calculation ?e ?c ?a ?y ?r ?f ?s = (?o, ?s') |- _ =>
             let E := fresh "E" in
             destruct (save_calculation_returns e c a y r f s)
               as (? & E & ? & ? & ? & ?);
             rewrite E in H; clear E;
             first [discriminate H | injection H as ? ?; subst]
         end.
  all: cbn [status answer refuse failed].
  all: repeat split; try reflexivity; try assumption; try lia; try discriminate.
  all: try congruence.
Qed.

End Calculation.

(** ** Start-up *)

Section Starting.

Context {num : Type}.

Variable sql_outage : nat -> option (Error num).

Lemma exists_table_app name c d :
  exists_table name (c ++ d) = exists_table name c || exists_table name d.
Proof. unfold exists_table. apply existsb_app. Qed.

Lemma create_keeps name text c other :
  exists_table other c = true ->
  exists_table other (create_table_if_not_exists name text c) = true.
Proof.
  intros H. unfold create_table_if_not_exists.
  destruct (exists_table name c); [exact H|].
  rewrite exists_table_app, H. reflexivity.
Qed.

Lemma create_makes name text c :
  exists_table name (create_table_if_not_exists name text c) = true.
Proof.
  unfold create_table_if_not_exists. destruct (exists_table name c) eqn:E; [exact E|].
  rewrite exists_table_app. cbn. rewrite String.eqb_refl. apply orb_true_r.
Qed.

Lemma created_cons n t todo c :
  created ((n, t) :: todo) c = created todo (create_table_if_not_exists n t c).
Proof. reflexivity. Qed.

Lemma created_keeps todo : forall c other,
  exists_table other c = true -> exists_table other (created todo c) = true.
Proof.
  induction todo as [|[n t] todo IH]; intros c other H; [exact H|].
  rewrite created_cons. apply IH. now apply create_keeps.
Qed.

Lemma created_makes todo : forall c name text,
  In (name, text) todo -> exists_table name (created todo c) = true.
Proof.
  induction todo as [|[n t] todo IH]; intros c name text H; [destruct H|].
  rewrite created_cons. destruct H as [[= -> ->] | H].
  - apply created_keeps. apply create_makes.
  - now apply (IH _ name text).
Qed.

Lemma created_extends todo : forall c, exists added, created todo c = c ++ added.
Proof.
  induction todo as [|[n t] todo IH]; intros c.
  - exists []. now rewrite app_nil_r.
  - rewrite created_cons. destruct (IH (create_table_if_not_exists n t c)) as (added & ->).
    unfold create_table_if_not_exists. destruct (exists_table n c).
    + now exists added.
    + exists ((n, t) :: added). now rewrite <- app_assoc.
Qed.

Lemma created_again todo : forall c,
  (forall name text, In (name, text) todo -> exists_table name c = true) ->
  created todo c = c.
Proof.
  induction todo as [|[n t] todo IH]; intros c H; [reflexivity|].
  rewrite created_cons. unfold create_table_if_not_exists. rewrite (H n t (or_introl eq_refl)).
  apply IH. intros name text Hin. apply (H name text). now right.
Qed.

Lemma create_from_up todo : forall n c,
  (forall i, (i < List.length todo)%nat -> sql_outage (n + i) = None) ->
  create_from sql_outage todo n c = (true, created todo c).
Proof.
  induction todo as [|[name text] todo IH]; intros n c H; [reflexivity|].
  rewrite created_cons. cbn [create_from].
  specialize (H 0%nat) as H0. rewrite Nat.add_0_r in H0. rewrite H0 by (cbn; lia).
  apply IH. intros i Hi. replace (S n + i)%nat with (n + S i)%nat by lia.
  apply H. cbn. lia.
Qed.

Lemma create_from_down todo : forall n c k e,
  (forall i, (i < k)%nat -> sql_outage (n + i) = None) ->
  sql_outage (n + k) = Some e -> (k < List.length todo)%nat ->
  create_from sql_outage todo n c = (false, created (firstn k todo) c).
Proof.
  induction todo as [|[name text] todo IH]; intros n c k e Hup Hdown Hk;
    [cbn in Hk; lia|].
  destruct k as [|k].
  - cbn. rewrite Nat.add_0_r in Hdown. now rewrite Hdown.
  - cbn [create_from firstn]. rewrite created_cons.
    specialize (Hup 0%nat) as H0. rewrite Nat.add_0_r in H0. rewrite H0 by lia.
    apply (IH (S n) _ k e).
    + intros i Hi. replace (S n + i)%nat with (n + S i)%nat by lia. apply Hup. lia.
    + replace (S n + k)%nat with (n + S k)%nat by lia. exact Hdown.
    + cbn in Hk. lia.
Qed.

(** X17. [createTables] can be repeated and is not atomic.  Without a
    connection it returns [false] and does nothing.  When the store takes
    every statement it returns [true]; every table of the schema exists
    afterwards, what the catalog held before is left as it was (a table
    that was there keeps the definition it had), and a second run changes
    nothing.  When the store refuses statement [k] it returns [false] and
    the tables of the [k] statements before stay created. *)
Theorem createTables_is_repeatable_and_not_atomic (c : Catalog) :
  createTables sql_outage false c = (false, c) /\
  ((forall n, sql_outage n = None) ->
   let c' := created statements c in
   createTables sql_outage true c = (true, c') /\
   (exists added, c' = c ++ added) /\
   (forall name text, In (name, text) statements -> exists_table name c' = true) /\
   createTables sql_outage true c' = (true, c')) /\
  (forall k e,
     (forall i, (i < k)%nat -> sql_outage i = None) ->
     sql_outage k = Some e -> (k < List.length statements)%nat ->
     createTables sql_outage true c = (false, created (firstn k statements) c)).
Proof.
  split; [reflexivity|]. split.
  - intros Hup c'. unfold createTables. cbn [negb].
    rewrite !create_from_up by (intros; apply Hup).
    split; [reflexivity|]. split; [apply created_extends|].
    split; [intros name text; apply created_makes|].
    f_equal. apply created_again. intros name text. apply created_makes.
  - intros k e Hup Hdown Hk. unfold createTables. cbn [negb].
    now apply (create_from_down statements 0 c k e).
Qed.

End Starting.

(** ** Answers *)

Section Answers.

Context {num : Type} {NumOps : JsNumber num} {Driver : PgDriver num}.

Lemma newsletter_success_names_a_row (env : Env num) req w :
  let '(r, w') := newsletter env req w in
  (success r = true <-> status r = 200 \/ status r = 201) /\
  (success r = false <-> status r = 400 \/ status r = 500) /\
  (success r = true ->
   exists row, In row (newsletter_subscriptions (tables w')) /\
               data "id" r = JNum (num_of_Z (newsletterSubscriptions.id row)) /\
               data "email" r = JStr (newsletterSubscriptions.email row)).
Proof.
  run_ingest. repeat (cbv beta; step).
  all: status_and_flag; status_and_flag.
  all: intros Hs; try discriminate Hs.
  all: match goal with |- context [subscription_data ?r] => exists r end.
  all: (split; [|split; reflexivity]).
  all: cbn [tables committed set_newsletter_subscriptions newsletter_subscriptions].
  all: in_the_table.
Qed.

Lemma progress_success_names_a_row (env : Env num) req w :
  (let '(r, w') := create_progress env req w in
   (success r = true <-> status r = 200 \/ status r = 201) /\
   (success r = false <-> status r = 400 \/ status r = 500) /\
   (success r = true ->
    exists row, In row (learning_progress (tables w')) /\
                field "data" (body r) = progress_json row)) /\
  (forall u m,
   let '(r, w') := update_progress env u m req w in
   (success r = true <-> status r = 200 \/ status r = 201) /\
   (success r = false <-> status r = 400 \/ status r = 500) /\
   (success r = true ->
    exists row, In row (learning_progress (tables w')) /\
                field "data" (body r) = progress_json row)).
Proof.
  split; [|intros u m]; run_ingest.
  all: repeat (cbv beta; step).
  all: status_and_flag; status_and_flag.
  all: intros Hs; try discriminate Hs.
  all: match goal with |- context [progress_json ?r] => exists r end.
  all: (split; [|reflexivity]).
  all: cbn [tables committed set_learning_progress learning_progress].
  all: in_the_table.
Qed.

Lemma forms_success_names_a_row
    (env : Env num) (cr : nat -> Records -> Records) req st :
  (let '(r, s') := contact env cr req st in
   (success r = true <-> status r = 200 \/ status r = 201) /\
   (success r = false <-> status r = 400 \/ status r = 500) /\
   (success r = true ->
    exists row, In row (contact_submissions (records s')) /\
                field "data" (body r) = contact_data row)) /\
  (let '(r, s') := create_achievement env cr req st in
   (success r = true <-> status r = 200 \/ status r = 201) /\
   (success r = false <-> status r = 400 \/ status r = 500) /\
   (success r = true ->
    exists row, In row (achievements (records s')) /\
                field "data" (body r) = achievement_json row)) /\
  (let '(r, s') := create_quiz_result env cr req st in
   (success r = true <-> status r = 200 \/ status r = 201) /\
   (success r = false <-> status r = 400 \/ status r = 500) /\
   (success r = true ->
    exists row, In row (quiz_results (records s')) /\
                field "data" (body r) = quiz_json row)).
Proof.
  split; [|split]; run_forms.
  all: repeat (cbv beta; step).
  all: status_and_flag; status_and_flag.
  all: intros Hs; try discriminate Hs.
  all: match goal with
       | |- context [contact_data ?r] => exists r
       | |- context [achievement_json ?r] => exists r
       | |- context [quiz_json ?r] => exists r
       end.
  all: (split; [|reflexivity]).
  all: cbn [records recorded set_contact_submissions contact_submissions
            set_achievements achievements set_quiz_results quiz_results].
  all: in_the_table.
Qed.

(** X20. The flags of the answer of [POST /api/inflation-email] tell
    what was done.  With no other request in between: the answer is 200
    exactly when [success] is set; [emailSent] and [emailStored] are never
    both set; either of them needs a credential and [emailStored] a
    connection; and [pending_emails] has one row more when [emailStored] is
    set and is as long as it was when it is not. *)
Theorem report_flags_tell_what_was_done (env : Env num) (req : jsval num) (w : World) :
  alone env ->
  let '(r, w') := inflation_email env req w in
  (success r = true <-> status r = 200) /\
  (success r = false <-> status r = 400 \/ status r = 500) /\
  (status r = 200 ->
   exists sent stored,
     data "emailSent" r = JBool sent /\
     data "emailStored" r = JBool stored /\
     sent && stored = false /\
     (stored = true -> db env = true) /\
     (sent = true \/ stored = true -> sendgrid_configured env = true) /\
     List.length (pending_emails (tables w')) =
       (List.length (pending_emails (tables w)) + (if stored then 1 else 0))%nat).
Proof.
  intros Hal. run_report. cbn [send_with senderConfigs].
  unfold try_catch, bind, ret, sgMail_send.
  repeat (cbv beta; rewrite ?Hal; step).
  all: try match goal with
           | H : negb true = true |- _ => discriminate H
           | H : negb false = false |- _ => discriminate H
           end.
  all: split; [split; [intros H; try discriminate H; auto
                      | intros H; try discriminate H; reflexivity]|].
  all: status_and_flag.
  all: intros Hs; try discriminate Hs.
  all: cbn [data body answer field obj_get report_data String.eqb Ascii.eqb Bool.eqb].
  all: do 2 eexists; split; [reflexivity|]; split; [reflexivity|].
  all: split; [reflexivity|].
  all: split; [intros H; try discriminate H; assumption|].
  all: split; [intros [H|H]; try discriminate H; try assumption; try reflexivity|].
  all: cbn [tables committed mailed set_pending_emails pending_emails].
  all: rewrite ?length_app; cbn [List.length]; lia.
Qed.

(** X19. A success names a stored row.  In every handler that writes a
    record, [success] is set exactly when the status is 200 or 201 and is
    not set exactly when it is 400 or 500; and the record of a success is a
    row the table holds when the handler is done: for the newsletter, for
    the two progress handlers, for the contact form, the achievements and
    the quiz results, whatever the store and the other requests do. *)
Theorem a_success_names_a_stored_row
    (env : Env num) (concurrent_records : nat -> Records -> Records)
    (req : jsval num) (w : World) (st : Site) :
  (let '(r, w') := newsletter env req w in
   (success r = true <-> status r = 200 \/ status r = 201) /\
   (success r = false <-> status r = 400 \/ status r = 500) /\
   (success r = true ->
    exists row, In row (newsletter_subscriptions (tables w')) /\
                data "id" r = JNum (num_of_Z (newsletterSubscriptions.id row)) /\
                data "email" r = JStr (newsletterSubscriptions.email row))) /\
  (let '(r, w') := create_progress env req w in
   (success r = true <-> status r = 200 \/ status r = 201) /\
   (success r = false <-> status r = 400 \/ status r = 500) /\
   (success r = true ->
    exists row, In row (learning_progress (tables w')) /\
                field "data" (body r) = progress_json row)) /\
  (forall u m,
   let '(r, w') := update_progress env u m req w in
   (success r = true <-> status r = 200 \/ status r = 201) /\
   (success r = false <-> status r = 400 \/ status r = 500) /\
   (success r = true ->
    exists row, In row (learning_progress (tables w')) /\
                field "data" (body r) = progress_json row)) /\
  (let '(r, s') := contact env concurrent_records req st in
   (success r = true <-> status r = 200 \/ status r = 201) /\
   (success r = false <-> status r = 400 \/ status r = 500) /\
   (success r = true ->
    exists row, In row (contact_submissions (records s')) /\
                field "data" (body r) = contact_data row)) /\
  (let '(r, s') := create_achievement env concurrent_records req st in
   (success r = true <-> status r = 200 \/ status r = 201) /\
   (success r = false <-> status r = 400 \/ status r = 500) /\
   (success r = true ->
    exists row, In row (achievements (records s')) /\
                field "data" (body r) = achievement_json row)) /\
  (let '(r, s') := create_quiz_result env concurrent_records req st in
   (success r = true <-> status r = 200 \/ status r = 201) /\
   (success r = false <-> status r = 400 \/ status r = 500) /\
   (success r = true ->
    exists row, In row (quiz_results (records s')) /\
                field "data" (body r) = quiz_json row)).
Proof.
  split; [exact (newsletter_success_names_a_row env req w)|].
  destruct (progress_success_names_a_row env req w) as [P1 P2].
  split; [exact P1 | split; [exact P2|]].
  exact (forms_success_names_a_row env concurrent_records req st).
Qed.

(** X21. A required field that is there but is not text is an error of
    the server, not of the request: the checks look at presence only, and
    [trim] is called on whatever is there.  With a connection, the waitlist
    has by then sent its look-up and sends nothing more, the contact form
    has sent nothing, and both answer 500 with the message of the
    [TypeError]; for a number as [name] the message is
    [name.trim is not a function]. *)
Theorem a_field_that_is_not_text_is_an_error_of_the_server
    (env : Env num) (concurrent_records : nat -> Records -> Records)
    (fs : list (string * jsval num)) (s : jsstring) (e : Error num)
    (w : World) (st : Site) :
  db env = true ->
  (lead_request fs s -> lead_texts fs = Throw e ->
   db_outage env (ticks w) = None ->
   filter (waitlisted_as (trim s))
     (deal_sourcing_waitlist (concurrent env (ticks w) (tables w))) = [] ->
   send_deal_lead env (JObj fs) w =
   (failed "Failed to join deal sourcing waitlist" e,
    committed (concurrent env (ticks w) (tables w)) w)) /\
  (contact_request fs s -> contact_texts fs = Throw e ->
   contact env concurrent_records (JObj fs) st =
   (failed "Failed to submit contact form" e, st)) /\
  (forall n, obj_get "name" fs = JNum n ->
             call_trim "name" (obj_get "name" fs)
             = Throw (TypeError (js "name.trim is not a function"))).
Proof.
  intros Hdb. split; [|split].
  - intros Hreq Ht Hup Hf.
    rewrite (send_deal_lead_valid env fs s w Hreq Hdb).
    unfold handler. unfold bind at 1. unfold select_dealSourcingWaitlist.
    rewrite (db_statement_up env _ w Hup). cbn [fst snd]. rewrite Hf.
    unfold lead_texts in Ht. unfold bind, lift.
    destruct (call_trim "name" (obj_get "name" fs)) as [n|e1];
      [|cbn in Ht; now inversion Ht].
    destruct (phone_column (obj_get "phone" fs)) as [p|e1];
      [|cbn in Ht; now inversion Ht].
    destruct (call_trim "investmentAmount" (obj_get "investmentAmount" fs)) as [a|e1];
      [|cbn in Ht; now inversion Ht].
    destruct (call_trim "experienceLevel" (obj_get "experienceLevel" fs)) as [l|e1];
      [discriminate Ht | cbn in Ht; now inversion Ht].
  - intros (Hn & He & Ha & Hm & Hr) Ht.
    unfold contact, Fhandler, Fbind at 1 2 3 4 5 6, Flift. simpl get. cbv beta iota.
    rewrite Hn, He, Ha, Hm. rewrite (truthy_of_match s Hr). cbn [negb orb].
    unfold call_trim at 1. rewrite Hr, Hdb. cbn [negb].
    unfold contact_texts in Ht. unfold Fbind, Flift.
    destruct (call_trim "name" (obj_get "name" fs)) as [n|e1];
      [|cbn in Ht; now inversion Ht].
    destruct (phone_column (obj_get "phone" fs)) as [p|e1];
      [|cbn in Ht; now inversion Ht].
    destruct (call_trim "investmentAmount" (obj_get "investmentAmount" fs)) as [a|e1];
      [|cbn in Ht; now inversion Ht].
    destruct (call_trim "message" (obj_get "message" fs)) as [m|e1];
      [discriminate Ht | cbn in Ht; now inversion Ht].
  - intros n ->. vm_compute. reflexivity.
Qed.

End Answers.

(** ** Probes *)

Section Probing.

Context {num : Type} {NumOps : JsNumber num} {Driver : PgDriver num}.

(** X22. The two probes never fail.  [GET /health] answers 200 and
    [healthy] whatever the state of the store and of the mail, and touches
    nothing.  [GET /api/test] answers 200 with [success] whatever the store
    does: without a connection it sends no statement and its answer has no
    [databaseTest]; with one it sends one statement, and what the store
    answered is told by [databaseTest.success], with the message of the
    store when it refused; it sends no mail. *)
Theorem probes_never_fail (env : Env num) (process_env : option jsstring) (w : World) :
  (let '(r, w') := health env process_env w in
   status r = 200 /\ field "status" (body r) = JStr (js "healthy") /\ w' = w) /\
  (let '(r, w') := api_test env w in
   status r = 200 /\ success r = true /\
   mail_log w' = mail_log w /\
   (db env = false -> w' = w /\ field "databaseTest" (body r) = JUndefined) /\
   (db env = true ->
    tables w' = concurrent env (ticks w) (tables w) /\
    field "success" (field "databaseTest" (body r)) =
      JBool (match db_outage env (ticks w) with None => true | Some _ => false end) /\
    forall e, db_outage env (ticks w) = Some e ->
              field "error" (field "databaseTest" (body r)) = JStr (message e))).
Proof.
  split.
  - unfold health. repeat split; reflexivity.
  - unfold api_test, database_test, select_now, handler, bind, ret, throw, try_catch,
      new_Date, db_statement.
    repeat (cbv beta; step).
    all: cbn [status].
    all: split; [reflexivity | split; [reflexivity | split; [reflexivity|]]].
    all: split; [intros H; try discriminate H; try congruence
                | intros H; try discriminate H; try congruence].
    all: try (split; reflexivity).
    all: split; [reflexivity | split; [reflexivity|]].
    all: intros e0 He; try discriminate He.
    all: injection He as <-; reflexivity.
Qed.

End Probing.

(** ** The rest of the server at work *)

Lemma quiet_nobody : quiet nobody.
Proof. intros n r. reflexivity. Qed.

Lemma address_check_is_the_regular_expression_witness :
  emailRegex_test (js "a@b.co") = true /\
  trim (js "a@b.co") = js "a@b.co" /\
  count_occ N.eq_dec (js "a@b.co") at_sign = 1%nat.
Proof.
  assert (H : emailRegex_test (js "a@b.co") = true) by (vm_compute; reflexivity).
  destruct (address_check_is_the_regular_expression (js "a@b.co")) as [_ T].
  destruct (T H) as (E1 & E2 & _).
  split; [exact H | split; [exact E1 | exact E2]].
Defined.

(** An empty request is refused, and a good one finds no connection:
    nothing has happened. *)
Lemma refused_request_leaves_no_trace_witness :
  status (fst (newsletter calm (JObj []) start)) = 400 /\
  snd (newsletter calm (JObj []) start) = start /\
  db detached = false /\
  snd (send_deal_lead detached (JObj lead_fields) start) = start.
Proof.
  assert (H : status (fst (newsletter calm (JObj []) start)) = 400)
    by (vm_compute; reflexivity).
  destruct (refused_request_leaves_no_trace calm (JObj []) start) as (T1 & _).
  destruct (refused_request_leaves_no_trace detached (JObj lead_fields) start)
    as (_ & T2 & _).
  split; [exact H | split; [exact (T1 (or_introl H)) | split; [reflexivity|]]].
  exact (T2 (or_intror eq_refl)).
Defined.


(** A subscription leaves the waitlist alone and adds one row. *)
Lemma each_handler_writes_its_own_table_witness :
  alone calm /\
  deal_sourcing_waitlist
    (tables (snd (newsletter calm (JObj subscription_fields) start))) = [] /\
  (List.length
     (newsletter_subscriptions
        (tables (snd (newsletter calm (JObj subscription_fields) start)))) <= 1)%nat.
Proof.
  split; [exact alone_calm|].
  destruct (each_handler_writes_its_own_table calm (JObj subscription_fields) start
              alone_calm) as ((l & k & E & Hl & _) & _).
  rewrite E. cbn [deal_sourcing_waitlist newsletter_subscriptions
                  set_newsletter_subscriptions tables start no_rows app].
  split; [reflexivity | exact Hl].
Defined.

Lemma tables_stay_sound_witness :
  subscriptions_sound (tables start) /\
  subscriptions_sound (tables (snd (newsletter calm (JObj subscription_fields) start))).
Proof.
  assert (H : subscriptions_sound (tables start)).
  { split; [constructor | split; constructor]. }
  destruct (tables_stay_sound calm (JObj subscription_fields) start) as (T & _).
  split; [exact H|]. apply T; [|exact H]. intros n t Ht. exact Ht.
Defined.

(** [a@b.com] and [A@b.com] are two subscribers. *)
Lemma different_addresses_are_different_subscribers_witness :
  store_up calm /\ alone calm /\
  trim (js " a@b.com ") <> trim (js "A@b.com") /\
  List.length
    (newsletter_subscriptions
       (tables
          (snd (newsletter calm (JObj capital_subscription_fields)
                  (at_time new_year
                     (snd (newsletter calm (JObj subscription_fields) start)))))))
  = 2%nat.
Proof.
  assert (N : trim (js " a@b.com ") <> trim (js "A@b.com"))
    by (vm_compute; discriminate).
  assert (A1 : emailRegex_test (trim (js " a@b.com ")) = true)
    by (vm_compute; reflexivity).
  assert (A2 : emailRegex_test (trim (js "A@b.com")) = true)
    by (vm_compute; reflexivity).
  assert (A3 : existsb (subscribed_as (trim (js " a@b.com ")))
                 (newsletter_subscriptions (tables start)) = false)
    by (vm_compute; reflexivity).
  assert (A4 : existsb (subscribed_as (trim (js "A@b.com")))
                 (newsletter_subscriptions (tables start)) = false)
    by (vm_compute; reflexivity).
  split; [exact store_up_calm | split; [exact alone_calm | split; [exact N|]]].
  destruct (different_addresses_are_different_subscribers calm start new_year
              store_up_calm alone_calm) as [T _].
  assert (T' := T subscription_fields capital_subscription_fields
                  (js " a@b.com ") (js "A@b.com") eq_refl eq_refl A1 A2 N A3 A4).
  clear T. cbv zeta in T'.
  destruct (newsletter calm (JObj subscription_fields) start) as [r1 w1].
  cbn [snd].
  destruct (newsletter calm (JObj capital_subscription_fields) (at_time new_year w1))
    as [r2 w2].
  cbn [snd]. destruct T' as (_ & _ & ->). reflexivity.
Defined.

(** Two requests for one key, the second between the look-up and the
    insert of the first: two rows. *)
Lemma racing_progress_requests_duplicate_the_key_witness :
  db racing_progress = true /\
  progress_request progress_fields (js "u1") (js "m1") /\
  status (fst (create_progress racing_progress (JObj progress_fields) start)) = 201 /\
  List.length
    (filter (progress_of (js "u1") (js "m1"))
       (learning_progress
          (tables (snd (create_progress racing_progress (JObj progress_fields) start)))))
  = 2%nat.
Proof.
  assert (R : progress_request progress_fields (js "u1") (js "m1"))
    by (repeat split; vm_compute; reflexivity).
  assert (F0 : filter (progress_of (js "u1") (js "m1"))
                 (learning_progress
                    (concurrent racing_progress (ticks start) (tables start))) = [])
    by (vm_compute; reflexivity).
  assert (T := racing_progress_requests_duplicate_the_key racing_progress start
                 (js "u1") (js "m1") progress_fields eq_refl eq_refl eq_refl R F0).
  cbv zeta in T.
  split; [reflexivity | split; [exact R|]].
  destruct (create_progress racing_progress (JObj progress_fields) start) as [r1 w1].
  destruct (update_progress racing_progress (js "u1") (js "m1") (JObj progress_fields)
              start) as [r2 w2].
  cbn [fst snd]. destruct T as (E1 & _ & _ & _ & E2).
  split; [rewrite E1; reflexivity|].
  rewrite E2. vm_compute. reflexivity.
Defined.

(** Nobody has rows yet: an empty list; and with the store out of reach,
    its message. *)
Lemma progress_listing_never_misses_witness :
  fst (get_progress calm (js "u1") start) = listing [] /\
  status (fst (get_progress down (js "u1") start)) = 500.
Proof.
  assert (X : existsb (progress_by (js "u1"))
                (learning_progress (concurrent calm (ticks start) (tables start)))
              = false) by (vm_compute; reflexivity).
  assert (T1 := progress_listing_never_misses calm (js "u1") start).
  assert (T2 := progress_listing_never_misses down (js "u1") start).
  cbv zeta in T1, T2.
  destruct (get_progress calm (js "u1") start) as [r1 w1].
  destruct (get_progress down (js "u1") start) as [r2 w2].
  cbn [fst]. destruct T1 as (_ & _ & T1). destruct T2 as (_ & T2 & _).
  destruct (T1 eq_refl eq_refl) as (_ & _ & _ & E1).
  split; [exact (E1 X)|]. rewrite (T2 unreachable eq_refl eq_refl). reflexivity.
Defined.

Lemma saved_progress_is_listed_witness :
  store_up calm /\ alone calm /\
  progress_request progress_fields (js "u1") (js "m1") /\
  (let '(r1, w1) := create_progress calm (JObj progress_fields) start in
   let '(l1, v1) := get_progress calm (js "u1") (at_time new_year w1) in
   field "data" (body l1) = JArr [field "data" (body r1)]).
Proof.
  assert (R : progress_request progress_fields (js "u1") (js "m1"))
    by (repeat split; vm_compute; reflexivity).
  split; [exact store_up_calm | split; [exact alone_calm | split; [exact R|]]].
  assert (T := saved_progress_is_listed calm start (js "u1") (js "m1") progress_fields
                 new_year store_up_calm alone_calm R).
  destruct (create_progress calm (JObj progress_fields) start) as [r1 w1] eqn:E1.
  destruct (update_progress calm (js "u1") (js "m1") (JObj progress_fields) start)
    as [r2 w2].
  destruct (get_progress calm (js "u1") (at_time new_year w1)) as [l1 v1].
  destruct (get_progress calm (js "u1") (at_time new_year w2)) as [l2 v2].
  destruct T as (items & -> & _ & _ & _ & -> & _).
  vm_compute in E1. injection E1 as <- <-. vm_compute. reflexivity.
Defined.

(** The same form twice: two rows, and the message of white space is
    stored as the empty string. *)
Lemma every_contact_submission_is_kept_witness :
  store_up calm /\ quiet nobody /\
  contact_request contact_fields (js "a@b.com") /\
  contact_columns contact_fields (js "Ann") None (js "50000") [] /\
  (let '(r1, s1) := contact calm nobody (JObj contact_fields) opening in
   let '(r2, s2) := contact calm nobody (JObj contact_fields) (later new_year s1) in
   status r1 = 201 /\ status r2 = 201 /\
   map contactSubmissions.id (contact_submissions (records s2)) = [1; 2] /\
   map contactSubmissions.message (contact_submissions (records s2)) = [[]; []]).
Proof.
  assert (R : contact_request contact_fields (js "a@b.com"))
    by (repeat split; vm_compute; reflexivity).
  assert (C : contact_columns contact_fields (js "Ann") None (js "50000") [])
    by (repeat split; vm_compute; reflexivity).
  split; [exact store_up_calm | split; [exact quiet_nobody|]].
  split; [exact R | split; [exact C|]].
  assert (T := every_contact_submission_is_kept calm nobody opening new_year
                 contact_fields (js "a@b.com") (js "Ann") None (js "50000") []
                 store_up_calm quiet_nobody R C).
  cbv zeta in T.
  destruct (contact calm nobody (JObj contact_fields) opening) as [r1 s1].
  destruct (contact calm nobody (JObj contact_fields) (later new_year s1)) as [r2 s2].
  destruct T as (-> & -> & -> & _).
  split; [reflexivity | split; [reflexivity | split; reflexivity]].
Defined.

Lemma refused_form_leaves_no_trace_witness :
  status (fst (create_quiz_result calm nobody (JObj []) opening)) = 400 /\
  snd (create_quiz_result calm nobody (JObj []) opening) = opening /\
  db detached = false /\
  snd (contact detached nobody (JObj contact_fields) opening) = opening.
Proof.
  assert (H : status (fst (create_quiz_result calm nobody (JObj []) opening)) = 400)
    by (vm_compute; reflexivity).
  destruct (refused_form_leaves_no_trace calm nobody (JObj []) opening)
    as (_ & _ & T1 & _).
  destruct (refused_form_leaves_no_trace detached nobody (JObj contact_fields) opening)
    as (T2 & _).
  split; [exact H | split; [exact (T1 (or_introl H)) | split; [reflexivity|]]].
  exact (T2 (or_intror eq_refl)).
Defined.

(** The badge keeps its first title. *)
Lemma first_achievement_wins_witness :
  store_up calm /\ quiet nobody /\
  achievement_request badge_fields (js "u1") (js "first-steps") /\
  achievement_request second_badge_fields (js "u1") (js "first-steps") /\
  (let '(r1, s1) := create_achievement calm nobody (JObj badge_fields) opening in
   let '(r2, s2) :=
     create_achievement calm nobody (JObj second_badge_fields) (later new_year s1) in
   status r1 = 201 /\ status r2 = 200 /\
   data "title" r2 = JStr (js "First steps") /\
   records s2 = records s1).
Proof.
  assert (R1 : achievement_request badge_fields (js "u1") (js "first-steps"))
    by (repeat split; vm_compute; reflexivity).
  assert (R2 : achievement_request second_badge_fields (js "u1") (js "first-steps"))
    by (repeat split; vm_compute; reflexivity).
  assert (X : existsb (achievement_of (js "u1") (js "first-steps"))
                (achievements (records opening)) = false)
    by (vm_compute; reflexivity).
  split; [exact store_up_calm | split; [exact quiet_nobody|]].
  split; [exact R1 | split; [exact R2|]].
  assert (T := first_achievement_wins calm nobody opening new_year
                 badge_fields second_badge_fields (js "u1") (js "first-steps")
                 store_up_calm quiet_nobody R1 R2 X).
  cbv zeta in T.
  destruct (create_achievement calm nobody (JObj badge_fields) opening) as [r1 s1].
  destruct (create_achievement calm nobody (JObj second_badge_fields)
              (later new_year s1)) as [r2 s2].
  destruct T as (-> & -> & _ & ->). rewrite !data_answer.
  split; [reflexivity | split; [reflexivity | split; [|reflexivity]]].
  vm_compute. reflexivity.
Defined.

(** Two requests for one badge, the second between the look-up and the
    insert of the first: two rows. *)
Lemma racing_achievements_duplicate_the_badge_witness :
  achievement_request badge_fields (js "u1") (js "first-steps") /\
  status (fst (create_achievement calm rival_badge (JObj badge_fields) opening)) = 201 /\
  List.length
    (filter (achievement_of (js "u1") (js "first-steps"))
       (achievements
          (records (snd (create_achievement calm rival_badge (JObj badge_fields)
                           opening)))))
  = 2%nat.
Proof.
  assert (R : achievement_request badge_fields (js "u1") (js "first-steps"))
    by (repeat split; vm_compute; reflexivity).
  assert (F0 : filter (achievement_of (js "u1") (js "first-steps"))
                 (achievements (rival_badge (ticks (world opening)) (records opening)))
               = []) by (vm_compute; reflexivity).
  assert (T := racing_achievements_duplicate_the_badge calm rival_badge opening
                 badge_fields (js "u1") (js "first-steps")
                 eq_refl eq_refl eq_refl R F0).
  cbv zeta in T. split; [exact R|].
  destruct (create_achievement calm rival_badge (JObj badge_fields) opening) as [r s'].
  cbn [fst snd]. destruct T as (E1 & _ & E2).
  split; [rewrite E1; reflexivity|].
  rewrite E2. vm_compute. reflexivity.
Defined.

(** A score of zero is stored as [0]; a score of [null] is an error of
    the server. *)
Lemma quiz_score_is_required_not_checked_witness :
  quiz_request quiz_fields /\
  map quizResults.score
    (quiz_results (records (snd (create_quiz_result calm nobody (JObj quiz_fields)
                                   opening)))) = [js "0"] /\
  status (fst (create_quiz_result calm nobody (JObj null_score_fields) opening)) = 500 /\
  snd (create_quiz_result calm nobody (JObj null_score_fields) opening) = opening.
Proof.
  assert (R1 : quiz_request quiz_fields) by (repeat split; vm_compute; reflexivity).
  assert (R2 : quiz_request null_score_fields)
    by (repeat split; vm_compute; reflexivity).
  assert (Q1 : call_toString "totalQuestions" (obj_get "totalQuestions" quiz_fields)
               = Ok (js "10")) by (vm_compute; reflexivity).
  assert (Q2 : call_toString "totalQuestions"
                 (obj_get "totalQuestions" null_score_fields)
               = Ok (js "10")) by (vm_compute; reflexivity).
  assert (T1 := quiz_score_is_required_not_checked calm nobody opening quiz_fields
                  (js "10") R1 Q1 eq_refl eq_refl).
  assert (T2 := quiz_score_is_required_not_checked calm nobody opening
                  null_score_fields (js "10") R2 Q2 eq_refl eq_refl).
  cbv zeta in T1, T2. split; [exact R1|].
  destruct (create_quiz_result calm nobody (JObj quiz_fields) opening) as [r1 s1].
  destruct (create_quiz_result calm nobody (JObj null_score_fields) opening) as [r2 s2].
  cbn [fst snd]. destruct T1 as (_ & _ & T1). destruct T2 as (_ & T2 & _).
  destruct (T1 (js "0")) as (x & _ & E & _ & Es & _).
  { right. exists 0. split; [reflexivity | vm_compute; reflexivity]. }
  destruct (T2 eq_refl) as [-> ->].
  split; [|split; reflexivity].
  rewrite E. rewrite map_app. cbn [map]. rewrite Es. reflexivity.
Defined.

Lemma earned_badges_and_quiz_results_are_listed_witness :
  store_up calm /\ quiet nobody /\
  achievement_request badge_fields (js "u1") (js "first-steps") /\
  (let '(r1, s1) := create_achievement calm nobody (JObj badge_fields) opening in
   let '(l, s2) := get_achievements calm nobody (js "u1") (later new_year s1) in
   field "data" (body l) = JArr [field "data" (body r1)]).
Proof.
  assert (R : achievement_request badge_fields (js "u1") (js "first-steps"))
    by (repeat split; vm_compute; reflexivity).
  split; [exact store_up_calm | split; [exact quiet_nobody | split; [exact R|]]].
  destruct (earned_badges_and_quiz_results_are_listed calm nobody opening new_year
              store_up_calm quiet_nobody) as [T _].
  assert (T' := T badge_fields (js "u1") (js "first-steps") R). clear T.
  destruct (create_achievement calm nobody (JObj badge_fields) opening)
    as [r1 s1] eqn:E1.
  destruct (get_achievements calm nobody (js "u1") (later new_year s1)) as [l s2].
  destruct T' as (items & -> & _ & -> & _).
  vm_compute in E1. injection E1 as <- <-. vm_compute. reflexivity.
Defined.

(** A store that has an older [newsletter_subscriptions]: the table keeps
    its definition and the seven others are made; and with statement 3
    refused, the first three tables exist all the same. *)
Lemma createTables_is_repeatable_and_not_atomic_witness :
  fst (createTables (fun _ => @None (Error Z)) true old_catalog) = true /\
  List.length (snd (createTables (fun _ => @None (Error Z)) true old_catalog))
  = 8%nat /\
  nth_error (snd (createTables (fun _ => @None (Error Z)) true old_catalog)) 0
  = nth_error old_catalog 0 /\
  refused_at 3 3 = Some unreachable /\
  fst (createTables (refused_at 3) true []) = false /\
  map fst (snd (createTables (refused_at 3) true []))
  = ["newsletter_subscriptions"; "contact_submissions"; "deal_sourcing_waitlist"].
Proof.
  destruct (createTables_is_repeatable_and_not_atomic (fun _ => @None (Error Z))
              old_catalog) as (_ & T1 & _).
  destruct (T1 (fun _ => eq_refl)) as (E1 & _).
  destruct (createTables_is_repeatable_and_not_atomic (refused_at 3) [])
    as (_ & _ & T2).
  assert (U : forall i, (i < 3)%nat -> refused_at 3 i = None).
  { intros i Hi. unfold refused_at. destruct (Nat.eqb_spec i 3); [lia | reflexivity]. }
  assert (L : (3 < List.length statements)%nat) by (vm_compute; lia).
  rewrite E1, (T2 3%nat unreachable U eq_refl L).
  vm_compute. repeat split; reflexivity.
Defined.

Lemma each_form_writes_its_own_table_witness :
  quiet nobody /\
  achievements (records (snd (contact calm nobody (JObj contact_fields) opening))) = [] /\
  quiz_results (records (snd (contact calm nobody (JObj contact_fields) opening))) = [] /\
  (List.length
     (contact_submissions
        (records (snd (contact calm nobody (JObj contact_fields) opening)))) <= 1)%nat.
Proof.
  split; [exact quiet_nobody|].
  destruct (each_form_writes_its_own_table calm nobody (JObj contact_fields) opening
              quiet_nobody) as ((l & k & E & Hl & _) & _).
  rewrite E. cbn [achievements quiz_results contact_submissions set_contact_submissions
                  records opening no_records app].
  split; [reflexivity | split; [reflexivity | exact Hl]].
Defined.

Lemma a_success_names_a_stored_row_witness :
  success (fst (newsletter calm (JObj subscription_fields) start)) = true /\
  exists row,
    In row (newsletter_subscriptions
              (tables (snd (newsletter calm (JObj subscription_fields) start)))) /\
    data "email" (fst (newsletter calm (JObj subscription_fields) start))
    = JStr (newsletterSubscriptions.email row).
Proof.
  assert (H : success (fst (newsletter calm (JObj subscription_fields) start)) = true)
    by (vm_compute; reflexivity).
  destruct (a_success_names_a_stored_row calm nobody (JObj subscription_fields)
              start opening) as (T & _).
  destruct (newsletter calm (JObj subscription_fields) start) as [r w'].
  cbn [fst snd] in *. destruct T as (_ & _ & T).
  destruct (T H) as (row & Hin & _ & He).
  split; [exact H|]. exists row. split; [exact Hin | exact He].
Defined.

(** Every sender refused and the store up: the report is not sent, it is
    stored, and the queue has its row. *)
Lemma report_flags_tell_what_was_done_witness :
  alone refusing /\
  status (fst (inflation_email refusing (JObj report_fields) start)) = 200 /\
  data "emailSent" (fst (inflation_email refusing (JObj report_fields) start))
  = JBool false /\
  data "emailStored" (fst (inflation_email refusing (JObj report_fields) start))
  = JBool true /\
  List.length
    (pending_emails (tables (snd (inflation_email refusing (JObj report_fields) start))))
  = 1%nat.
Proof.
  assert (A : alone refusing) by (intros n t; reflexivity).
  assert (H : status (fst (inflation_email refusing (JObj report_fields) start)) = 200)
    by (vm_compute; reflexivity).
  assert (S1 : data "emailSent"
                 (fst (inflation_email refusing (JObj report_fields) start))
               = JBool false) by (vm_compute; reflexivity).
  assert (S2 : data "emailStored"
                 (fst (inflation_email refusing (JObj report_fields) start))
               = JBool true) by (vm_compute; reflexivity).
  assert (T := report_flags_tell_what_was_done refusing (JObj report_fields) start A).
  split; [exact A|].
  destruct (inflation_email refusing (JObj report_fields) start) as [r w'].
  cbn [fst snd] in *. destruct T as (_ & _ & T).
  destruct (T H) as (sent & stored & E1 & E2 & _ & _ & _ & L).
  rewrite S2 in E2. injection E2 as <-.
  split; [exact H | split; [exact S1 | split; [exact S2|]]].
  rewrite L. reflexivity.
Defined.

(** A lead whose name is the number 7: the look-up is made, nothing is
    written, and the answer is 500. *)
Lemma a_field_that_is_not_text_is_an_error_of_the_server_witness :
  db calm = true /\
  lead_request unnamed_lead_fields (js "a@b.com") /\
  status (fst (send_deal_lead calm (JObj unnamed_lead_fields) start)) = 500 /\
  field "error" (body (fst (send_deal_lead calm (JObj unnamed_lead_fields) start)))
  = JStr (js "name.trim is not a function") /\
  ticks (snd (send_deal_lead calm (JObj unnamed_lead_fields) start)) = 1%nat /\
  deal_sourcing_waitlist
    (tables (snd (send_deal_lead calm (JObj unnamed_lead_fields) start))) = [].
Proof.
  assert (R : lead_request unnamed_lead_fields (js "a@b.com"))
    by (repeat split; vm_compute; reflexivity).
  assert (X : lead_texts unnamed_lead_fields
              = Throw (TypeError (js "name.trim is not a function")))
    by (vm_compute; reflexivity).
  assert (F0 : filter (waitlisted_as (trim (js "a@b.com")))
                 (deal_sourcing_waitlist (concurrent calm (ticks start) (tables start)))
               = []) by (vm_compute; reflexivity).
  destruct (a_field_that_is_not_text_is_an_error_of_the_server calm nobody
              unnamed_lead_fields (js "a@b.com")
              (TypeError (js "name.trim is not a function")) start opening eq_refl)
    as (T & _).
  rewrite (T R X eq_refl F0).
  split; [reflexivity | split; [exact R|]].
  vm_compute. repeat split; reflexivity.
Defined.

(** The store out of reach: the probe answers 200 and says so. *)
Lemma probes_never_fail_witness :
  db down = true /\ db_outage down (ticks start) = Some unreachable /\
  status (fst (api_test down start)) = 200 /\
  field "success" (field "databaseTest" (body (fst (api_test down start))))
  = JBool false /\
  field "error" (field "databaseTest" (body (fst (api_test down start))))
  = JStr (js "fetch failed").
Proof.
  destruct (probes_never_fail down None start) as [_ T].
  destruct (api_test down start) as [r w']. cbn [fst].
  destruct T as (E1 & _ & _ & _ & T). destruct (T eq_refl) as (_ & E2 & E3).
  split; [reflexivity | split; [reflexivity | split; [exact E1|]]].
  split; [exact E2 | exact (E3 unreachable eq_refl)].
Defined.
